(** * PatentScope retrieval engine: a shallow embedding and its properties

  The development follows the Python sources of the repository:
  - [app/scraper.py] and [app/parser.py] (module [App]): query
    construction, fetch with retry, field extraction, the search entry
    point;
  - [app/models.py] (module [Models]): the validation of a search
    request;
  - [patentscope_scraper.py] and [config_patentscope.py] (module
    [Scraper]): the adaptive rate limiter, the retried request, the
    pagination loop, validation, the query, incremental saving, the
    demonstration data and the page of details;
  - [busca_completa_patentscope.py] and [patentscope_detalhes.py]
    (module [Completa]): deduplication and grouping by publication number.

  Python strings are modelled by [string]; a character is a code point
  below 256.  Python [int] is [Z]; [int(s)] refuses a string of more than
  4300 digits.  Python [float] delays are modelled by exact rationals
  ([Q]): rounding is outside the model, but not the [OverflowError] that
  the conversion of a large [int] to a [float] raises.  Opening a file
  can fail.  Python [dict]s with string keys are [gmap string _]; a dict
  whose iteration order is observed is an association list in insertion
  order. *)

From Stdlib Require Import ZArith QArith Lqa String Ascii List Bool Lia.
From Stdlib Require Import DecimalString.
From stdpp Require Import gmap strings list.

Local Open Scope string_scope.
Local Open Scope Z_scope.

(** ** Python string primitives *)

Module PyStr.

(** The double quote character, and the string holding only it. *)
Definition dquote_char : ascii := ascii_of_nat 34.
Definition dquote : string := String dquote_char EmptyString.

Definition code (c : ascii) : N := N_of_ascii c.

(** [str.isspace] on one character, for code points below 256:
    U+0009..U+000D, U+001C..U+0020, U+0085 and U+00A0.  The pattern
    class [\s] of [re] on [str] patterns is the same set. *)
Definition is_space (c : ascii) : bool :=
  let n := code c in
  (((9 <=? n) && (n <=? 13)) || ((28 <=? n) && (n <=? 32))
   || (n =? 133) || (n =? 160))%N.

(** [\d] of [re] and the decimal digits accepted by [int], below 256. *)
Definition is_digit (c : ascii) : bool :=
  let n := code c in ((48 <=? n) && (n <=? 57))%N.

Definition is_empty (s : string) : bool :=
  match s with EmptyString => true | String _ _ => false end.

(** Truth value of a string: [if s:]. *)
Definition str_truthy (s : string) : bool := negb (is_empty s).

Fixpoint str_forall (p : ascii -> bool) (s : string) : bool :=
  match s with
  | EmptyString => true
  | String c r => p c && str_forall p r
  end.

Fixpoint str_exists (p : ascii -> bool) (s : string) : bool :=
  match s with
  | EmptyString => false
  | String c r => p c || str_exists p r
  end.

(** [s.lstrip()], [s.rstrip()], [s.strip()] with no argument. *)
Fixpoint lstrip (s : string) : string :=
  match s with
  | EmptyString => EmptyString
  | String c r => if is_space c then lstrip r else s
  end.

Fixpoint rstrip (s : string) : string :=
  match s with
  | EmptyString => EmptyString
  | String c r =>
      let r' := rstrip r in
      if is_space c && is_empty r' then EmptyString else String c r'
  end.

Definition strip (s : string) : string := rstrip (lstrip s).

(** [s.replace(c, '')] for a one-character [c]. *)
Fixpoint remove_char (c : ascii) (s : string) : string :=
  match s with
  | EmptyString => EmptyString
  | String d r =>
      if Ascii.eqb d c then remove_char c r else String d (remove_char c r)
  end.

(** [needle in hay] on strings: substring test. *)
Fixpoint contains (needle hay : string) : bool :=
  String.prefix needle hay
  || match hay with
     | EmptyString => false
     | String _ r => contains needle r
     end.

(** [s.lower()] below 256: A..Z and the letters U+00C0..U+00DE except
    the multiplication sign U+00D7. *)
Definition lower_char (c : ascii) : ascii :=
  let n := code c in
  if (((65 <=? n) && (n <=? 90))
      || ((192 <=? n) && (n <=? 222) && negb (n =? 215)))%N
  then ascii_of_N (n + 32) else c.

Fixpoint lower (s : string) : string :=
  match s with
  | EmptyString => EmptyString
  | String c r => String (lower_char c) (lower r)
  end.

(** [re.findall(r'\d[\d,]*', s)]: the maximal runs that start with a
    digit and go on with digits and commas, left to right.  [cur] is the
    run being read, if any. *)
Fixpoint findall_numbers_from (cur : option string) (s : string)
  : list string :=
  match s with
  | EmptyString => match cur with Some n => [n] | None => [] end
  | String c r =>
      match cur with
      | None =>
          if is_digit c
          then findall_numbers_from (Some (String c EmptyString)) r
          else findall_numbers_from None r
      | Some n =>
          if is_digit c || Ascii.eqb c ","%char
          then findall_numbers_from (Some (n +:+ String c EmptyString)) r
          else n :: findall_numbers_from None r
      end
  end.

Definition findall_numbers (s : string) : list string :=
  findall_numbers_from None s.

(** The value of a string of decimal digits. *)
Fixpoint int_digits (acc : Z) (s : string) : option Z :=
  match s with
  | EmptyString => Some acc
  | String c r =>
      if is_digit c
      then int_digits (10 * acc + (Z.of_N (code c) - 48)) r
      else None
  end.

(** The default of [sys.int_max_str_digits] (CPython 3.11 and later, and
    the security releases of the earlier versions): [int] refuses a
    string with more digits. *)
Definition int_max_str_digits : Z := 4300.

(** [int(s)] on a string of decimal digits; [None] stands for the
    [ValueError] raised on a string of more than [int_max_str_digits]
    digits and on anything else that can reach it here (an empty string
    or a character that is not a digit). *)
Definition py_int (s : string) : option Z :=
  match s with
  | EmptyString => None
  | String _ _ =>
      if int_max_str_digits <? Z.of_nat (String.length s) then None
      else int_digits 0 s
  end.

(** The longest prefix of characters satisfying [p]. *)
Fixpoint take_while (p : ascii -> bool) (s : string) : string :=
  match s with
  | EmptyString => EmptyString
  | String c r => if p c then String c (take_while p r) else EmptyString
  end.

(** [re.search(r'docId=([^&\s]+)', s)] and its group 1: the leftmost
    occurrence of [docId=] followed by at least one character other than
    [&] and whitespace, with the longest such run. *)
Definition docId_char (c : ascii) : bool :=
  negb (Ascii.eqb c "&"%char) && negb (is_space c).

Fixpoint skip (n : nat) (s : string) : string :=
  match n, s with
  | O, _ => s
  | S k, String _ r => skip k r
  | S _, EmptyString => EmptyString
  end.

Fixpoint search_docId (s : string) : option string :=
  let here :=
    if String.prefix "docId=" s
    then
      let g := take_while docId_char (skip 6 s) in
      if is_empty g then None else Some g
    else None in
  match here with
  | Some g => Some g
  | None =>
      match s with
      | EmptyString => None
      | String _ r => search_docId r
      end
  end.


(** [str(n)] for an [int]: decimal digits, with a minus sign before a
    negative number. *)
Definition str_of_Z (z : Z) : string :=
  NilZero.string_of_int (Z.to_int z).

(** [s[:n]] for a natural number [n]. *)
Definition prefix_to (n : nat) (s : string) : string := substring 0 n s.

(** [f"{z:0wd}"]: the decimal digits of [z] padded with zeros on the left
    up to the width [w], the sign, if any, coming first and counting in
    the width. *)
Fixpoint zeros (n : nat) : string :=
  match n with
  | O => EmptyString
  | S k => String "0" (zeros k)
  end.

Definition format_0d (width : nat) (z : Z) : string :=
  if z <? 0
  then
    let d := str_of_Z (- z) in
    String "-" (zeros (width - 1 - String.length d) +:+ d)
  else
    let d := str_of_Z z in
    zeros (width - String.length d) +:+ d.

(** The string holding the one character of a code point below 256. *)
Definition chr (n : nat) : string := String (ascii_of_nat n) EmptyString.

End PyStr.


(** ** Python values and dictionaries *)

Inductive pyval :=
| VNone
| VBool (b : bool)
| VInt (z : Z)
| VStr (s : string)
| VList (l : list string).

(** Truth value of a Python value. *)
Definition truthy (v : pyval) : bool :=
match v with
| VNone => false
| VBool b => b
| VInt z => negb (z =? 0)
| VStr s => PyStr.str_truthy s
| VList l => match l with [] => false | _ :: _ => true end
end.

(** [d.get(k)] used as a condition: false when the key is absent. *)
Definition get_truthy (d : gmap string pyval) (k : string) : bool :=
match d !! k with
| Some v => truthy v
| None => false
end.

(** ** [app/parser.py] and [app/scraper.py] *)

Module App.

Import PyStr.

(** The exceptions these two files raise or let through. *)
Inductive exn :=
| ValueError                                  (* [int] on a non-number *)
| ZeroDivisionError                           (* [//] by zero *)
| TimeoutNaRequisicao                         (* raised on the last timeout *)
| ErroHTTP (detail : string)                  (* raised on the last HTTP error *)
| FalhaAoBuscar (url : string) (max_retries : Z).  (* raised after the loop *)

Inductive result (A : Type) :=
| Ok (a : A)
| Raise (e : exn).
Arguments Ok {A} a.
Arguments Raise {A} e.

(** *** The document as the selector library shows it

    A [node] answers a CSS or XPath text query with the matched strings
    in document order: [css n sel] is [n.css(sel).getall()], and
    [.get()] is its first element.  A [document] also answers a CSS
    query with the matched elements. *)
Record node := {
  css : string -> list string;
  xpath : string -> list string
}.

Record document := {
  root : node;
  select : string -> list node
}.

Definition get (l : list string) : option string := head l.

(** [s] between double quotes. *)
Definition quoted (s : string) : string := dquote +:+ s +:+ dquote.

Definition result_selectors : list string :=
  [ ".result-item"; ".patent-result"; "tr.data-row";
    "div[class*=" +:+ quoted "result" +:+ "]";
    "tr[class*=" +:+ quoted "row" +:+ "]";
    "div[id*=" +:+ quoted "result" +:+ "]";
    ".resultSet > div"; "table.resultTable tr" ].

Definition docId_link_text : string :=
  "a[href*=" +:+ quoted "docId" +:+ "]::text".
Definition docId_link_href : string :=
  "a[href*=" +:+ quoted "docId" +:+ "]::attr(href)".

Definition pub_selectors : list string :=
  [ ".publication-number::text"; ".pub-number::text"; docId_link_text;
    ".docId::text"; "td.number::text";
    "span[class*=" +:+ quoted "number" +:+ "]::text" ].

Definition pub_xpath : string :=
  ".//text()[contains(., " +:+ quoted "WO" +:+ ") or contains(., "
  +:+ quoted "US" +:+ ") or contains(., " +:+ quoted "EP" +:+ ")]".

Definition title_selectors : list string :=
  [ ".title::text"; "h3::text"; ".patent-title::text"; docId_link_text;
    "td.title::text"; "div[class*=" +:+ quoted "title" +:+ "]::text" ].

Definition abstract_selectors : list string :=
  [ ".abstract::text"; ".summary::text";
    "div[class*=" +:+ quoted "abstract" +:+ "]::text";
    "td.abstract::text" ].

Definition applicant_selectors : list string :=
  [ ".applicant::text"; ".applicant-name::text";
    "div[class*=" +:+ quoted "applicant" +:+ "]::text";
    "td.applicant::text" ].

Definition inventor_selectors : list string :=
  [ ".inventor::text"; ".inventor-name::text";
    "div[class*=" +:+ quoted "inventor" +:+ "]::text" ].

Definition date_selectors : list string :=
  [ ".publication-date::text"; ".pub-date::text"; "td.date::text";
    "span[class*=" +:+ quoted "date" +:+ "]::text" ].

Definition ipc_selectors : list string :=
  [ ".ipc-code::text"; ".ipc::text";
    "span[class*=" +:+ quoted "ipc" +:+ "]::text" ].

Definition total_selectors : list string :=
  [ ".total-results::text"; ".result-count::text"; "#totalResults::text";
    ".results-info::text";
    "span[class*=" +:+ quoted "total" +:+ "]::text";
    "div[class*=" +:+ quoted "count" +:+ "]::text" ].

(** [for sel in sels: items = selector.css(sel); if items: break]. *)
Fixpoint first_items (doc : document) (sels : list string) : list node :=
  match sels with
  | [] => []
  | sel :: rest =>
      match select doc sel with
      | [] => first_items doc rest
      | items => items
      end
  end.

(** [for sel in sels: x = item.css(sel).get(); if x: break], as the
    value [x] has after the loop when it is true, [None] otherwise. *)
Fixpoint first_match (item : node) (sels : list string) : option string :=
  match sels with
  | [] => None
  | sel :: rest =>
      match get (css item sel) with
      | Some t => if str_truthy t then Some t else first_match item rest
      | None => first_match item rest
      end
  end.

(** [for sel in sels: xs = item.css(sel).getall(); if xs: acc.extend(xs)]. *)
Fixpoint collect (item : node) (sels : list string) : list string :=
  match sels with
  | [] => []
  | sel :: rest => css item sel ++ collect item rest
  end.

(** [[a.strip() for a in xs if a.strip()]]. *)
Definition stripped_nonempty (xs : list string) : list string :=
  filter (fun s => Is_true (str_truthy s)) (map strip xs).

(** [' '.join(xs)]. *)
Fixpoint join_space (xs : list string) : string :=
  match xs with
  | [] => EmptyString
  | [x] => x
  | x :: rest => x +:+ " " +:+ join_space rest
  end.

(** [if x: result[key] = x.strip()]. *)
Definition set_stripped (key : string) (x : option string)
    (result : gmap string pyval) : gmap string pyval :=
  match x with
  | Some t => if str_truthy t then <[key := VStr (strip t)]> result else result
  | None => result
  end.

(** The body of the loop over items, up to the final test. *)
Definition parse_item (item : node) : gmap string pyval :=
  let result : gmap string pyval := ∅ in
  let pub_number := first_match item pub_selectors in
  let pub_number :=
    match pub_number with
    | Some t => Some t
    | None => get (xpath item pub_xpath)
    end in
  let result := set_stripped "publication_number" pub_number result in
  let href := get (css item docId_link_href) in
  let result :=
    match href with
    | Some h =>
        if str_truthy h
        then match search_docId h with
             | Some g => <["patent_id" := VStr g]> result
             | None => result
             end
        else result
    | None => result
    end in
  let result :=
    match result !! "patent_id", result !! "publication_number" with
    | None, Some p => <["patent_id" := p]> result
    | _, _ => result
    end in
  let result := set_stripped "title" (first_match item title_selectors) result in
  let abstract_parts := collect item abstract_selectors in
  let result :=
    match abstract_parts with
    | [] => result
    | _ => <["abstract" := VStr (strip (join_space abstract_parts))]> result
    end in
  let result :=
    <["applicants" :=
        VList (stripped_nonempty (collect item applicant_selectors))]> result in
  let result :=
    <["inventors" :=
        VList (stripped_nonempty (collect item inventor_selectors))]> result in
  let result :=
    set_stripped "publication_date" (first_match item date_selectors) result in
  <["ipc_codes" := VList (stripped_nonempty (collect item ipc_selectors))]> result.

(** [if result.get('patent_id') or result.get('publication_number')]. *)
Definition has_minimum (result : gmap string pyval) : bool :=
  get_truthy result "patent_id" || get_truthy result "publication_number".

Definition parse_search_results (doc : document) : list (gmap string pyval) :=
  filter (fun r => Is_true (has_minimum r))
         (map parse_item (first_items doc result_selectors)).

(** [max(int(n.replace(',', '')) for n in numbers)] on a non-empty list. *)
Fixpoint ints_of (numbers : list string) : option (list Z) :=
match numbers with
| [] => Some []
| n :: rest =>
    match py_int (remove_char ","%char n), ints_of rest with
    | Some z, Some zs => Some (z :: zs)
    | _, _ => None
    end
end.

Definition py_max (z : Z) (zs : list Z) : Z := fold_left Z.max zs z.

(** [numbers = re.findall(...); if numbers: return max(...)]: [None] when
    the text holds no number and the search goes on. *)
Definition total_in (text : string) : option (result Z) :=
match findall_numbers text with
| [] => None
| numbers =>
    match ints_of numbers with
    | Some (z :: zs) => Some (Ok (py_max z zs))
    | _ => Some (Raise ValueError)
    end
end.

Fixpoint total_by_selectors (n : node) (sels : list string)
  : option (result Z) :=
match sels with
| [] => None
| sel :: rest =>
    match get (css n sel) with
    | Some text =>
        if str_truthy text
        then match total_in text with
             | Some r => Some r
             | None => total_by_selectors n rest
             end
        else total_by_selectors n rest
    | None => total_by_selectors n rest
    end
end.

Definition total_keywords : list string :=
[ "total"; "results"; "found"; "resultados" ].

Definition has_keyword (text : string) : bool :=
existsb (fun keyword => contains keyword (lower text)) total_keywords.

Fixpoint total_by_texts (texts : list string) : option (result Z) :=
match texts with
| [] => None
| text :: rest =>
    if has_keyword text
    then match total_in text with
         | Some r => Some r
         | None => total_by_texts rest
         end
    else total_by_texts rest
end.

Definition extract_total_results (doc : document) : result Z :=
match total_by_selectors (root doc) total_selectors with
| Some r => r
| None =>
    match total_by_texts (xpath (root doc) "//text()") with
    | Some r => r
    | None => Ok 0
    end
end.

(** *** [app/scraper.py] *)

Definition BASE_URL : string := "https://patentscope.wipo.int".
Definition SEARCH_URL : string := BASE_URL +:+ "/search/en/result.jsf".

(** What [session.get] does on one call: a response, or one of the two
    exception classes the retry loop handles ([httpx.TimeoutException] is
    caught before [httpx.HTTPError]).  [status_error] is the text of the
    [HTTPStatusError] that [raise_for_status] raises for this response. *)
Record response := {
  status_code : Z;
  text : string;
  status_error : string
}.

Inductive outcome :=
| Responds (r : response)
| TimesOut
| HTTPFails (detail : string).

Inductive event :=
| EvGet (url : string) (params : gmap string pyval)
| EvBackoff (attempt : Z)        (* sleep of [2 ** attempt] plus jitter *)
| EvCooldown.                    (* sleep of 5 seconds after a 429 *)

(** The world a scraper runs in: the server, as the outcome of the n-th
    request given what is asked; the requests issued so far; the log of
    effects, oldest first; and the two clock readings of a search. *)
Record world := {
  server : nat -> string -> gmap string pyval -> outcome;
  issued : nat;
  log : list event;
  duration_ms : Z;
  utcnow : string
}.

Definition M (A : Type) : Type := world -> result A * world.

Definition ret {A} (a : A) : M A := fun w => (Ok a, w).
Definition raise {A} (e : exn) : M A := fun w => (Raise e, w).
Definition bind {A B} (m : M A) (k : A -> M B) : M B :=
fun w =>
  match m w with
  | (Ok a, w') => k a w'
  | (Raise e, w') => (Raise e, w')
  end.

(** [try: body  except Exception as e: handler(e)]. *)
Definition try_except {A} (body : M A) (handler : exn -> M A) : M A :=
fun w =>
  match body w with
  | (Ok a, w') => (Ok a, w')
  | (Raise e, w') => handler e w'
  end.

Notation "x <- m ;; k" := (bind m (fun x => k))
  (at level 100, m at next level, right associativity).

Definition lift {A} (r : result A) : M A := fun w => (r, w).

Definition emit (e : event) : M unit :=
fun w =>
  (Ok tt, {| server := server w; issued := issued w; log := log w ++ [e];
             duration_ms := duration_ms w; utcnow := utcnow w |}).

Definition session_get (url : string) (params : gmap string pyval)
  : M outcome :=
fun w =>
  (Ok (server w (issued w) url params),
   {| server := server w; issued := S (issued w);
      log := log w ++ [EvGet url params];
      duration_ms := duration_ms w; utcnow := utcnow w |}).

(** [raise_for_status] returns normally on a 2xx status. *)
Definition is_success (r : response) : bool :=
(200 <=? status_code r) && (status_code r <=? 299).

(** The loop [for attempt in range(max_retries)] with [pending] iterations
    left, and the [raise] that follows it. *)
Fixpoint fetch_attempts (pending : nat) (attempt : Z) (url : string)
  (params : gmap string pyval) (max_retries : Z) : M string :=
match pending with
| O => raise (FalhaAoBuscar url max_retries)
| S k =>
    let continue := fetch_attempts k (attempt + 1) url params max_retries in
    let last := attempt =? max_retries - 1 in
    _ <- (if 0 <? attempt then emit (EvBackoff attempt) else ret tt) ;;
    o <- session_get url params ;;
    match o with
    | Responds r =>
        if status_code r =? 200 then ret (text r)
        else if status_code r =? 429 then (_ <- emit EvCooldown ;; continue)
        else if 500 <=? status_code r then continue
        else if is_success r then continue
        else if last then raise (ErroHTTP (status_error r)) else continue
    | TimesOut => if last then raise TimeoutNaRequisicao else continue
    | HTTPFails detail => if last then raise (ErroHTTP detail) else continue
    end
end.

Definition _fetch_with_retry (url : string) (params : gmap string pyval)
  (max_retries : Z) : M string :=
fetch_attempts (Z.to_nat max_retries) 0 url params max_retries.

(** The three kinds of input the query builder tells apart. *)
Inductive input_kind := Formula | Smiles | Name.

Definition formula_alphabet : string := "0123456789CHONPS()[]+-=".

(** [c in '0123456789CHONPS()[]+-='] for a character [c]. *)
Definition in_formula_alphabet (c : ascii) : bool :=
contains (String c EmptyString) formula_alphabet.

(** [all(c in '0123456789CHONPS()[]+-=' for c in molecule.replace(' ', ''))]. *)
Definition formula_only (molecule : string) : bool :=
str_forall in_formula_alphabet (remove_char " "%char molecule).

(** [any(c in molecule for c in ['@', '/', '\\'])]. *)
Definition has_smiles_mark (molecule : string) : bool :=
existsb (fun c => contains c molecule) ["@"; "/"; "\"].

(** The tests of the [if]/[elif]/[else], on the stripped molecule. *)
Definition detect_kind (molecule : string) : input_kind :=
if formula_only molecule then Formula
else if has_smiles_mark molecule then Smiles
else Name.

(** The branch [_build_molecule_query] takes on an input. *)
Definition classify (molecule : string) : input_kind :=
detect_kind (strip molecule).

Definition _build_molecule_query (molecule search_type : string) : string :=
let molecule := strip molecule in
let '(query_field, query) :=
  match detect_kind molecule with
  | Formula => ("EN_AB", quoted molecule)
  | Smiles => ("EN_AB", quoted molecule)
  | Name => ("EN_ALL", molecule)
  end in
query_field +:+ ":(" +:+ query +:+ ")".

(** The values of the dictionary a search returns. *)
Inductive payval :=
| PNone
| PBool (b : bool)
| PInt (z : Z)
| PStr (s : string)
| PError (e : exn)                         (* [str(e)] *)
| PResults (l : list (gmap string pyval)).

Definition search_params (query : string) (page page_size : Z)
  : gmap string pyval :=
let start_rec := (page - 1) * page_size + 1 in
list_to_map
  [ ("query", VStr query); ("office", VStr "all");
    ("sortOption", VStr "Relevance"); ("maxRec", VInt page_size);
    ("startRec", VInt start_rec) ].

(** The text an f-string puts for a value; the parser stores only strings
    under [patent_id], and only those are interpolated. *)
Definition interpolate (v : pyval) : string :=
match v with
| VStr s => s
| _ => EmptyString
end.

Definition add_url (result : gmap string pyval) : gmap string pyval :=
match result !! "patent_id" with
| Some id =>
    <["url" := VStr (BASE_URL +:+ "/search/en/detail.jsf?docId="
                     +:+ interpolate id)]> result
| None => <["url" := VStr BASE_URL]> result
end.

(** [a // b]. *)
Definition floordiv (a b : Z) : result Z :=
if b =? 0 then Raise ZeroDivisionError else Ok (a / b).

Definition error_payload (e : exn) (molecule search_type : string)
  (page page_size : Z) : gmap string payval :=
list_to_map
  [ ("status", PStr "error"); ("error", PError e); ("results", PResults []);
    ("total_results", PInt 0); ("page", PInt page);
    ("page_size", PInt page_size); ("total_pages", PInt 0);
    ("has_next", PBool false); ("has_previous", PBool false);
    ("query", PStr molecule); ("search_type", PStr search_type) ].

Section Search.

(** [Selector(text=html)]: the selector library's reading of a body. *)
Variable Selector : string -> document.

(** The body of the [try] of [search_by_molecule]. *)
Definition search_try (molecule search_type : string) (page page_size : Z)
  (params : gmap string pyval) : M (gmap string payval) :=
html <- _fetch_with_retry SEARCH_URL params 3 ;;
let results := parse_search_results (Selector html) in
total_results <- lift (extract_total_results (Selector html)) ;;
let total_results :=
  if (total_results =? 0) && negb (bool_decide (results = []))
  then Z.of_nat (length results) else total_results in
pages <- lift (floordiv (total_results + page_size - 1) page_size) ;;
let total_pages := Z.max 1 pages in
let results := map add_url results in
fun w =>
  (Ok (list_to_map
         [ ("status", PStr "success"); ("results", PResults results);
           ("total_results", PInt total_results); ("page", PInt page);
           ("page_size", PInt page_size); ("total_pages", PInt total_pages);
           ("has_next", PBool (page <? total_pages));
           ("has_previous", PBool (1 <? page));
           ("next_page",
             if page <? total_pages then PInt (page + 1) else PNone);
           ("previous_page", if 1 <? page then PInt (page - 1) else PNone);
           ("query", PStr molecule); ("search_type", PStr search_type);
           ("duration_ms", PInt (duration_ms w));
           ("scraped_at", PStr (utcnow w)) ]), w).

Definition search_by_molecule (molecule search_type : string)
  (page page_size : Z) : M (gmap string payval) :=
let query := _build_molecule_query molecule search_type in
let params := search_params query page page_size in
try_except
  (search_try molecule search_type page page_size params)
  (fun e => ret (error_payload e molecule search_type page page_size)).

End Search.

End App.

(** ** [app/models.py] *)

Module Models.

Import PyStr.

(** The two [ValueError]s of the validator of the molecule: the molecule
    cannot be empty; the molecule holds invalid characters. *)
Inductive exn :=
| MoleculaVazia
| MoleculaInvalida.

Inductive result (A : Type) :=
| Ok (a : A)
| Raise (e : exn).
Arguments Ok {A} a.
Arguments Raise {A} e.

Definition dangerous : list string := [ "<"; ">"; "script"; "javascript" ].

(** [MoleculeSearchRequest.validate_molecule]. *)
Definition validate_molecule (v : string) : result string :=
if negb (str_truthy v) || is_empty (strip v) then Raise MoleculaVazia
else if existsb (fun d => contains d (lower v)) dangerous
     then Raise MoleculaInvalida
else Ok (strip v).

Record MoleculeSearchRequest := {
  molecule : string;
  search_type : string;
  page : Z;
  page_size : Z
}.

(** The construction of a request: the bounds declared with [Field]
    ([min_length=2], [max_length=500], [ge=1], [le=1000], [ge=1],
    [le=100]) are checked on the values given, then the validator of the
    molecule runs and its result is the value of the field.  [None]
    stands for the validation error. *)
Definition new_MoleculeSearchRequest (molecule search_type : string)
    (page page_size : Z) : option MoleculeSearchRequest :=
let n := Z.of_nat (String.length molecule) in
if (2 <=? n) && (n <=? 500) && (1 <=? page) && (page <=? 1000)
   && (1 <=? page_size) && (page_size <=? 100)
then
  match validate_molecule molecule with
  | Ok m =>
      Some {| molecule := m; search_type := search_type; page := page;
              page_size := page_size |}
  | Raise _ => None
  end
else None.

End Models.

(** ** [patentscope_scraper.py] *)

Module Scraper.

Import PyStr.

(** *** The rate limiter *)

Definition Qlt_bool (a b : Q) : bool := negb (Qle_bool b a).

(** Python's [min(a, b)] and [max(a, b)]: the first argument unless the
    second is strictly smaller (strictly larger). *)
Definition py_min (a b : Q) : Q := if Qlt_bool b a then b else a.
Definition py_max (a b : Q) : Q := if Qlt_bool a b then b else a.

(** The two counters start at zero and are only incremented or reset, so
    they are natural numbers. *)
Record RateLimiter := {
  min_delay : Q;
  max_delay : Q;
  adaptive : bool;
  last_request_time : Q;
  consecutive_errors : nat;
  success_streak : nat
}.

(** [RateLimiter.__init__]. *)
Definition new_RateLimiter (min_delay max_delay : Q) (adaptive : bool)
  : RateLimiter :=
{| min_delay := min_delay; max_delay := max_delay; adaptive := adaptive;
   last_request_time := 0; consecutive_errors := 0; success_streak := 0 |}.

Definition record_success (rl : RateLimiter) : RateLimiter :=
{| min_delay := min_delay rl; max_delay := max_delay rl;
   adaptive := adaptive rl; last_request_time := last_request_time rl;
   consecutive_errors := 0; success_streak := S (success_streak rl) |}.

Definition record_error (rl : RateLimiter) : RateLimiter :=
{| min_delay := min_delay rl; max_delay := max_delay rl;
   adaptive := adaptive rl; last_request_time := last_request_time rl;
   consecutive_errors := S (consecutive_errors rl); success_streak := 0 |}.

(** *** Exceptions *)

Inductive exn :=
| RequestException (detail : string)     (* [requests.RequestException] *)
| OtherException (detail : string)       (* any other exception *)
| RetryError (last : exn)                (* tenacity, attempts used up *)
| OverflowError                          (* int too large to convert to float *)
| SleepError                             (* [time.sleep] refused the duration *)
| OSError (filename : string).           (* [open] refused by the file system *)

Inductive result (A : Type) :=
| Ok (a : A)
| Raise (e : exn).
Arguments Ok {A} a.
Arguments Raise {A} e.

(** The least integer that [float] cannot hold: the integers from
    [2 ** 1024 - 2 ** 970] on round to [2 ** 1024].  An [int] is turned
    into a [float] when it is multiplied with one, and that raises
    [OverflowError] from this value on. *)
Definition float_int_limit : Z := 2 ^ 1024 - 2 ^ 970.

Definition float_of_int (n : Z) : result Q :=
if float_int_limit <=? Z.abs n then Raise OverflowError
else Ok (inject_Z n).

(** The value of the local [delay] of [wait]; [u] is the draw of
    [random.random()] behind [random.uniform], read only when the limiter
    is not adaptive.  The two delays are floats, as the defaults of the
    class and the values of the configuration are, so that the power of
    two and the streak are turned into floats by the products
    [self.min_delay * (2 ** self.consecutive_errors)] and
    [self.success_streak * 0.1]. *)
Definition wait_delay (rl : RateLimiter) (u : Q) : result Q :=
if adaptive rl then
  if (0 <? consecutive_errors rl)%nat
  then
    match float_of_int (2 ^ Z.of_nat (consecutive_errors rl)) with
    | Ok k => Ok (py_min (min_delay rl * k)%Q (max_delay rl))
    | Raise e => Raise e
    end
  else
    match float_of_int (Z.of_nat (success_streak rl)) with
    | Ok k =>
        Ok (py_max (min_delay rl)
                   (max_delay rl / (1 + k * (1 # 10)))%Q)
    | Raise e => Raise e
    end
else Ok (min_delay rl + (max_delay rl - min_delay rl) * u)%Q.

(** *** The scraper's state and effects *)

Record response := {
  status_code : Z;
  text : string;
  status_error : string
}.

Inductive outcome :=
| Responds (r : response)
| RequestFails (detail : string)
| OtherFails (detail : string).

Inductive event :=
| EvSleep (seconds : Q)
| EvRequest (is_get : bool) (url : string)
| EvRecordSuccess
| EvRecordError.

(** The state a request runs in: the n-th outcome of the HTTP session, the
    clock (advanced by sleeping only), whether the n-th call of
    [time.sleep] accepts the duration it is given (it raises otherwise:
    [OverflowError], [OSError] or [ValueError], for a duration that the
    clock of the system cannot hold, by some 292 years, or that is
    negative), the draws of the random generator, the scraper's rate
    limiter, and the log of effects, oldest first. *)
Record state := {
  http : nat -> outcome;
  calls : nat;
  clock : Q;
  dorme : nat -> Q -> bool;
  dormidas : nat;
  draws : nat -> Q;
  drawn : nat;
  rate_limiter : RateLimiter;
  log : list event
}.

Definition M (A : Type) : Type := state -> result A * state.

Definition ret {A} (a : A) : M A := fun s => (Ok a, s).
Definition raise {A} (e : exn) : M A := fun s => (Raise e, s).
Definition bind {A B} (m : M A) (k : A -> M B) : M B :=
fun s =>
  match m s with
  | (Ok a, s') => k a s'
  | (Raise e, s') => (Raise e, s')
  end.

Notation "x <- m ;; k" := (bind m (fun x => k))
  (at level 100, m at next level, right associativity).

Definition with_limiter (s : state) (rl : RateLimiter) (l : list event)
  : state :=
{| http := http s; calls := calls s; clock := clock s; dorme := dorme s;
   dormidas := dormidas s; draws := draws s; drawn := drawn s;
   rate_limiter := rl; log := l |}.

(** [time.sleep(seconds)]. *)
Definition sleep (seconds : Q) : M unit :=
fun s =>
  if dorme s (dormidas s) seconds
  then
    (Ok tt,
     {| http := http s; calls := calls s; clock := (clock s + seconds)%Q;
        dorme := dorme s; dormidas := S (dormidas s);
        draws := draws s; drawn := drawn s; rate_limiter := rate_limiter s;
        log := log s ++ [EvSleep seconds] |})
  else
    (Raise SleepError,
     {| http := http s; calls := calls s; clock := clock s;
        dorme := dorme s; dormidas := S (dormidas s);
        draws := draws s; drawn := drawn s; rate_limiter := rate_limiter s;
        log := log s |}).

(** The [if self.adaptive: ... else: ...] of [wait]. *)
Definition compute_delay : M Q :=
fun s =>
  if adaptive (rate_limiter s)
  then (wait_delay (rate_limiter s) 0, s)
  else
    (wait_delay (rate_limiter s) (draws s (drawn s)),
     {| http := http s; calls := calls s; clock := clock s;
        dorme := dorme s; dormidas := dormidas s;
        draws := draws s; drawn := S (drawn s);
        rate_limiter := rate_limiter s; log := log s |}).

Definition set_last_request_time : M unit :=
fun s =>
  let rl := rate_limiter s in
  (Ok tt,
   with_limiter s
     {| min_delay := min_delay rl; max_delay := max_delay rl;
        adaptive := adaptive rl; last_request_time := clock s;
        consecutive_errors := consecutive_errors rl;
        success_streak := success_streak rl |}
     (log s)).

(** [RateLimiter.wait]. *)
Definition wait : M unit :=
fun s =>
  let current_time := clock s in
  (delay <- compute_delay ;;
   let elapsed := (current_time - last_request_time (rate_limiter s))%Q in
   _ <- (if Qlt_bool elapsed delay then sleep (delay - elapsed)%Q else ret tt) ;;
   set_last_request_time) s.

Definition do_record_success : M unit :=
fun s =>
  (Ok tt, with_limiter s (record_success (rate_limiter s))
            (log s ++ [EvRecordSuccess])).

Definition do_record_error : M unit :=
fun s =>
  (Ok tt, with_limiter s (record_error (rate_limiter s))
            (log s ++ [EvRecordError])).

(** [self.session.get] or [self.session.post]. *)
Definition session_request (is_get : bool) (url : string) : M outcome :=
fun s =>
  (Ok (http s (calls s)),
   {| http := http s; calls := S (calls s); clock := clock s;
      dorme := dorme s; dormidas := dormidas s;
      draws := draws s; drawn := drawn s; rate_limiter := rate_limiter s;
      log := log s ++ [EvRequest is_get url] |}).

(** [s.upper()] as far as a comparison with an ASCII word goes: below 256
    only a..z have an ASCII upper case. *)
Definition upper_char (c : ascii) : ascii :=
let n := code c in
if ((97 <=? n) && (n <=? 122))%N then ascii_of_N (n - 32) else c.

Fixpoint upper (s : string) : string :=
match s with
| EmptyString => EmptyString
| String c r => String (upper_char c) (upper r)
end.

(** [response.raise_for_status()] of requests raises on 4xx and 5xx. *)
Definition raises_for_status (r : response) : bool :=
(400 <=? status_code r) && (status_code r <? 600).

(** The body of [_make_request], without its decorator. *)
Definition make_request_body (url method : string) : M response :=
_ <- wait ;;
o <- session_request (String.eqb (upper method) "GET") url ;;
match o with
| Responds r =>
    if raises_for_status r
    then (_ <- do_record_error ;; raise (RequestException (status_error r)))
    else (_ <- do_record_success ;; ret r)
| RequestFails detail =>
    _ <- do_record_error ;; raise (RequestException detail)
| OtherFails detail => raise (OtherException detail)
end.

(** [wait_exponential(multiplier=1, min=2, max=10)] after the attempt
    numbered [attempt_number] (from 1). *)
Definition wait_exponential (attempt_number : Z) : Q :=
py_max 2 (py_min (inject_Z (2 ^ (attempt_number - 1))) 10).

(** tenacity's [retry] with [stop_after_attempt] and
    [retry_if_exception_type(requests.RequestException)]: [more] further
    attempts are allowed after the one numbered [attempt_number]. *)
Fixpoint retrying {A} (more : nat) (attempt_number : Z) (f : M A) : M A :=
fun s =>
  match f s with
  | (Ok a, s') => (Ok a, s')
  | (Raise (RequestException detail), s') =>
      match more with
      | O => (Raise (RetryError (RequestException detail)), s')
      | S k =>
          (_ <- sleep (wait_exponential attempt_number) ;;
           retrying k (attempt_number + 1) f) s'
      end
  | (Raise e, s') => (Raise e, s')
  end.

(** [@retry(stop=stop_after_attempt(3), ...) def _make_request]. *)
Definition _make_request (url method : string) : M response :=
retrying 2 1 (make_request_body url method).

(** *** Patents, validation and the pagination loop *)

(** A patent dictionary: the two keys the code inspects, absent ([None])
    or holding a string, and the other keys. *)
Record patente := {
  publicationNumber : option string;
  title : option string;
  campos : gmap string pyval
}.

(** [field in data and data[field]]. *)
Definition present (field : option string) : bool :=
match field with
| Some v => str_truthy v
| None => false
end.

Definition MIN_TITLE_LENGTH : Z := 5.

(** [DataValidator.validate_patent], with the required fields
    [['publicationNumber', 'title']] of the configuration. *)
Definition validate_patent (data : patente) : bool :=
if negb (present (publicationNumber data) && present (title data))
then false
else
  match title data with
  | Some t =>
      if str_truthy t && (Z.of_nat (String.length t) <? MIN_TITLE_LENGTH)
      then false else true
  | None => true
  end.

(** [l[:n]]. *)
Definition slice_to {A} (l : list A) (n : Z) : list A :=
if 0 <=? n then firstn (Z.to_nat n) l
else firstn (length l - Z.to_nat (- n)) l.

(** A result page as the loop sees it: what
    [_extrair_dados_patentes_selenium] extracts from its source, and
    whether one of the next-page selectors finds a control that is
    displayed and enabled. *)
Record pagina := {
  extraidas : list patente;
  proxima : bool
}.

(** The portal behind the driver: result page [n] (from 1), or [None]
    when the driver raises on the way to it or while it is read. *)
Definition portal : Type := Z -> option pagina.

Definition max_paginas : Z := 10.

(** The [while] loop of [_buscar_com_selenium].  [restantes] is
    [max_paginas - pagina_atual], so that the test
    [pagina_atual < max_paginas] is the test that it is not zero; [atual]
    is the page the driver shows.  The result is [patentes] and
    [pagina_atual] at the exit of the loop. *)
Fixpoint paginar (restantes : nat) (site : portal) (limite : Z)
  (atual : pagina) (patentes : list patente) (pagina_atual : Z)
  : list patente * Z :=
match restantes with
| O => (patentes, pagina_atual)
| S k =>
    if negb (Z.of_nat (length patentes) <? limite)
    then (patentes, pagina_atual)
    else if negb (proxima atual) then (patentes, pagina_atual)
    else
      match site (pagina_atual + 1) with
      | None => (patentes, pagina_atual)
      | Some nova =>
          let patentes_pagina := extraidas nova in
          if Z.of_nat (length patentes_pagina) =? 0
          then (patentes, pagina_atual)
          else
            let patentes := (patentes ++ patentes_pagina)%list in
            let pagina_atual := pagina_atual + 1 in
            if Z.of_nat (length patentes) >=? limite
            then (patentes, pagina_atual)
            else paginar k site limite nova patentes pagina_atual
      end
end.

(** [_buscar_com_selenium] from the point where the first result page is
    shown: the extraction of page 1, the loop, and the final
    [patentes[:limite]].  When the driver raises before page 1 is read,
    the function returns its initial empty list. *)
Definition crawl (site : portal) (limite : Z) : list patente * Z :=
match site 1 with
| None => ([], 1)
| Some primeira =>
    let '(patentes, pagina_atual) :=
      paginar (Z.to_nat (max_paginas - 1)) site limite primeira
              (extraidas primeira) 1 in
    (slice_to patentes limite, pagina_atual)
end.

Definition _buscar_com_selenium (site : portal) (limite : Z)
  : list patente :=
fst (crawl site limite).

(** The loop of [buscar_patentes] over the patents found. *)
Fixpoint validar (patentes resultados : list patente) (limite : Z)
  : list patente :=
match patentes with
| [] => resultados
| p :: rest =>
    if validate_patent p
    then
      let resultados := (resultados ++ [p])%list in
      if Z.of_nat (length resultados) >=? limite then resultados
      else validar rest resultados limite
    else validar rest resultados limite
end.

(** [buscar_patentes] in production mode, without incremental saving. *)
Definition buscar_patentes (site : portal) (limite : Z) : list patente :=
validar (_buscar_com_selenium site limite) [] limite.

(** *** The query typed into the search form *)

Definition BASE_URL : string := "https://patentscope.wipo.int".

(** [PATENTSCOPE_CONFIG.SEARCH_FIELDS], by its items. *)
Definition SEARCH_FIELDS : list (string * string) :=
[ ("all", "FP"); ("title", "TI"); ("abstract", "AB"); ("claims", "CL");
  ("description", "DE"); ("inventor", "IN"); ("applicant", "PA");
  ("ipc", "IC"); ("cpc", "CP"); ("priority", "PR"); ("publication", "PN");
  ("application", "AN") ].

(** [d.get(k, default)] on a dictionary given by its items. *)
Fixpoint dict_get (d : list (string * string)) (k default : string)
  : string :=
match d with
| [] => default
| (k', v) :: r => if String.eqb k' k then v else dict_get r k default
end.

(** The text an f-string puts for an optional argument; it is read only
    where the argument is true. *)
Definition valor (x : option string) : string :=
match x with
| Some s => s
| None => EmptyString
end.

Definition construir_query (termo_busca campo : string)
    (pais data_inicio data_fim : option string) : string :=
let field_code := dict_get SEARCH_FIELDS campo "FP" in
let query :=
  if String.eqb campo "all" || String.eqb field_code "FP"
  then termo_busca
  else field_code +:+ ":(" +:+ termo_busca +:+ ")" in
let query :=
  if present pais then query +:+ " AND PC:" +:+ valor pais else query in
if present data_inicio
then
  let query := query +:+ " AND PD:[" +:+ valor data_inicio +:+ " TO " in
  if present data_fim then query +:+ valor data_fim +:+ "]"
  else query +:+ "*]"
else query.

(** *** Incremental saving *)









(** *** Demonstration data *)

(** The random generator and the clock behind [_gerar_dados_demonstracao]:
    the n-th raw draw of the generator, and the n-th reading of
    [datetime.now().isoformat()]. *)
Record acaso := {
  sorteios : nat -> Z;
  sorteados : nat;
  instantes : nat -> string;
  lidos : nat
}.

Definition G (A : Type) : Type := acaso -> result A * acaso.

Definition g_ret {A} (a : A) : G A := fun g => (Ok a, g).
Definition g_raise {A} (e : exn) : G A := fun g => (Raise e, g).
Definition g_bind {A B} (m : G A) (k : A -> G B) : G B :=
fun g =>
  match m g with
  | (Ok a, g') => k a g'
  | (Raise e, g') => (Raise e, g')
  end.

Notation "x <~ m ;; k" := (g_bind m (fun x => k))
  (at level 100, m at next level, right associativity).

Definition sorteio : G Z :=
fun g =>
  (Ok (sorteios g (sorteados g)),
   {| sorteios := sorteios g; sorteados := S (sorteados g);
      instantes := instantes g; lidos := lidos g |}).

(** [random.randint(a, b)]: an integer from [a] to [b]. *)
Definition random_randint (a b : Z) : G Z :=
x <~ sorteio ;; g_ret (a + x mod (b - a + 1)).

(** [random.choice(seq)] on a list that is not empty. *)
Definition random_choice (seq : list string) : G string :=
x <~ sorteio ;;
g_ret (nth (Z.to_nat (x mod Z.of_nat (length seq))) seq EmptyString).

(** [datetime.now().isoformat()]. *)
Definition now_isoformat : G string :=
fun g =>
  (Ok (instantes g (lidos g)),
   {| sorteios := sorteios g; sorteados := sorteados g;
      instantes := instantes g; lidos := S (lidos g) |}).

(** [s[i]] for a natural number [i]: [IndexError] out of range. *)
Definition index_error : exn := OtherException "string index out of range".

Definition str_index (s : string) (i : nat) : G string :=
match String.get i s with
| Some c => g_ret (String c EmptyString)
| None => g_raise index_error
end.

Definition empresas : list string :=
[ "Novo Nordisk A/S"; "Eli Lilly and Company"; "Sanofi"; "Pfizer Inc";
  "Merck & Co"; "AstraZeneca"; "GlaxoSmithKline"; "Johnson & Johnson";
  "Roche"; "Bristol-Myers Squibb" ].

Definition paises_disponiveis : list string :=
[ "US"; "EP"; "WO"; "BR"; "CN"; "JP" ].

Definition ipc_classes : list string :=
[ "A61K 31/00"; "A61K 38/00"; "A61K 39/00"; "A61P 3/00"; "A61P 3/10";
  "C07K 14/00" ].

Definition demo_nota : string :=
"Dados fict" +:+ chr 237 +:+ "cios para demonstra" +:+ chr 231 +:+ chr 227
+:+ "o. Implemente Selenium ou EPO API para dados reais.".

(** [f"{ano:04d}-{mes:02d}-{dia:02d}"]. *)
Definition demo_data (ano mes dia : Z) : string :=
format_0d 4 ano +:+ "-" +:+ format_0d 2 mes +:+ "-" +:+ format_0d 2 dia.

(** The dictionary of one record of demonstration data, from the values
    drawn for it. *)
Definition demo_registro (termo_busca campo pais_filtro : string)
    (ano mes dia n : Z) (empresa : string) (n_app : Z)
    (letra1 letra2 ipc : string) (n_prio n_pct : Z) (timestamp : string)
  : patente :=
let pub_date := demo_data ano mes dia in
let app_date := demo_data (ano - 1) mes dia in
let numero := pais_filtro +:+ str_of_Z ano +:+ str_of_Z n +:+ "A1" in
{| publicationNumber := Some numero;
   title :=
     Some (termo_busca +:+ " pharmaceutical composition and methods of use");
   campos :=
     list_to_map
       [ ("applicationNumber",
           VStr ("PCT/" +:+ pais_filtro +:+ str_of_Z (ano - 1) +:+ "/"
                 +:+ str_of_Z n_app));
         ("abstract",
           VStr ("The present invention relates to pharmaceutical "
                 +:+ "compositions comprising " +:+ termo_busca
                 +:+ " or pharmaceutically acceptable salts thereof, "
                 +:+ "and methods of using such compositions for "
                 +:+ "treating metabolic disorders, diabetes, and "
                 +:+ "obesity."));
         ("inventors",
           VList [ "John " +:+ letra1 +:+ " Smith";
                   "Jane " +:+ letra2 +:+ " Doe" ]);
         ("applicants", VList [empresa]);
         ("publicationDate", VStr pub_date);
         ("applicationDate", VStr app_date);
         ("ipcClassifications", VList [ipc]);
         ("cpcClassifications", VList ["A61K 31/00"]);
         ("priorityNumber",
           VStr (pais_filtro +:+ str_of_Z (ano - 2) +:+ str_of_Z n_prio));
         ("priorityDate", VStr (demo_data (ano - 2) mes dia));
         ("pctNumber",
           VStr ("PCT/" +:+ pais_filtro +:+ str_of_Z (ano - 1) +:+ "/"
                 +:+ str_of_Z n_pct));
         ("termo_busca", VStr termo_busca);
         ("campo_busca", VStr campo);
         ("pais", VStr pais_filtro);
         ("fonte", VStr "PatentScope (DEMO)");
         ("timestamp_coleta", VStr timestamp);
         ("_demo", VBool true);
         ("_nota", VStr demo_nota) ] |}.

(** The body of the loop of [_gerar_dados_demonstracao] for the index
    [i]: the draws, the two letters and the reading of the clock, in the
    order in which the statements and the entries of the dictionary are
    evaluated. *)
Definition demo_patente (termo_busca campo pais_filtro : string) (i : nat)
  : G patente :=
ano <~ random_randint 2018 2024 ;;
mes <~ random_randint 1 12 ;;
dia <~ random_randint 1 28 ;;
n <~ random_randint 100000 999999 ;;
empresa <~ random_choice empresas ;;
n_app <~ random_randint 10000 99999 ;;
letra1 <~ str_index "ABCDEFGH" i ;;
letra2 <~ str_index "ABCDEFGH" i ;;
ipc <~ random_choice ipc_classes ;;
n_prio <~ random_randint 100000 999999 ;;
n_pct <~ random_randint 10000 99999 ;;
timestamp <~ now_isoformat ;;
g_ret (demo_registro termo_busca campo pais_filtro ano mes dia n empresa
         n_app letra1 letra2 ipc n_prio n_pct timestamp).

(** [for i in range(n): ... patentes_demo.append(patente)], from the index
    [i] on, with [pending] turns left. *)
Fixpoint demo_patentes (pending i : nat)
    (termo_busca campo pais_filtro : string) (patentes_demo : list patente)
  : G (list patente) :=
match pending with
| O => g_ret patentes_demo
| S k =>
    patente <~ demo_patente termo_busca campo pais_filtro i ;;
    demo_patentes k (S i) termo_busca campo pais_filtro
      (patentes_demo ++ [patente])
end.

Definition _gerar_dados_demonstracao (termo_busca : string) (limite : Z)
    (campo : string) (pais : option string) : G (list patente) :=
pais_filtro <~ (if present pais then g_ret (valor pais)
                else random_choice paises_disponiveis) ;;
demo_patentes (Z.to_nat (Z.min limite 10)) O termo_busca campo pais_filtro [].

(** [buscar_patentes] in demonstration mode, without incremental saving:
    the [try] holds the generation and the loop, and its [except] only
    logs, so that the list built so far is returned. *)
Definition buscar_patentes_demo (termo_busca campo : string)
    (pais : option string) (limite : Z) (g : acaso)
  : list patente * acaso :=
match _gerar_dados_demonstracao termo_busca limite campo pais g with
| (Ok patentes, g') => (validar patentes [] limite, g')
| (Raise _, g') => ([], g')
end.

(** *** Details of one patent over HTTP *)

(** The page of details as [_processar_detalhes_patente] looks at it: for
    each of the four elements it searches, the text
    [get_text(strip=True)] of the first one found, if any. *)
Record pagina_detalhes := {
  d_title : option string;
  d_abstract : option string;
  d_claims : option string;
  d_description : option string
}.

(** The values of the dictionary [obter_detalhes_patente] returns: what
    the page gives, or the text of an exception. *)
Inductive valor_detalhe :=
| DV (v : pyval)
| DErro (e : exn).

Section Detalhes.

(** [BeautifulSoup(html, 'html.parser')], and the format of
    [datetime.now().isoformat()] for a reading of the clock. *)
Variable Soup : string -> pagina_detalhes.
Variable isoformat : Q -> string.

Definition set_if_found (key : string) (found : option string)
    (detalhes : gmap string pyval) : gmap string pyval :=
match found with
| Some t => <[key := VStr t]> detalhes
| None => detalhes
end.

Definition _processar_detalhes_patente (html_content : string)
    (numero_publicacao : string) (now : string) : gmap string pyval :=
let detalhes : gmap string pyval :=
  <["timestamp_detalhes" := VStr now]>
    (<["publicationNumber" := VStr numero_publicacao]> ∅) in
let soup := Soup html_content in
let detalhes := set_if_found "title" (d_title soup) detalhes in
let detalhes := set_if_found "abstract" (d_abstract soup) detalhes in
let detalhes := set_if_found "claims" (d_claims soup) detalhes in
set_if_found "description" (prefix_to 5000 <$> d_description soup) detalhes.

Definition obter_detalhes_patente (numero_publicacao : string)
  : M (gmap string valor_detalhe) :=
fun s =>
  let url := BASE_URL +:+ "/search/en/detail.jsf" in
  match _make_request url "GET" s with
  | (Ok response, s') =>
      (Ok (DV <$> _processar_detalhes_patente (text response)
                    numero_publicacao (isoformat (clock s'))), s')
  | (Raise e, s') =>
      (Ok (<["erro" := DErro e]>
             (<["publicationNumber" := DV (VStr numero_publicacao)]> ∅)),
       s')
  end.

End Detalhes.

End Scraper.

(** ** [busca_completa_patentscope.py] and [patentscope_detalhes.py] *)

Module Completa.

Import PyStr.
Import Scraper.

(** A [dict] keyed by publication number, in insertion order. *)
Definition odict : Type := list (string * patente).

(** [k in d]. *)
Definition odict_mem (k : string) (d : odict) : bool :=
existsb (fun kv => String.eqb (fst kv) k) d.

(** [d[k] = v]: a new key goes last, a known key keeps its place. *)
Fixpoint odict_set (k : string) (v : patente) (d : odict) : odict :=
match d with
| [] => [(k, v)]
| (k', v') :: r =>
    if String.eqb k' k then (k, v) :: r else (k', v') :: odict_set k v r
end.

(** [list(d.values())]. *)
Definition odict_values (d : odict) : list patente := map snd d.

(** [p.get('publicationNumber', '')]. *)
Definition pub_num_of (p : patente) : string :=
match publicationNumber p with
| Some s => s
| None => EmptyString
end.

(** The loop of [main] under [# Remove duplicatas]. *)
Fixpoint unique_from (unique_patents : odict) (all_patents : list patente)
  : odict :=
match all_patents with
| [] => unique_patents
| p :: rest =>
    let pub_num := pub_num_of p in
    if str_truthy pub_num && negb (odict_mem pub_num unique_patents)
    then unique_from (unique_patents ++ [(pub_num, p)])%list rest
    else unique_from unique_patents rest
end.

(** [patents_list] of [main]. *)
Definition remove_duplicatas (all_patents : list patente) : list patente :=
odict_values (unique_from [] all_patents).

Fixpoint agrupar_em (agrupadas : odict) (patentes : list patente) : odict :=
match patentes with
| [] => agrupadas
| patente :: rest =>
    let pub_num := pub_num_of patente in
    if str_truthy pub_num
    then agrupar_em (odict_set pub_num patente agrupadas) rest
    else agrupar_em agrupadas rest
end.

Definition agrupar_por_publication_number (patentes : list patente)
  : odict :=
agrupar_em [] patentes.

End Completa.

(** ** Auxiliary definitions used in the statements *)

Module Aux.

Import PyStr.

(** A tab followed by [CHO]. *)
Definition tab_CHO : string := String "009"%char "CHO".

(** The world after one attempt of [_fetch_with_retry]: the backoff sleep
    when the attempt is not the first, then the request. *)
Definition after_attempt (attempt : Z) (url : string)
  (params : gmap string pyval) (w : App.world) : App.world :=
snd (App.session_get url params
       (snd ((if 0 <? attempt then App.emit (App.EvBackoff attempt)
              else App.ret tt) w))).

(** The number of calls of [record_success] in a log. *)
Fixpoint successes (l : list Scraper.event) : nat :=
match l with
| [] => O
| Scraper.EvRecordSuccess :: r => S (successes r)
| _ :: r => successes r
end.

(** What the statements observe of a scraper state: the requests made,
    the mode and the two counters of the rate limiter, the calls of
    [record_success]. *)
Definition observe (s : Scraper.state) : nat * bool * nat * nat * nat :=
(Scraper.calls s,
 Scraper.adaptive (Scraper.rate_limiter s),
 Scraper.consecutive_errors (Scraper.rate_limiter s),
 Scraper.success_streak (Scraper.rate_limiter s),
 successes (Scraper.log s)).

(** A scraper state whose limiter has recorded [n] more errors. *)
Definition with_errors (n : nat) (s : Scraper.state) : Scraper.state :=
Scraper.with_limiter s
  (Nat.iter n Scraper.record_error (Scraper.rate_limiter s))
  (Scraper.log s).

(** Scripted worlds: the n-th request gets the n-th response of the
    list, and the last one from then on. *)
Definition app_response (status : Z) (body : string) : App.response :=
{| App.status_code := status; App.text := body;
   App.status_error := "status error" |}.

Definition app_world (script : list App.response) : App.world :=
{| App.server := fun n _ _ =>
     App.Responds (nth n script (List.last script (app_response 200 "")));
   App.issued := O; App.log := []; App.duration_ms := 0;
   App.utcnow := "" |}.

Definition scraper_response (status : Z) (body : string)
  : Scraper.response :=
{| Scraper.status_code := status; Scraper.text := body;
   Scraper.status_error := "status error" |}.

Definition scraper_state (script : list Scraper.response) : Scraper.state :=
{| Scraper.http := fun n =>
     Scraper.Responds
       (nth n script (List.last script (scraper_response 200 "")));
   Scraper.calls := O; Scraper.clock := 0;
   Scraper.dorme := fun _ _ => true; Scraper.dormidas := O;
   Scraper.draws := fun _ => 0%Q;
   Scraper.drawn := O;
   Scraper.rate_limiter := Scraper.new_RateLimiter 1 3 true;
   Scraper.log := [] |}.

(** A node and a document in which no selector matches anything. *)
Definition empty_node : App.node :=
{| App.css := fun _ => []; App.xpath := fun _ => [] |}.

Definition empty_document : App.document :=
{| App.root := empty_node; App.select := fun _ => [] |}.

(** The payload of a search, when it returns one. *)
Definition payload {A : Type} (r : App.result A * App.world) : option A :=
match fst r with
| App.Ok d => Some d
| App.Raise _ => None
end.

(** A patent with a publication number and a title, and a portal whose
    every page shows ten of them and a next-page control. *)
Definition sample_patent (pub_num : string) (name : string)
  : Scraper.patente :=
{| Scraper.publicationNumber := Some pub_num;
   Scraper.title := Some name;
   Scraper.campos := ∅ |}.

Definition ten_patents : list Scraper.patente :=
map (fun n => sample_patent n "A chemical compound")
    ["WO1"; "WO2"; "WO3"; "WO4"; "WO5"; "WO6"; "WO7"; "WO8"; "WO9"; "WO10"].

Definition ten_per_page : Scraper.portal :=
fun _ => Some {| Scraper.extraidas := ten_patents; Scraper.proxima := true |}.

(** The records of a list that carry a non-empty publication number not
    in [seen] and not carried by an earlier record of the list. *)
Fixpoint keep_first (seen : list string) (l : list Scraper.patente)
  : list Scraper.patente :=
match l with
| [] => []
| p :: rest =>
    let k := Completa.pub_num_of p in
    if PyStr.str_truthy k && negb (existsb (String.eqb k) seen)
    then p :: keep_first (seen ++ [k]) rest
    else keep_first seen rest
end.

(** The first record of a list with a given publication number. *)
Definition first_with (k : string) (l : list Scraper.patente)
  : option Scraper.patente :=
List.find (fun p => String.eqb (Completa.pub_num_of p) k) l.

(** A record under its publication number. *)
Definition keyed (p : Scraper.patente) : string * Scraper.patente :=
(Completa.pub_num_of p, p).

(** The last record of a list with a given publication number. *)
Fixpoint last_with (k : string) (l : list Scraper.patente)
  : option Scraper.patente :=
match l with
| [] => None
| p :: rest =>
    match last_with k rest with
    | Some q => Some q
    | None => if String.eqb (Completa.pub_num_of p) k then Some p else None
    end
end.

(** [d.get(k)] on an ordered dictionary. *)
Fixpoint odict_get (k : string) (d : Completa.odict)
  : option Scraper.patente :=
match d with
| [] => None
| (k', v) :: r => if String.eqb k' k then Some v else odict_get k r
end.

(** Two records with the publication number of the specification's
    example and different titles, and two records without a publication
    number. *)
Definition wo_first : Scraper.patente :=
sample_patent "WO2023123456A1" "First title".
Definition wo_second : Scraper.patente :=
sample_patent "WO2023123456A1" "Second title".
Definition unnumbered_1 : Scraper.patente :=
sample_patent "" "Untitled one".
Definition unnumbered_2 : Scraper.patente :=
{| Scraper.publicationNumber := None; Scraper.title := Some "Untitled two";
   Scraper.campos := ∅ |}.

(** A run that [findall_numbers] can return: a digit, then digits and
    commas. *)
Definition number_char (c : ascii) : bool :=
PyStr.is_digit c || Ascii.eqb c ","%char.

Definition number_like (s : string) : bool :=
match s with
| EmptyString => false
| String c r => PyStr.is_digit c && PyStr.str_forall number_char r
end.

(** The texts [extract_total_results] looks at, in the order it looks at
    them: the first match of every total selector, when it is a non-empty
    string, then the text nodes that hold one of the keywords. *)
Definition count_texts (doc : App.document) : list string :=
List.filter PyStr.str_truthy
  (omap (fun sel => App.get (App.css (App.root doc) sel))
        App.total_selectors)
++ List.filter App.has_keyword (App.xpath (App.root doc) "//text()").

Definition holds_number (text : string) : bool :=
match PyStr.findall_numbers text with
| [] => false
| _ :: _ => true
end.

(** Whether [int] accepts a number found by the pattern: its digits,
    the commas left out, are not more than [int_max_str_digits]. *)
Definition int_fits (n : string) : bool :=
Z.of_nat (String.length (PyStr.remove_char ","%char n))
<=? PyStr.int_max_str_digits.

(** A node given by the table of its CSS text queries, and a document
    whose result items are found by the first container selector. *)
Definition node_of (table : list (string * list string)) : App.node :=
{| App.css := fun sel =>
     match List.find (fun kv => String.eqb (fst kv) sel) table with
     | Some kv => snd kv
     | None => []
     end;
   App.xpath := fun _ => [] |}.

Definition document_of (items : list App.node) : App.document :=
{| App.root := empty_node;
   App.select := fun sel =>
     if String.eqb sel ".result-item" then items else [] |}.

(** A selector without a true first match on an item. *)
Definition no_match (item : App.node) (sel : string) : bool :=
match App.get (App.css item sel) with
| Some t => negb (PyStr.str_truthy t)
| None => true
end.

(** The publication number [parse_item] stores: the first true match of
    the cascade, or else of the XPath fallback, stripped. *)
Definition pub_of (item : App.node) : option string :=
match
  match App.first_match item App.pub_selectors with
  | Some t => Some t
  | None => App.get (App.xpath item App.pub_xpath)
  end
with
| Some t => if PyStr.str_truthy t then Some (PyStr.strip t) else None
| None => None
end.

(** The identifier read from the link to the detail view, if any. *)
Definition doc_id_of (item : App.node) : option string :=
match App.get (App.css item App.docId_link_href) with
| Some h => if PyStr.str_truthy h then PyStr.search_docId h else None
| None => None
end.

(** Items for the examples: the same applicant under two selectors; only
    a publication number; a title under the second title selector. *)
Definition item_two_applicant_classes : App.node :=
node_of [ (".applicant::text", ["ACME"]);
          ("div[class*=" +:+ App.quoted "applicant" +:+ "]::text",
           ["ACME"]) ].

Definition item_number_only : App.node :=
node_of [ (".publication-number::text", ["WO2023123456A1"]) ].

Definition item_second_title : App.node :=
node_of [ ("h3::text", [" A title "]);
          (".applicant::text", ["ACME "; " "]);
          (".applicant-name::text", ["Beta"]) ].



(** An attempt of [_make_request] that tenacity tries again: the session
    raised a [RequestException], or the status is one that
    [raise_for_status] raises on.  The result is the text of the
    exception. *)
Definition request_error (o : Scraper.outcome) : option string :=
match o with
| Scraper.Responds r =>
    if Scraper.raises_for_status r then Some (Scraper.status_error r)
    else None
| Scraper.RequestFails detail => Some detail
| Scraper.OtherFails _ => None
end.

(** Whether [wait] raises for a limiter: an adaptive limiter raises
    [OverflowError] from 1024 consecutive errors on, and without errors
    from a streak of [float_int_limit] successes on. *)
Definition overflows (rl : Scraper.RateLimiter) : bool :=
Scraper.adaptive rl
&& (if (0 <? Scraper.consecutive_errors rl)%nat
    then (1024 <=? Scraper.consecutive_errors rl)%nat
    else Scraper.float_int_limit <=? Z.of_nat (Scraper.success_streak rl)).

(** A state in which no [wait] and no pause of the retry can fail in
    [time.sleep]: the delays are in order, the clock is not before the
    last request, the draws of the generator are between 0 and 1, and
    [time.sleep] accepts every pause up to [max_delay] and up to the ten
    seconds of the retry. *)
Definition steady (s : Scraper.state) : Prop :=
let rl := Scraper.rate_limiter s in
(0 <= Scraper.min_delay rl)%Q
/\ (Scraper.min_delay rl <= Scraper.max_delay rl)%Q
/\ (Scraper.last_request_time rl <= Scraper.clock s)%Q
/\ (forall n, 0 <= Scraper.draws s n <= 1)%Q
/\ (forall n x,
       (0 < x)%Q -> (x <= Scraper.max_delay rl \/ x <= 10)%Q ->
       Scraper.dorme s n x = true).

(** What a request retried up to [more] further times leaves behind, from
    the state [s] to the state [s'] with the result [r]. *)
Definition retry_outcome (s : Scraper.state) (more : nat)
    (r : Scraper.result Scraper.response) (s' : Scraper.state) : Prop :=
Scraper.http s' = Scraper.http s
/\ (Scraper.calls s <= Scraper.calls s' <= Scraper.calls s + S more)%nat
/\ (fst (Scraper.wait s) = Scraper.Ok tt ->
    (Scraper.calls s < Scraper.calls s')%nat)
/\ (forall k,
       (Scraper.calls s <= k < pred (Scraper.calls s'))%nat ->
       request_error (Scraper.http s k) <> None)
/\ (Scraper.clock s
    + 2 * inject_Z (Z.of_nat (pred (Scraper.calls s' - Scraper.calls s)))
    <= Scraper.clock s')%Q
/\ match r with
   | Scraper.Ok resp =>
       (Scraper.calls s < Scraper.calls s')%nat
       /\ Scraper.http s (pred (Scraper.calls s')) = Scraper.Responds resp
       /\ Scraper.raises_for_status resp = false
       /\ Scraper.consecutive_errors (Scraper.rate_limiter s') = O
       /\ (0 < Scraper.success_streak (Scraper.rate_limiter s'))%nat
       /\ successes (Scraper.log s') = S (successes (Scraper.log s))
   | Scraper.Raise (Scraper.RetryError e) =>
       Scraper.calls s' = (Scraper.calls s + S more)%nat
       /\ (exists detail,
              request_error (Scraper.http s (pred (Scraper.calls s')))
              = Some detail
              /\ e = Scraper.RequestException detail)
       /\ Scraper.consecutive_errors (Scraper.rate_limiter s')
          = (Scraper.consecutive_errors (Scraper.rate_limiter s) + S more)%nat
       /\ Scraper.success_streak (Scraper.rate_limiter s') = O
       /\ successes (Scraper.log s') = successes (Scraper.log s)
   | Scraper.Raise (Scraper.OtherException detail) =>
       (Scraper.calls s < Scraper.calls s')%nat
       /\ Scraper.http s (pred (Scraper.calls s')) = Scraper.OtherFails detail
       /\ Scraper.consecutive_errors (Scraper.rate_limiter s')
          = (Scraper.consecutive_errors (Scraper.rate_limiter s)
             + (Scraper.calls s' - S (Scraper.calls s)))%nat
       /\ successes (Scraper.log s') = successes (Scraper.log s)
   | Scraper.Raise Scraper.OverflowError =>
       overflows (Scraper.rate_limiter s') = true
       /\ (Scraper.calls s' <= Scraper.calls s + more)%nat
       /\ (forall k,
              (Scraper.calls s <= k < Scraper.calls s')%nat ->
              request_error (Scraper.http s k) <> None)
       /\ Scraper.consecutive_errors (Scraper.rate_limiter s')
          = (Scraper.consecutive_errors (Scraper.rate_limiter s)
             + (Scraper.calls s' - Scraper.calls s))%nat
       /\ successes (Scraper.log s') = successes (Scraper.log s)
   | Scraper.Raise Scraper.SleepError =>
       (Scraper.calls s' <= Scraper.calls s + more)%nat
       /\ (forall k,
              (Scraper.calls s <= k < Scraper.calls s')%nat ->
              request_error (Scraper.http s k) <> None)
       /\ Scraper.consecutive_errors (Scraper.rate_limiter s')
          = (Scraper.consecutive_errors (Scraper.rate_limiter s)
             + (Scraper.calls s' - Scraper.calls s))%nat
       /\ successes (Scraper.log s') = successes (Scraper.log s)
   | Scraper.Raise (Scraper.RequestException _) => False
   | Scraper.Raise (Scraper.OSError _) => False
   end.

(** The patents of the result pages 1 to [k] of a portal, in the order of
    the pages; a page the driver fails on counts for nothing. *)
Fixpoint paginas_ate (site : Scraper.portal) (k : nat)
  : list Scraper.patente :=
match k with
| O => []
| S j =>
    paginas_ate site j
    ++ match site (Z.of_nat (S j)) with
       | Some p => Scraper.extraidas p
       | None => []
       end
end.

(** The conditions under which the pagination loop goes from page
    [i - 1] to page [i]: the limit is not reached yet, page [i - 1] shows
    a next-page control, and page [i] loads and holds some patent. *)
Definition pagina_lida (site : Scraper.portal) (limite : Z) (i : nat)
  : Prop :=
exists anterior nova,
  site (Z.of_nat (pred i)) = Some anterior
  /\ Scraper.proxima anterior = true
  /\ site (Z.of_nat i) = Some nova
  /\ Scraper.extraidas nova <> []
  /\ Z.of_nat (length (paginas_ate site (pred i))) < limite.

(** The reasons for which the loop stops on page [k]. *)
Definition paginacao_termina (site : Scraper.portal) (limite : Z) (k : nat)
  : Prop :=
Z.of_nat k = Scraper.max_paginas
\/ limite <= Z.of_nat (length (paginas_ate site k))
\/ (exists atual,
       site (Z.of_nat k) = Some atual /\ Scraper.proxima atual = false)
\/ site (Z.of_nat (S k)) = None
\/ (exists nova,
       site (Z.of_nat (S k)) = Some nova /\ Scraper.extraidas nova = []).



End Aux.

(** * Properties *)

Local Open Scope list_scope.

(** ** Strings *)

Section StringFacts.

Import PyStr.

Lemma contains_single (c : ascii) (s : string) :
  contains (String c EmptyString) s = str_exists (Ascii.eqb c) s.
Proof.
  induction s as [|a r IH]; simpl; [reflexivity|].
  rewrite IH. destruct (Ascii.eqb c a) eqn:E.
  - apply Ascii.eqb_eq in E. subst a.
    destruct (ascii_dec c c); [|congruence].
    destruct r; reflexivity.
  - destruct (ascii_dec c a) as [->|]; [|reflexivity].
    rewrite Ascii.eqb_refl in E. discriminate.
Qed.

Lemma str_forall_remove_tail (p : ascii -> bool) (c a : ascii) (r : string) :
  str_forall p (remove_char c (String a r)) = true ->
  str_forall p (remove_char c r) = true.
Proof.
  simpl. destruct (Ascii.eqb a c); simpl; [tauto|].
  intros H. apply andb_true_iff in H. tauto.
Qed.

Lemma str_forall_lstrip (p : ascii -> bool) (c : ascii) (s : string) :
  str_forall p (remove_char c s) = true ->
  str_forall p (remove_char c (lstrip s)) = true.
Proof.
  induction s as [|a r IH]; [tauto|].
  intros H. simpl lstrip. destruct (is_space a); [|exact H].
  apply IH. eapply str_forall_remove_tail. exact H.
Qed.

Lemma str_forall_rstrip (p : ascii -> bool) (c : ascii) (s : string) :
  str_forall p (remove_char c s) = true ->
  str_forall p (remove_char c (rstrip s)) = true.
Proof.
  induction s as [|a r IH]; [tauto|].
  intros H. simpl rstrip.
  destruct (is_space a && is_empty (rstrip r)); [reflexivity|].
  pose proof (str_forall_remove_tail _ _ _ _ H) as Hr.
  simpl in *. destruct (Ascii.eqb a c); simpl in *; [auto|].
  apply andb_true_iff in H. destruct H as [Ha _].
  rewrite Ha. simpl. auto.
Qed.

Lemma str_exists_lstrip_back (p : ascii -> bool) (s : string) :
  str_exists p (lstrip s) = true -> str_exists p s = true.
Proof.
  induction s as [|a r IH]; [tauto|].
  simpl lstrip. destruct (is_space a); [|tauto].
  intros H. simpl. rewrite (IH H). apply orb_true_r.
Qed.

Lemma str_exists_rstrip_back (p : ascii -> bool) (s : string) :
  str_exists p (rstrip s) = true -> str_exists p s = true.
Proof.
  induction s as [|a r IH]; [tauto|].
  simpl rstrip. destruct (is_space a && is_empty (rstrip r)).
  - simpl. discriminate.
  - simpl. intros H. apply orb_true_iff in H. destruct H as [H|H].
    + rewrite H. reflexivity.
    + rewrite (IH H). apply orb_true_r.
Qed.

Lemma str_exists_lstrip (c : ascii) (s : string) :
  is_space c = false ->
  str_exists (Ascii.eqb c) s = true ->
  str_exists (Ascii.eqb c) (lstrip s) = true.
Proof.
  intros Hc. induction s as [|a r IH]; [tauto|].
  intros H. simpl lstrip. destruct (is_space a) eqn:Ha; [|exact H].
  apply IH. simpl in H. destruct (Ascii.eqb c a) eqn:E; [|exact H].
  apply Ascii.eqb_eq in E. congruence.
Qed.

Lemma str_exists_rstrip (c : ascii) (s : string) :
  is_space c = false ->
  str_exists (Ascii.eqb c) s = true ->
  str_exists (Ascii.eqb c) (rstrip s) = true.
Proof.
  intros Hc. induction s as [|a r IH]; [tauto|].
  intros H. simpl in H. simpl rstrip.
  destruct (Ascii.eqb c a) eqn:E.
  - apply Ascii.eqb_eq in E. subst a. rewrite Hc. simpl.
    rewrite Ascii.eqb_refl. reflexivity.
  - simpl in H. specialize (IH H).
    destruct (is_space a && is_empty (rstrip r)) eqn:G.
    + apply andb_true_iff in G. destruct G as [_ G].
      destruct (rstrip r); simpl in *; discriminate.
    + simpl. rewrite IH. apply orb_true_r.
Qed.

Lemma str_exists_strip (c : ascii) (s : string) :
  is_space c = false ->
  str_exists (Ascii.eqb c) (strip s) = str_exists (Ascii.eqb c) s.
Proof.
  intros Hc. unfold strip.
  destruct (str_exists (Ascii.eqb c) s) eqn:E.
  - apply str_exists_rstrip, str_exists_lstrip; assumption.
  - destruct (str_exists (Ascii.eqb c) (rstrip (lstrip s))) eqn:G;
      [|reflexivity].
    apply str_exists_rstrip_back, str_exists_lstrip_back in G. congruence.
Qed.

(** A character outside [p] that is not the removed one makes the test on
    all characters fail. *)
Lemma str_forall_witness (p : ascii -> bool) (c d : ascii) (s : string) :
  p d = false -> Ascii.eqb d c = false ->
  str_exists (Ascii.eqb d) s = true ->
  str_forall p (remove_char c s) = false.
Proof.
  intros Hp Hd. induction s as [|a r IH]; [discriminate|].
  simpl. intros H. destruct (Ascii.eqb d a) eqn:E.
  - apply Ascii.eqb_eq in E. subst a. rewrite Hd. simpl. rewrite Hp.
    reflexivity.
  - simpl in H. specialize (IH H).
    destruct (Ascii.eqb a c); simpl; [exact IH|].
    rewrite IH. apply andb_false_r.
Qed.

End StringFacts.

(** ** The query builder *)

Section QueryBuilder.

Import PyStr App Aux.

Lemma formula_only_strip (s : string) :
  formula_only s = true -> formula_only (strip s) = true.
Proof.
  unfold formula_only, strip. intros H.
  apply str_forall_rstrip, str_forall_lstrip, H.
Qed.

Lemma has_smiles_mark_exists (s : string) :
  has_smiles_mark s
  = str_exists (Ascii.eqb "@") s
    || (str_exists (Ascii.eqb "/") s || str_exists (Ascii.eqb "\") s).
Proof.
  unfold has_smiles_mark. simpl. rewrite !contains_single.
  rewrite orb_false_r. reflexivity.
Qed.

Lemma has_smiles_mark_strip (s : string) :
  has_smiles_mark (strip s) = has_smiles_mark s.
Proof.
  rewrite !has_smiles_mark_exists.
  rewrite !str_exists_strip by reflexivity. reflexivity.
Qed.

Lemma smiles_mark_not_formula (s : string) :
  has_smiles_mark s = true -> formula_only s = false.
Proof.
  rewrite has_smiles_mark_exists. unfold formula_only. intros H.
  apply orb_true_iff in H. destruct H as [H|H];
    [|apply orb_true_iff in H; destruct H as [H|H]];
    eapply str_forall_witness; try exact H; reflexivity.
Qed.

Lemma build_query_formula (molecule search_type : string) :
  classify molecule = Formula ->
  _build_molecule_query molecule search_type
  = "EN_AB:(" +:+ quoted (strip molecule) +:+ ")".
Proof.
  unfold classify, _build_molecule_query. intros ->. reflexivity.
Qed.

Lemma build_query_smiles (molecule search_type : string) :
  classify molecule = Smiles ->
  _build_molecule_query molecule search_type
  = "EN_AB:(" +:+ quoted (strip molecule) +:+ ")".
Proof.
  unfold classify, _build_molecule_query. intros ->. reflexivity.
Qed.

Lemma build_query_name (molecule search_type : string) :
  classify molecule = Name ->
  _build_molecule_query molecule search_type
  = "EN_ALL:(" +:+ strip molecule +:+ ")".
Proof.
  unfold classify, _build_molecule_query. intros ->. reflexivity.
Qed.

Example query_glucose :
  _build_molecule_query "glucose" "exact" = "EN_ALL:(glucose)".
Proof. reflexivity. Qed.

Example query_formula :
  _build_molecule_query " C6H12O6 " "exact"
  = "EN_AB:(" +:+ quoted "C6H12O6" +:+ ")".
Proof. reflexivity. Qed.

Example query_benzene :
  classify "C1=CC=CC=C1" = Formula.
Proof. reflexivity. Qed.

(** C1, the claim as stated fails: an input can hold a character outside
    the alphabet and none of the three marks and still be classified as a
    formula, because the tests run on the stripped input. *)
Lemma C1_name_branch_counterexample :
  ~ (forall molecule search_type : string,
        formula_only molecule = false ->
        has_smiles_mark molecule = false ->
        classify molecule = Name
        /\ _build_molecule_query molecule search_type
           = "EN_ALL:(" +:+ strip molecule +:+ ")").
Proof.
  intros H.
  destruct (H tab_CHO "exact") as [K _]; [reflexivity | reflexivity |].
  vm_compute in K. discriminate.
Qed.

(** C1 (amended): an input whose characters other than spaces all lie in
    the formula alphabet is classified as Formula and gives the quoted
    query on the abstract field; an input outside the alphabet holding one
    of [@], [/], [\] is classified as Smiles, with the same shape of
    query; an input holding none of the three marks whose stripped form is
    outside the alphabet is classified as Name and gives the unquoted
    query on all fields.  The queries carry the stripped input.
    ["glucose"] is a Name. *)
Theorem C1_query_builder_classification (molecule search_type : string) :
  (formula_only molecule = true ->
   classify molecule = Formula
   /\ _build_molecule_query molecule search_type
      = "EN_AB:(" +:+ quoted (strip molecule) +:+ ")")
  /\ (formula_only molecule = false ->
      has_smiles_mark molecule = true ->
      classify molecule = Smiles
      /\ _build_molecule_query molecule search_type
         = "EN_AB:(" +:+ quoted (strip molecule) +:+ ")")
  /\ (formula_only (strip molecule) = false ->
      has_smiles_mark molecule = false ->
      classify molecule = Name
      /\ _build_molecule_query molecule search_type
         = "EN_ALL:(" +:+ strip molecule +:+ ")")
  /\ classify "glucose" = Name.
Proof.
  split; [|split; [|split]].
  - intros H. apply formula_only_strip in H.
    assert (classify molecule = Formula) as K
      by (unfold classify, detect_kind; rewrite H; reflexivity).
    split; [exact K | apply build_query_formula, K].
  - intros _ H. rewrite <- has_smiles_mark_strip in H.
    assert (classify molecule = Smiles) as K
      by (unfold classify, detect_kind;
          rewrite (smiles_mark_not_formula _ H), H; reflexivity).
    split; [exact K | apply build_query_smiles, K].
  - intros Hf H. rewrite <- has_smiles_mark_strip in H.
    assert (classify molecule = Name) as K
      by (unfold classify, detect_kind; rewrite Hf, H; reflexivity).
    split; [exact K | apply build_query_name, K].
  - reflexivity.
Qed.

Lemma C1_query_builder_witness :
  (classify "C6 H12 O6" = Formula
   /\ _build_molecule_query "C6 H12 O6" "exact"
      = "EN_AB:(" +:+ quoted "C6 H12 O6" +:+ ")")
  /\ (classify "C[C@H](N)C(=O)O" = Smiles
      /\ _build_molecule_query "C[C@H](N)C(=O)O" "exact"
         = "EN_AB:(" +:+ quoted "C[C@H](N)C(=O)O" +:+ ")")
  /\ (classify "aspirin" = Name
      /\ _build_molecule_query "aspirin" "exact" = "EN_ALL:(aspirin)").
Proof.
  split; [|split].
  - apply (C1_query_builder_classification "C6 H12 O6" "exact").
    reflexivity.
  - apply (C1_query_builder_classification "C[C@H](N)C(=O)O" "exact");
      reflexivity.
  - apply (C1_query_builder_classification "aspirin" "exact");
      reflexivity.
Defined.

End QueryBuilder.

(** ** Fetch with retry ([app/scraper.py]) *)

Section Fetch.

Import PyStr App Aux.

Lemma after_attempt_server attempt url params w :
  server (after_attempt attempt url params w) = server w.
Proof. unfold after_attempt. destruct (0 <? attempt); reflexivity. Qed.

Lemma after_attempt_issued attempt url params w :
  issued (after_attempt attempt url params w) = S (issued w).
Proof. unfold after_attempt. destruct (0 <? attempt); reflexivity. Qed.

Lemma after_attempt_log attempt url params w :
  log (after_attempt attempt url params w)
  = log w ++ (if 0 <? attempt then [EvBackoff attempt] else [])
          ++ [EvGet url params].
Proof.
  unfold after_attempt. destruct (0 <? attempt); cbn;
    rewrite <- ?app_assoc; reflexivity.
Qed.

Lemma fetch_attempts_200 k attempt url params max_retries w r :
  server w (issued w) url params = Responds r ->
  status_code r = 200 ->
  fetch_attempts (S k) attempt url params max_retries w
  = (Ok (text r), after_attempt attempt url params w).
Proof.
  intros Hr Hs. unfold after_attempt. simpl. unfold bind.
  destruct (0 <? attempt); simpl; rewrite Hr, Hs; reflexivity.
Qed.

Lemma fetch_attempts_500 k attempt url params max_retries w r :
  server w (issued w) url params = Responds r ->
  status_code r = 500 ->
  fetch_attempts (S k) attempt url params max_retries w
  = fetch_attempts k (attempt + 1) url params max_retries
      (after_attempt attempt url params w).
Proof.
  intros Hr Hs. unfold after_attempt. simpl. unfold bind.
  destruct (0 <? attempt); simpl; rewrite Hr, Hs; reflexivity.
Qed.

(** Two server errors and then a success: the body of the third response
    is returned. *)
Lemma fetch_500_500_200 url params w r0 r1 r2 :
  server w (issued w) url params = Responds r0 -> status_code r0 = 500 ->
  server w (S (issued w)) url params = Responds r1 -> status_code r1 = 500 ->
  server w (S (S (issued w))) url params = Responds r2 ->
  status_code r2 = 200 ->
  exists w',
    _fetch_with_retry url params 3 w = (Ok (text r2), w')
    /\ issued w' = (3 + issued w)%nat
    /\ log w'
       = log w ++ [EvGet url params; EvBackoff 1; EvGet url params;
                   EvBackoff 2; EvGet url params].
Proof.
  intros H0 S0 H1 S1 H2 S2. unfold _fetch_with_retry.
  change (Z.to_nat 3) with 3%nat.
  rewrite (fetch_attempts_500 _ _ _ _ _ _ _ H0 S0).
  rewrite (fetch_attempts_500 _ _ _ _ _ _ r1);
    [| rewrite after_attempt_server, after_attempt_issued; exact H1 | exact S1].
  rewrite (fetch_attempts_200 _ _ _ _ _ _ r2);
    [| rewrite !after_attempt_server, !after_attempt_issued; exact H2
     | exact S2].
  eexists. split; [reflexivity|].
  rewrite !after_attempt_issued. split; [reflexivity|].
  rewrite !after_attempt_log.
  change (0 + 1 + 1) with 2. change (0 + 1) with 1.
  change (0 <? 2) with true. change (0 <? 1) with true.
  change (0 <? 0) with false. cbn [app]. rewrite <- !app_assoc.
  reflexivity.
Qed.

(** Three server errors: the loop ends and the final [raise] is reached. *)
Lemma fetch_500_500_500 url params w r0 r1 r2 :
  server w (issued w) url params = Responds r0 -> status_code r0 = 500 ->
  server w (S (issued w)) url params = Responds r1 -> status_code r1 = 500 ->
  server w (S (S (issued w))) url params = Responds r2 ->
  status_code r2 = 500 ->
  exists w',
    _fetch_with_retry url params 3 w = (Raise (FalhaAoBuscar url 3), w')
    /\ issued w' = (3 + issued w)%nat
    /\ log w'
       = log w ++ [EvGet url params; EvBackoff 1; EvGet url params;
                   EvBackoff 2; EvGet url params].
Proof.
  intros H0 S0 H1 S1 H2 S2. unfold _fetch_with_retry.
  change (Z.to_nat 3) with 3%nat.
  rewrite (fetch_attempts_500 _ _ _ _ _ _ _ H0 S0).
  rewrite (fetch_attempts_500 _ _ _ _ _ _ r1);
    [| rewrite after_attempt_server, after_attempt_issued; exact H1 | exact S1].
  rewrite (fetch_attempts_500 _ _ _ _ _ _ r2);
    [| rewrite !after_attempt_server, !after_attempt_issued; exact H2
     | exact S2].
  eexists. split; [reflexivity|].
  rewrite !after_attempt_issued. split; [reflexivity|].
  rewrite !after_attempt_log.
  change (0 + 1 + 1) with 2. change (0 + 1) with 1.
  change (0 <? 2) with true. change (0 <? 1) with true.
  change (0 <? 0) with false. cbn [app]. rewrite <- !app_assoc.
  reflexivity.
Qed.

End Fetch.

(** ** The rate limiter *)

Section RateLimiterFacts.

Import Scraper Aux.

Lemma Qlt_bool_true (a b : Q) : Qlt_bool a b = true <-> (a < b)%Q.
Proof.
  unfold Qlt_bool. rewrite negb_true_iff. split.
  - intros H. apply Qnot_le_lt. intros K.
    apply Qle_bool_iff in K. congruence.
  - intros H. destruct (Qle_bool b a) eqn:E; [|reflexivity].
    apply Qle_bool_iff in E. apply Qle_not_lt in E. contradiction.
Qed.

Lemma Qlt_bool_false (a b : Q) : Qlt_bool a b = false <-> (b <= a)%Q.
Proof.
  unfold Qlt_bool. rewrite negb_false_iff. apply Qle_bool_iff.
Qed.

Lemma py_min_bounds (lo a b : Q) :
  (lo <= a)%Q -> (lo <= b)%Q -> (lo <= py_min a b <= b)%Q.
Proof.
  intros Ha Hb. unfold py_min. destruct (Qlt_bool b a) eqn:E.
  - split; [exact Hb | apply Qle_refl].
  - apply Qlt_bool_false in E. split; assumption.
Qed.

Lemma py_max_bounds (a b hi : Q) :
  (a <= hi)%Q -> (b <= hi)%Q -> (a <= py_max a b <= hi)%Q.
Proof.
  intros Ha Hb. unfold py_max. destruct (Qlt_bool a b) eqn:E.
  - apply Qlt_bool_true in E. split; [apply Qlt_le_weak, E | exact Hb].
  - split; [apply Qle_refl | exact Ha].
Qed.

Lemma pow2_ge_1 (n : nat) : (1 <= inject_Z (2 ^ Z.of_nat n))%Q.
Proof.
  change 1%Q with (inject_Z 1). rewrite <- Zle_Qle.
  assert (0 < 2 ^ Z.of_nat n)%Z by (apply Z.pow_pos_nonneg; lia). lia.
Qed.

Lemma backoff_ge_min (m : Q) (n : nat) :
  (0 <= m)%Q -> (m <= m * inject_Z (2 ^ Z.of_nat n))%Q.
Proof.
  intros Hm. pose proof (pow2_ge_1 n) as Hk.
  set (k := inject_Z (2 ^ Z.of_nat n)) in *. nra.
Qed.

Lemma relaxed_le_max (m : Q) (n : nat) :
  (0 <= m)%Q ->
  (m / (1 + inject_Z (Z.of_nat n) * (1 # 10)) <= m)%Q.
Proof.
  intros Hm.
  assert (0 <= inject_Z (Z.of_nat n))%Q as Hn
    by (change 0%Q with (inject_Z 0); rewrite <- Zle_Qle; lia).
  set (k := inject_Z (Z.of_nat n)) in *.
  apply Qle_shift_div_r; nra.
Qed.

(** The powers of two that a float holds are those below [2 ** 1024]. *)
Lemma pow2_limit (n : nat) :
  (float_int_limit <=? Z.abs (2 ^ Z.of_nat n)) = (1024 <=? n)%nat.
Proof.
  assert (Hp : 0 < 2 ^ Z.of_nat n) by (apply Z.pow_pos_nonneg; lia).
  rewrite Z.abs_eq by (apply Z.lt_le_incl, Hp).
  assert (L1 : 2 ^ 1023 < float_int_limit) by reflexivity.
  assert (L2 : float_int_limit < 2 ^ 1024) by reflexivity.
  destruct (Nat.leb_spec 1024 n) as [H|H].
  - apply Z.leb_le.
    assert (K : 2 ^ 1024 <= 2 ^ Z.of_nat n)
      by (apply Z.pow_le_mono_r; [reflexivity|]; apply (Nat2Z.inj_le 1024 n), H).
    apply Z.lt_le_incl. eapply Z.lt_le_trans; eassumption.
  - apply Z.leb_gt.
    assert (K : 2 ^ Z.of_nat n <= 2 ^ 1023).
    { apply Z.pow_le_mono_r; [reflexivity|].
      apply (Nat2Z.inj_le n 1023). apply Nat.lt_succ_r. exact H. }
    eapply Z.le_lt_trans; eassumption.
Qed.

Lemma float_of_int_pow2 (n : nat) :
  float_of_int (2 ^ Z.of_nat n)
  = if (1024 <=? n)%nat then Raise OverflowError
    else Ok (inject_Z (2 ^ Z.of_nat n)).
Proof. unfold float_of_int. rewrite pow2_limit. reflexivity. Qed.

Lemma float_of_int_nat (n : nat) :
  float_of_int (Z.of_nat n)
  = if float_int_limit <=? Z.of_nat n then Raise OverflowError
    else Ok (inject_Z (Z.of_nat n)).
Proof.
  unfold float_of_int. rewrite Z.abs_eq by apply Nat2Z.is_nonneg.
  reflexivity.
Qed.

(** The delay of [wait], or the exception raised in its place. *)
Lemma wait_delay_spec (rl : RateLimiter) (u : Q) :
  wait_delay rl u
  = if overflows rl then Raise OverflowError
    else
      Ok (if adaptive rl
          then
            if (0 <? consecutive_errors rl)%nat
            then py_min
                   (min_delay rl
                    * inject_Z (2 ^ Z.of_nat (consecutive_errors rl)))%Q
                   (max_delay rl)
            else py_max (min_delay rl)
                   (max_delay rl
                    / (1 + inject_Z (Z.of_nat (success_streak rl))
                           * (1 # 10)))%Q
          else (min_delay rl + (max_delay rl - min_delay rl) * u)%Q).
Proof.
  unfold wait_delay, overflows.
  destruct (adaptive rl); [|reflexivity]. cbn [andb].
  destruct (0 <? consecutive_errors rl)%nat.
  - rewrite float_of_int_pow2.
    destruct (1024 <=? consecutive_errors rl)%nat; reflexivity.
  - rewrite float_of_int_nat.
    destruct (float_int_limit <=? Z.of_nat (success_streak rl));
      reflexivity.
Qed.

(** A limiter with fewer than 1024 consecutive errors and a streak that a
    float holds does not overflow. *)
Lemma overflows_false (rl : RateLimiter) :
  (consecutive_errors rl < 1024)%nat ->
  Z.of_nat (success_streak rl) < float_int_limit ->
  overflows rl = false.
Proof.
  intros Hc Hs. unfold overflows.
  destruct (adaptive rl); [|reflexivity]. cbn [andb].
  destruct (0 <? consecutive_errors rl)%nat.
  - apply Nat.leb_gt. exact Hc.
  - apply Z.leb_gt. exact Hs.
Qed.

Lemma overflows_after_error (rl : RateLimiter) :
  overflows (record_error rl)
  = adaptive rl && (1023 <=? consecutive_errors rl)%nat.
Proof. reflexivity. Qed.

Lemma adaptive_delay_bounds (rl : RateLimiter) (u : Q) :
  adaptive rl = true -> overflows rl = false ->
  (0 <= min_delay rl)%Q -> (min_delay rl <= max_delay rl)%Q ->
  exists delay,
    wait_delay rl u = Ok delay
    /\ (min_delay rl <= delay <= max_delay rl)%Q.
Proof.
  intros Ha Ho H0 Hm. rewrite wait_delay_spec, Ho, Ha.
  eexists. split; [reflexivity|].
  destruct (0 <? consecutive_errors rl)%nat.
  - apply py_min_bounds; [apply backoff_ge_min, H0 | exact Hm].
  - apply py_max_bounds; [exact Hm|].
    apply relaxed_le_max. eapply Qle_trans; eassumption.
Qed.

Lemma successes_app (l1 l2 : list event) :
  successes (l1 ++ l2) = (successes l1 + successes l2)%nat.
Proof.
  induction l1 as [|e l1 IH]; [reflexivity|].
  destruct e; simpl; rewrite IH; reflexivity.
Qed.

Lemma overflows_observe (s s' : state) :
  observe s' = observe s ->
  overflows (rate_limiter s') = overflows (rate_limiter s).
Proof.
  unfold observe, overflows. intros H. injection H as _ -> -> -> _.
  reflexivity.
Qed.

(** What [wait] does with the delay it computed: it sleeps for the part
    of the delay that has not elapsed, if [time.sleep] accepts it, and
    records the time. *)
Lemma wait_computed (s : state) (delay : Q) (s0 : state) :
  compute_delay s = (Ok delay, s0) ->
  let elapsed := (clock s - last_request_time (rate_limiter s))%Q in
  let pause := (delay - elapsed)%Q in
  exists s',
    (if Qlt_bool elapsed delay && negb (dorme s (dormidas s) pause)
     then wait s = (Raise SleepError, s')
          /\ clock s' = clock s
          /\ log s' = log s
          /\ last_request_time (rate_limiter s')
             = last_request_time (rate_limiter s)
     else wait s = (Ok tt, s')
          /\ clock s'
             = (if Qlt_bool elapsed delay then clock s + pause
                else clock s)%Q
          /\ log s'
             = log s ++ (if Qlt_bool elapsed delay
                         then [EvSleep pause] else [])
          /\ last_request_time (rate_limiter s') = clock s')
    /\ http s' = http s
    /\ observe s' = observe s
    /\ drawn s' = drawn s0
    /\ dorme s' = dorme s
    /\ draws s' = draws s
    /\ min_delay (rate_limiter s') = min_delay (rate_limiter s)
    /\ max_delay (rate_limiter s') = max_delay (rate_limiter s).
Proof.
  intros Hd elapsed pause. unfold wait, bind. rewrite Hd.
  fold elapsed. fold pause.
  unfold compute_delay in Hd.
  destruct (adaptive (rate_limiter s)) eqn:Ha;
    injection Hd as _ <-;
    destruct (Qlt_bool elapsed delay); cbn [andb];
    unfold sleep; cbn [dorme dormidas];
    try destruct (dorme s (dormidas s) pause); cbn;
    (eexists; split; [split; [reflexivity|]|]); cbn;
    rewrite ?app_nil_r; repeat split; try reflexivity;
    unfold observe; cbn; rewrite ?successes_app; cbn;
    rewrite ?Nat.add_0_r, ?Ha; reflexivity.
Qed.

(** The delay of a limiter that does not overflow lies between the two
    bounds; the draw of [random.uniform] is read as a number between 0
    and 1. *)
Lemma delay_bounds (rl : RateLimiter) (u : Q) :
  overflows rl = false ->
  (0 <= min_delay rl)%Q -> (min_delay rl <= max_delay rl)%Q ->
  (0 <= u <= 1)%Q ->
  exists delay,
    wait_delay rl (if adaptive rl then 0 else u) = Ok delay
    /\ (min_delay rl <= delay <= max_delay rl)%Q.
Proof.
  intros Ho H0 Hm [Hu0 Hu1]. destruct (adaptive rl) eqn:Ha.
  - apply adaptive_delay_bounds; assumption.
  - rewrite wait_delay_spec, Ho, Ha. eexists. split; [reflexivity|].
    split; nra.
Qed.

(** The delay [wait] computes when the limiter does not overflow. *)
Lemma compute_delay_fits (s : state) :
  overflows (rate_limiter s) = false ->
  exists delay s0,
    compute_delay s = (Ok delay, s0)
    /\ wait_delay (rate_limiter s)
         (if adaptive (rate_limiter s) then 0 else draws s (drawn s))
       = Ok delay.
Proof.
  intros Ho. unfold compute_delay.
  destruct (adaptive (rate_limiter s));
    rewrite wait_delay_spec, Ho; eexists; eexists; split; reflexivity.
Qed.

(** [wait] when the limiter overflows: nothing happens but the raise. *)
Lemma wait_raises (s : state) :
  overflows (rate_limiter s) = true ->
  wait s = (Raise OverflowError, s).
Proof.
  intros Ho. unfold wait, bind, compute_delay.
  assert (Ha : adaptive (rate_limiter s) = true).
  { unfold overflows in Ho. apply andb_true_iff in Ho. apply Ho. }
  rewrite Ha, wait_delay_spec, Ho. reflexivity.
Qed.

(** [wait], whatever the state: it returns, or raises for a delay that
    overflows or for a pause that [time.sleep] refuses; it sends nothing,
    keeps the counters of the limiter and does not move the clock back. *)
Lemma wait_cases (s : state) :
  exists s1,
    http s1 = http s /\ observe s1 = observe s
    /\ (clock s <= clock s1)%Q
    /\ (wait s = (Ok tt, s1)
        \/ wait s = (Raise SleepError, s1)
        \/ (wait s = (Raise OverflowError, s1)
            /\ overflows (rate_limiter s1) = true)).
Proof.
  destruct (overflows (rate_limiter s)) eqn:Ho.
  - exists s. split; [reflexivity|]. split; [reflexivity|].
    split; [apply Qle_refl|]. right. right.
    split; [apply wait_raises, Ho|exact Ho].
  - destruct (compute_delay_fits s Ho) as (delay & s0 & Hd & _).
    destruct (wait_computed s delay s0 Hd)
      as (s' & Hw & Hh & Hob & _).
    exists s'. split; [exact Hh|]. split; [exact Hob|].
    destruct (Qlt_bool (clock s - last_request_time (rate_limiter s)) delay)
      eqn:B; cbn [andb] in Hw.
    + apply Qlt_bool_true in B.
      destruct (dorme s (dormidas s)
                  (delay - (clock s - last_request_time (rate_limiter s))));
        cbn [negb] in Hw.
      * destruct Hw as (Hw & Hc & _). rewrite Hc.
        split; [lra|]. left. exact Hw.
      * destruct Hw as (Hw & Hc & _). rewrite Hc.
        split; [apply Qle_refl|]. right. left. exact Hw.
    + destruct Hw as (Hw & Hc & _). rewrite Hc.
      split; [apply Qle_refl|]. left. exact Hw.
Qed.

(** A steady state stays steady when only the counters of the limiter,
    the requests, the draws taken and the log change, and the clock does
    not go back. *)
Lemma steady_frame (s s' : state) :
  min_delay (rate_limiter s') = min_delay (rate_limiter s) ->
  max_delay (rate_limiter s') = max_delay (rate_limiter s) ->
  (last_request_time (rate_limiter s') <= clock s')%Q ->
  draws s' = draws s -> dorme s' = dorme s ->
  steady s -> steady s'.
Proof.
  intros Hmin Hmax Hlast Hdr Hdo (H0 & Hm & _ & Hu & Hs).
  unfold steady. rewrite Hmin, Hmax, Hdr, Hdo.
  split; [exact H0|]. split; [exact Hm|]. split; [exact Hlast|].
  split; [exact Hu|exact Hs].
Qed.

(** In a steady state whose limiter does not overflow, [wait] returns. *)
Lemma wait_steady (s : state) :
  steady s -> overflows (rate_limiter s) = false ->
  exists s', wait s = (Ok tt, s')
             /\ http s' = http s /\ observe s' = observe s
             /\ (clock s <= clock s')%Q
             /\ steady s'.
Proof.
  intros Hst Ho. assert (Hst' := Hst).
  destruct Hst' as (H0 & Hm & Hl & Hu & Hs).
  destruct (compute_delay_fits s Ho) as (delay & s0 & Hd & Ed).
  destruct (delay_bounds (rate_limiter s) (draws s (drawn s)) Ho H0 Hm
              (Hu _)) as (delay' & Ed' & Hb).
  rewrite Ed in Ed'. injection Ed' as <-.
  destruct (wait_computed s delay s0 Hd)
    as (s' & Hw & Hh & Hob & _ & Hdo & Hdr & Hmin & Hmax).
  set (elapsed := (clock s - last_request_time (rate_limiter s))%Q) in *.
  assert (Hacc : Qlt_bool elapsed delay
                 && negb (dorme s (dormidas s) (delay - elapsed)) = false).
  { destruct (Qlt_bool elapsed delay) eqn:B; [|reflexivity].
    apply Qlt_bool_true in B. cbn [andb].
    rewrite Hs; [reflexivity| |left]; unfold elapsed in *; lra. }
  rewrite Hacc in Hw. destruct Hw as (Hw & Hc & _ & Hlast).
  exists s'. split; [exact Hw|]. split; [exact Hh|]. split; [exact Hob|].
  assert (Hck : (clock s <= clock s')%Q).
  { rewrite Hc. destruct (Qlt_bool elapsed delay) eqn:B;
      [|apply Qle_refl].
    apply Qlt_bool_true in B. unfold elapsed in *. lra. }
  split; [exact Hck|].
  apply (steady_frame s s'); try assumption.
  rewrite Hlast. apply Qle_refl.
Qed.

End RateLimiterFacts.

(** ** The retried request ([patentscope_scraper.py]) *)

Section MakeRequest.

Import PyStr Scraper Aux.

(** The pause of tenacity between two attempts is between two and ten
    seconds. *)
Lemma wait_exponential_bounds (n : Z) :
  (2 <= wait_exponential n <= 10)%Q.
Proof.
  unfold wait_exponential, py_max, py_min.
  destruct (Qlt_bool 10 (inject_Z (2 ^ (n - 1)))) eqn:E1.
  - destruct (Qlt_bool 2 10) eqn:E2; split; lra.
  - apply Qlt_bool_false in E1.
    destruct (Qlt_bool 2 (inject_Z (2 ^ (n - 1)))) eqn:E2.
    + apply Qlt_bool_true in E2. split; lra.
    + split; lra.
Qed.

(** [time.sleep], whatever it answers. *)
Lemma sleep_cases (d : Q) (s : state) :
  exists s',
    http s' = http s /\ observe s' = observe s
    /\ ((sleep d s = (Ok tt, s') /\ clock s' = (clock s + d)%Q)
        \/ (sleep d s = (Raise SleepError, s') /\ clock s' = clock s)).
Proof.
  unfold sleep. destruct (dorme s (dormidas s) d).
  - eexists. split; [|split; [|left; split; reflexivity]];
      [reflexivity|].
    unfold observe. simpl. rewrite successes_app. simpl.
    rewrite Nat.add_0_r. reflexivity.
  - eexists. split; [|split; [|right; split; reflexivity]]; reflexivity.
Qed.

(** A pause of tenacity in a steady state. *)
Lemma sleep_steady (n : Z) (s : state) :
  steady s ->
  exists s', sleep (wait_exponential n) s = (Ok tt, s')
             /\ http s' = http s /\ observe s' = observe s
             /\ steady s'.
Proof.
  intros Hst. assert (Hst' := Hst). destruct Hst' as (_ & _ & Hl & _ & Hs).
  pose proof (wait_exponential_bounds n) as [Hlo Hhi].
  unfold sleep. rewrite Hs; [| lra | right; exact Hhi].
  eexists. split; [reflexivity|]. split; [reflexivity|]. split.
  - unfold observe. simpl. rewrite successes_app. simpl.
    rewrite Nat.add_0_r. reflexivity.
  - apply (steady_frame s); try reflexivity; [|exact Hst]. cbn. lra.
Qed.

(** One call of the body on a response with status 500. *)
Lemma body_500 (url method : string) (s : state) (r : response) :
  steady s -> overflows (rate_limiter s) = false ->
  http s (calls s) = Responds r -> status_code r = 500 ->
  exists s',
    make_request_body url method s
    = (Raise (RequestException (status_error r)), s')
    /\ http s' = http s
    /\ observe s'
       = (S (calls s), adaptive (rate_limiter s),
          S (consecutive_errors (rate_limiter s)), O, successes (log s))
    /\ steady s'.
Proof.
  intros Hst Hov Hr Hs. unfold make_request_body, bind at 1.
  destruct (wait_steady s Hst Hov) as (s1 & -> & Hh & Ho & _ & Hst1).
  unfold observe in Ho. injection Ho as Hc Ha He Hk Hl.
  unfold bind, session_request. simpl. rewrite Hh, Hc, Hr.
  unfold raises_for_status. rewrite Hs. simpl.
  eexists. split; [reflexivity|]. split; [reflexivity|]. split.
  - unfold observe. simpl. rewrite !successes_app. simpl.
    rewrite !Nat.add_0_r. congruence.
  - apply (steady_frame s1); try reflexivity; [|exact Hst1].
    apply Hst1.
Qed.

(** One call of the body on a response with status 200. *)
Lemma body_200 (url method : string) (s : state) (r : response) :
  steady s -> overflows (rate_limiter s) = false ->
  http s (calls s) = Responds r -> status_code r = 200 ->
  exists s',
    make_request_body url method s = (Ok r, s')
    /\ http s' = http s
    /\ observe s'
       = (S (calls s), adaptive (rate_limiter s), O,
          S (success_streak (rate_limiter s)), S (successes (log s))).
Proof.
  intros Hst Hov Hr Hs. unfold make_request_body, bind at 1.
  destruct (wait_steady s Hst Hov) as (s1 & -> & Hh & Ho & _ & Hst1).
  unfold observe in Ho. injection Ho as Hc Ha He Hk Hl.
  unfold bind, session_request. simpl. rewrite Hh, Hc, Hr.
  unfold raises_for_status. rewrite Hs. simpl.
  eexists. split; [reflexivity|]. split; [reflexivity|].
  unfold observe. simpl. rewrite !successes_app. simpl.
  rewrite !Nat.add_0_r, Nat.add_1_r. congruence.
Qed.

(** A failed attempt followed by tenacity's sleep. *)
Lemma retrying_500 {k : nat} (n : Z) (url method : string) (s : state)
    (r : response) :
  steady s -> overflows (rate_limiter s) = false ->
  http s (calls s) = Responds r -> status_code r = 500 ->
  exists s',
    retrying (S k) n (make_request_body url method) s
    = retrying k (n + 1) (make_request_body url method) s'
    /\ http s' = http s
    /\ observe s'
       = (S (calls s), adaptive (rate_limiter s),
          S (consecutive_errors (rate_limiter s)), O, successes (log s))
    /\ steady s'.
Proof.
  intros Hst Hov Hr Hs. cbn [retrying].
  destruct (body_500 url method s r Hst Hov Hr Hs)
    as (s1 & -> & Hh1 & Ho1 & Hst1).
  unfold bind.
  destruct (sleep_steady n s1 Hst1) as (s2 & -> & Hh2 & Ho2 & Hst2).
  exists s2. split; [reflexivity|]. split; [congruence|].
  split; [congruence|exact Hst2].
Qed.

Lemma observe_calls (s : state) c a e k l :
  observe s = (c, a, e, k, l) -> calls s = c.
Proof. unfold observe. congruence. Qed.

(** After an error the limiter overflows from 1024 consecutive errors
    on. *)
Lemma observe_error_fits (s : state) c a e l :
  observe s = (c, a, S e, O, l) -> (S e < 1024)%nat ->
  overflows (rate_limiter s) = false.
Proof.
  unfold observe. intros H He. injection H as _ _ Hc Hk _.
  apply overflows_false; [rewrite Hc; exact He|].
  rewrite Hk. reflexivity.
Qed.

Lemma make_request_500_500_200 (url method : string) (s : state)
    (r0 r1 r2 : response) :
  steady s ->
  (consecutive_errors (rate_limiter s) < 1022)%nat ->
  Z.of_nat (success_streak (rate_limiter s)) < float_int_limit ->
  http s (calls s) = Responds r0 -> status_code r0 = 500 ->
  http s (S (calls s)) = Responds r1 -> status_code r1 = 500 ->
  http s (S (S (calls s))) = Responds r2 -> status_code r2 = 200 ->
  exists s',
    _make_request url method s = (Ok r2, s')
    /\ observe s'
       = ((3 + calls s)%nat, adaptive (rate_limiter s), O, 1%nat,
          S (successes (log s))).
Proof.
  intros Hst Hce Hss H0 S0 H1 S1 H2 S2. unfold _make_request.
  destruct (retrying_500 (k:=1) 1 url method s r0 Hst)
    as (s1 & -> & Hh1 & Ho1 & Hst1);
    [apply overflows_false; [lia|exact Hss] | exact H0 | exact S0 |].
  pose proof (observe_calls _ _ _ _ _ _ Ho1) as Hc1.
  destruct (retrying_500 (k:=0) (1 + 1) url method s1 r1 Hst1)
    as (s2 & -> & Hh2 & Ho2 & Hst2);
    [eapply observe_error_fits; [exact Ho1|lia] | congruence | exact S1 |].
  pose proof (observe_calls _ _ _ _ _ _ Ho2) as Hc2.
  cbn [retrying].
  assert (Ho2' := Ho2). unfold observe in Ho1, Ho2.
  injection Ho1 as A1 F1 B1 C1 D1. injection Ho2 as A2 F2 B2 C2 D2.
  destruct (body_200 url method s2 r2 Hst2) as (s3 & -> & Hh3 & Ho3);
    [eapply observe_error_fits; [exact Ho2'|]; rewrite B1; lia
    | congruence | exact S2 |].
  exists s3. split; [reflexivity|].
  rewrite Ho3.
  rewrite ?A2, ?F2, ?B2, ?C2, ?D2, ?A1, ?F1, ?B1, ?C1, ?D1. reflexivity.
Qed.

Lemma make_request_500_500_500 (url method : string) (s : state)
    (r0 r1 r2 : response) :
  steady s ->
  (consecutive_errors (rate_limiter s) < 1022)%nat ->
  Z.of_nat (success_streak (rate_limiter s)) < float_int_limit ->
  http s (calls s) = Responds r0 -> status_code r0 = 500 ->
  http s (S (calls s)) = Responds r1 -> status_code r1 = 500 ->
  http s (S (S (calls s))) = Responds r2 -> status_code r2 = 500 ->
  exists s',
    _make_request url method s
    = (Raise (RetryError (RequestException (status_error r2))), s')
    /\ observe s'
       = ((3 + calls s)%nat, adaptive (rate_limiter s),
          (3 + consecutive_errors (rate_limiter s))%nat, O,
          successes (log s)).
Proof.
  intros Hst Hce Hss H0 S0 H1 S1 H2 S2. unfold _make_request.
  destruct (retrying_500 (k:=1) 1 url method s r0 Hst)
    as (s1 & -> & Hh1 & Ho1 & Hst1);
    [apply overflows_false; [lia|exact Hss] | exact H0 | exact S0 |].
  pose proof (observe_calls _ _ _ _ _ _ Ho1) as Hc1.
  destruct (retrying_500 (k:=0) (1 + 1) url method s1 r1 Hst1)
    as (s2 & -> & Hh2 & Ho2 & Hst2);
    [eapply observe_error_fits; [exact Ho1|lia] | congruence | exact S1 |].
  pose proof (observe_calls _ _ _ _ _ _ Ho2) as Hc2.
  cbn [retrying].
  assert (Ho2' := Ho2). unfold observe in Ho1, Ho2.
  injection Ho1 as A1 F1 B1 C1 D1. injection Ho2 as A2 F2 B2 C2 D2.
  destruct (body_500 url method s2 r2 Hst2) as (s3 & -> & Hh3 & Ho3 & _);
    [eapply observe_error_fits; [exact Ho2'|]; rewrite B1; lia
    | congruence | exact S2 |].
  exists s3. split; [reflexivity|].
  rewrite Ho3.
  rewrite ?A2, ?F2, ?B2, ?C2, ?D2, ?A1, ?F1, ?B1, ?C1, ?D1. reflexivity.
Qed.

End MakeRequest.

(** A scripted state is steady. *)
Ltac steady_now :=
  unfold Aux.steady; cbn;
  split; [lra|]; split; [lra|]; split; [lra|];
  split; [intros n; lra|reflexivity].

(** C2, the claim as stated fails on both cited functions.  In
    [_fetch_with_retry] the statuses 500, 500, 200 give the body of the
    third response, but the function has no rate limiter: its effects are
    three requests and two sleeps, and nothing is recorded.  In
    [_make_request], which owns the rate limiter, the same statuses do not
    make the call succeed when the limiter has counted 1023 consecutive
    errors: after the first failure the delay of [wait] overflows, the
    [OverflowError] is not retried, one request has been sent and
    [record_success] has not been called. *)
Lemma C2_record_success_counterexample :
  (exists w',
      App._fetch_with_retry "u" ∅ 3
        (Aux.app_world [Aux.app_response 500 "a"; Aux.app_response 500 "b";
                        Aux.app_response 200 "third"])
      = (App.Ok "third", w')
      /\ App.log w'
         = [App.EvGet "u" ∅; App.EvBackoff 1; App.EvGet "u" ∅;
            App.EvBackoff 2; App.EvGet "u" ∅])
  /\ (exists s',
         Scraper._make_request "u" "GET"
           (Aux.with_errors 1023
              (Aux.scraper_state
                 [Aux.scraper_response 500 "a"; Aux.scraper_response 500 "b";
                  Aux.scraper_response 200 "third"]))
         = (Scraper.Raise Scraper.OverflowError, s')
         /\ Scraper.calls s' = 1%nat
         /\ Aux.successes (Scraper.log s') = O).
Proof.
  split.
  - set (w := Aux.app_world _).
    exists (snd (App._fetch_with_retry "u" ∅ 3 w)).
    split; reflexivity.
  - set (s := Aux.with_errors 1023 _).
    exists (snd (Scraper._make_request "u" "GET" s)).
    split; [|split]; vm_compute; reflexivity.
Qed.

(** C2 (amended): with three attempts and the statuses 500, 500, 200,
    [_fetch_with_retry] returns the body of the third response after
    three requests and two sleeps, and records nothing, having no rate
    limiter; [_make_request], started in a steady state (delays in order,
    a clock not before the last request, a [time.sleep] that accepts the
    pauses asked) with fewer than 1022 consecutive errors on its limiter
    and a streak that a float holds, returns the third response and calls
    [record_success] exactly once.  With the statuses 500, 500, 500 the
    call fails once the attempts are used up: [_fetch_with_retry] reaches
    the [raise] after its loop, [_make_request] ends in tenacity's
    [RetryError], and [record_success] is not called. *)
Theorem C2_fetch_with_retry_sequences :
  (forall (url : string) (params : gmap string pyval) (w : App.world)
          (r0 r1 r2 : App.response),
      App.server w (App.issued w) url params = App.Responds r0 ->
      App.status_code r0 = 500 ->
      App.server w (S (App.issued w)) url params = App.Responds r1 ->
      App.status_code r1 = 500 ->
      App.server w (S (S (App.issued w))) url params = App.Responds r2 ->
      (App.status_code r2 = 200 ->
       exists w',
         App._fetch_with_retry url params 3 w = (App.Ok (App.text r2), w')
         /\ App.issued w' = (3 + App.issued w)%nat
         /\ App.log w'
            = App.log w
              ++ [App.EvGet url params; App.EvBackoff 1;
                  App.EvGet url params; App.EvBackoff 2;
                  App.EvGet url params])
      /\ (App.status_code r2 = 500 ->
          exists w',
            App._fetch_with_retry url params 3 w
            = (App.Raise (App.FalhaAoBuscar url 3), w')
            /\ App.issued w' = (3 + App.issued w)%nat
            /\ App.log w'
               = App.log w
                 ++ [App.EvGet url params; App.EvBackoff 1;
                     App.EvGet url params; App.EvBackoff 2;
                     App.EvGet url params]))
  /\ (forall (url method : string) (s : Scraper.state)
             (r0 r1 r2 : Scraper.response),
         Aux.steady s ->
         (Scraper.consecutive_errors (Scraper.rate_limiter s) < 1022)%nat ->
         Z.of_nat (Scraper.success_streak (Scraper.rate_limiter s))
         < Scraper.float_int_limit ->
         Scraper.http s (Scraper.calls s) = Scraper.Responds r0 ->
         Scraper.status_code r0 = 500 ->
         Scraper.http s (S (Scraper.calls s)) = Scraper.Responds r1 ->
         Scraper.status_code r1 = 500 ->
         Scraper.http s (S (S (Scraper.calls s))) = Scraper.Responds r2 ->
         (Scraper.status_code r2 = 200 ->
          exists s',
            Scraper._make_request url method s = (Scraper.Ok r2, s')
            /\ Aux.successes (Scraper.log s')
               = S (Aux.successes (Scraper.log s))
            /\ Scraper.consecutive_errors (Scraper.rate_limiter s') = O
            /\ Scraper.calls s' = (3 + Scraper.calls s)%nat)
         /\ (Scraper.status_code r2 = 500 ->
             exists s',
               Scraper._make_request url method s
               = (Scraper.Raise
                    (Scraper.RetryError
                       (Scraper.RequestException (Scraper.status_error r2))),
                  s')
               /\ Aux.successes (Scraper.log s')
                  = Aux.successes (Scraper.log s)
               /\ Scraper.calls s' = (3 + Scraper.calls s)%nat)).
Proof.
  split.
  - intros url params w r0 r1 r2 H0 S0 H1 S1 H2. split; intros S2.
    + eapply fetch_500_500_200; eassumption.
    + eapply fetch_500_500_500; eassumption.
  - intros url method s r0 r1 r2 Hst Hce Hss H0 S0 H1 S1 H2.
    split; intros S2.
    + destruct (make_request_500_500_200 url method s r0 r1 r2)
        as (s' & E & Ho); try assumption.
      exists s'. unfold Aux.observe in Ho. injection Ho as A F B C D.
      repeat split; assumption.
    + destruct (make_request_500_500_500 url method s r0 r1 r2)
        as (s' & E & Ho); try assumption.
      exists s'. unfold Aux.observe in Ho. injection Ho as A F B C D.
      repeat split; assumption.
Qed.

Lemma C2_fetch_with_retry_witness :
  (exists w',
      App._fetch_with_retry "u" ∅ 3
        (Aux.app_world [Aux.app_response 500 "a"; Aux.app_response 500 "b";
                        Aux.app_response 200 "third"])
      = (App.Ok "third", w'))
  /\ (exists w',
         App._fetch_with_retry "u" ∅ 3
           (Aux.app_world [Aux.app_response 500 "a"])
         = (App.Raise (App.FalhaAoBuscar "u" 3), w'))
  /\ (exists s',
         Scraper._make_request "u" "GET"
           (Aux.scraper_state
              [Aux.scraper_response 500 "a"; Aux.scraper_response 500 "b";
               Aux.scraper_response 200 "third"])
         = (Scraper.Ok (Aux.scraper_response 200 "third"), s')
         /\ Aux.successes (Scraper.log s') = 1%nat)
  /\ (exists s',
         Scraper._make_request "u" "GET"
           (Aux.scraper_state [Aux.scraper_response 500 "a"])
         = (Scraper.Raise
              (Scraper.RetryError (Scraper.RequestException "status error")),
            s')
         /\ Aux.successes (Scraper.log s') = O).
Proof.
  destruct C2_fetch_with_retry_sequences as [HA HS].
  split; [|split; [|split]].
  - destruct (HA "u" ∅
                 (Aux.app_world
                    [Aux.app_response 500 "a"; Aux.app_response 500 "b";
                     Aux.app_response 200 "third"])
                 (Aux.app_response 500 "a") (Aux.app_response 500 "b")
                 (Aux.app_response 200 "third")
                 eq_refl eq_refl eq_refl eq_refl eq_refl) as [H _].
    destruct (H eq_refl) as (w' & E & _). exists w'. exact E.
  - destruct (HA "u" ∅ (Aux.app_world [Aux.app_response 500 "a"])
                 (Aux.app_response 500 "a") (Aux.app_response 500 "a")
                 (Aux.app_response 500 "a")
                 eq_refl eq_refl eq_refl eq_refl eq_refl) as [_ H].
    destruct (H eq_refl) as (w' & E & _). exists w'. exact E.
  - destruct (HS "u" "GET"
                 (Aux.scraper_state
                    [Aux.scraper_response 500 "a";
                     Aux.scraper_response 500 "b";
                     Aux.scraper_response 200 "third"])
                 (Aux.scraper_response 500 "a") (Aux.scraper_response 500 "b")
                 (Aux.scraper_response 200 "third")
                 ltac:(steady_now) ltac:(cbn; lia) eq_refl
                 eq_refl eq_refl eq_refl eq_refl eq_refl) as [H _].
    destruct (H eq_refl) as (s' & E & K & _). exists s'. split; assumption.
  - destruct (HS "u" "GET"
                 (Aux.scraper_state [Aux.scraper_response 500 "a"])
                 (Aux.scraper_response 500 "a") (Aux.scraper_response 500 "a")
                 (Aux.scraper_response 500 "a")
                 ltac:(steady_now) ltac:(cbn; lia) eq_refl
                 eq_refl eq_refl eq_refl eq_refl eq_refl) as [_ H].
    destruct (H eq_refl) as (s' & E & K & _). exists s'. split; assumption.
Defined.

(** ** The search entry point *)

Section SearchByMolecule.

Import PyStr App Aux.

Variable Selector : string -> document.

Lemma search_by_molecule_ok molecule search_type page page_size w d w' :
  search_try Selector molecule search_type page page_size
    (search_params (_build_molecule_query molecule search_type)
       page page_size) w = (Ok d, w') ->
  search_by_molecule Selector molecule search_type page page_size w
  = (Ok d, w').
Proof.
  intros H. unfold search_by_molecule, try_except. rewrite H. reflexivity.
Qed.

Lemma search_by_molecule_raise molecule search_type page page_size w e w' :
  search_try Selector molecule search_type page page_size
    (search_params (_build_molecule_query molecule search_type)
       page page_size) w = (Raise e, w') ->
  search_by_molecule Selector molecule search_type page page_size w
  = (Ok (error_payload e molecule search_type page page_size), w').
Proof.
  intros H. unfold search_by_molecule, try_except. rewrite H. reflexivity.
Qed.

(** An exception of the fetch is an exception of the body of the [try]. *)
Lemma search_try_fetch_raise molecule search_type page page_size params
    w e w' :
  _fetch_with_retry SEARCH_URL params 3 w = (Raise e, w') ->
  search_try Selector molecule search_type page page_size params w
  = (Raise e, w').
Proof.
  intros H. unfold search_try, bind. rewrite H. reflexivity.
Qed.

(** A page size of zero makes the division raise inside the [try]. *)
Lemma search_try_zero_division molecule search_type page params w html w' :
  _fetch_with_retry SEARCH_URL params 3 w = (Ok html, w') ->
  exists e,
    search_try Selector molecule search_type page 0 params w = (Raise e, w').
Proof.
  intros H. unfold search_try, bind. rewrite H. unfold lift.
  destruct (extract_total_results (Selector html));
    eexists; reflexivity.
Qed.

End SearchByMolecule.

(** C9: [search_by_molecule] never lets an exception through, and when the
    body of its [try] (the fetch, the extraction, the page arithmetic)
    raises, the result is the error payload: status [error], no records,
    zero results and pages, no next or previous page, and the page and
    page size that were asked for. *)
Theorem C9_search_returns_error_payload
    (Selector : string -> App.document) (molecule search_type : string)
    (page page_size : Z) (w : App.world) :
  (exists d w',
      App.search_by_molecule Selector molecule search_type page page_size w
      = (App.Ok d, w'))
  /\ (forall e w',
         App.search_try Selector molecule search_type page page_size
           (App.search_params
              (App._build_molecule_query molecule search_type)
              page page_size) w = (App.Raise e, w') ->
         exists d,
           App.search_by_molecule Selector molecule search_type
             page page_size w = (App.Ok d, w')
           /\ d !! "status" = Some (App.PStr "error")
           /\ d !! "error" = Some (App.PError e)
           /\ d !! "results" = Some (App.PResults [])
           /\ d !! "total_results" = Some (App.PInt 0)
           /\ d !! "total_pages" = Some (App.PInt 0)
           /\ d !! "has_next" = Some (App.PBool false)
           /\ d !! "has_previous" = Some (App.PBool false)
           /\ d !! "page" = Some (App.PInt page)
           /\ d !! "page_size" = Some (App.PInt page_size)).
Proof.
  split.
  - destruct (App.search_try Selector molecule search_type page page_size
                (App.search_params
                   (App._build_molecule_query molecule search_type)
                   page page_size) w) as [[d|e] w'] eqn:E.
    + exists d, w'. apply search_by_molecule_ok, E.
    + eexists _, w'. apply search_by_molecule_raise, E.
  - intros e w' E. eexists. split.
    + apply search_by_molecule_raise, E.
    + repeat split; reflexivity.
Qed.

Lemma C9_search_error_payload_witness :
  let w := Aux.app_world [Aux.app_response 500 "down"] in
  exists d w',
    App.search_by_molecule (fun _ => Aux.empty_document) "aspirin" "exact"
      2 10 w = (App.Ok d, w')
    /\ d !! "status" = Some (App.PStr "error")
    /\ d !! "error" = Some (App.PError (App.FalhaAoBuscar App.SEARCH_URL 3))
    /\ d !! "results" = Some (App.PResults [])
    /\ d !! "page" = Some (App.PInt 2).
Proof.
  intros w.
  destruct (C9_search_returns_error_payload
              (fun _ => Aux.empty_document) "aspirin" "exact" 2 10 w)
    as [_ H].
  destruct (H (App.FalhaAoBuscar App.SEARCH_URL 3)
              (snd (App.search_try (fun _ => Aux.empty_document)
                      "aspirin" "exact" 2 10
                      (App.search_params
                         (App._build_molecule_query "aspirin" "exact") 2 10)
                      w)))
    as (d & E & K1 & K2 & K3 & _ & _ & _ & _ & K4 & _).
  { reflexivity. }
  exists d. eexists. repeat split; eassumption.
Defined.

(** C10: the search type has no influence on the query, on the requests
    sent or on anything else a search does: two searches that differ only
    in their search type build the same query and the same parameters,
    leave the same world (the same requests in the same order), and return
    payloads that differ at most in the [search_type] entry, which echoes
    the argument. *)
Theorem C10_search_type_noninterference
    (Selector : string -> App.document) (molecule : string)
    (page page_size : Z) (t1 t2 : string) (w : App.world) :
  App._build_molecule_query molecule t1
  = App._build_molecule_query molecule t2
  /\ App.search_params (App._build_molecule_query molecule t1) page page_size
     = App.search_params (App._build_molecule_query molecule t2)
         page page_size
  /\ snd (App.search_by_molecule Selector molecule t1 page page_size w)
     = snd (App.search_by_molecule Selector molecule t2 page page_size w)
  /\ (delete "search_type"
        <$> Aux.payload
              (App.search_by_molecule Selector molecule t1 page page_size w))
     = (delete "search_type"
          <$> Aux.payload
                (App.search_by_molecule Selector molecule t2
                   page page_size w)).
Proof.
  split; [reflexivity|]. split; [reflexivity|].
  unfold App.search_by_molecule, App.try_except, App.search_try, App.bind,
    Aux.payload.
  change (App._build_molecule_query molecule t2)
    with (App._build_molecule_query molecule t1).
  destruct (App._fetch_with_retry App.SEARCH_URL _ 3 w) as [[html|e] w1];
    [|split; reflexivity].
  unfold App.lift.
  destruct (App.extract_total_results (Selector html)) as [total|e];
    [|split; reflexivity].
  destruct (App.floordiv _ page_size) as [pages|e]; split; reflexivity.
Qed.

(** ** The delay of the rate limiter *)




(** ** The pagination loop and the limit *)

Section Pagination.

Import PyStr Scraper.

(** Valid patents below the limit are all kept, in order. *)
Lemma validar_all_valid (patentes resultados : list patente) (limite : Z) :
  Forall (fun p => validate_patent p = true) patentes ->
  Z.of_nat (length resultados + length patentes) <= limite ->
  validar patentes resultados limite = resultados ++ patentes.
Proof.
  revert resultados.
  induction patentes as [|p rest IH]; intros resultados Hv Hl.
  - simpl. rewrite app_nil_r. reflexivity.
  - inversion Hv as [|? ? Hp Hrest]; subst. simpl. rewrite Hp.
    destruct (Z.of_nat (length (resultados ++ [p])) >=? limite) eqn:E.
    + apply Z.geb_le in E. rewrite length_app in E. simpl in *.
      destruct rest; [reflexivity | simpl in Hl; lia].
    + rewrite IH; [rewrite <- app_assoc; reflexivity | exact Hrest |].
      rewrite length_app. simpl in *. lia.
Qed.

Lemma slice_to_length {A} (l : list A) (n : nat) :
  (n <= length l)%nat -> length (slice_to l (Z.of_nat n)) = n.
Proof.
  intros H. unfold slice_to.
  destruct (0 <=? Z.of_nat n) eqn:E; [|apply Z.leb_gt in E; lia].
  rewrite Nat2Z.id, length_firstn. lia.
Qed.

(** One turn of the loop that loads a further, non-empty page. *)
Lemma paginar_next (k : nat) (site : portal) (limite : Z)
    (atual nova : pagina) (patentes : list patente) (pagina_atual : Z) :
  Z.of_nat (length patentes) < limite ->
  proxima atual = true ->
  site (pagina_atual + 1) = Some nova ->
  (0 < length (extraidas nova))%nat ->
  paginar (S k) site limite atual patentes pagina_atual
  = if Z.of_nat (length (patentes ++ extraidas nova)) >=? limite
    then (patentes ++ extraidas nova, pagina_atual + 1)
    else paginar k site limite nova (patentes ++ extraidas nova)
           (pagina_atual + 1).
Proof.
  intros Hl Hn Hs He. cbn [paginar].
  apply Z.ltb_lt in Hl. rewrite Hl, Hn, Hs. cbn [negb].
  destruct (Z.of_nat (length (extraidas nova)) =? 0) eqn:E;
    [apply Z.eqb_eq in E; lia | reflexivity].
Qed.

(** Three pages of ten patents each, with a next-page control on the
    first two, and a limit of 25. *)
Lemma crawl_three_pages (site : portal) (p1 p2 p3 : pagina) :
  site 1 = Some p1 -> site 2 = Some p2 -> site 3 = Some p3 ->
  length (extraidas p1) = 10%nat -> length (extraidas p2) = 10%nat ->
  length (extraidas p3) = 10%nat ->
  proxima p1 = true -> proxima p2 = true ->
  crawl site 25
  = (firstn 25 ((extraidas p1 ++ extraidas p2) ++ extraidas p3), 3).
Proof.
  intros S1 S2 S3 L1 L2 L3 N1 N2. unfold crawl. rewrite S1.
  change (Z.to_nat (max_paginas - 1)) with 9%nat.
  rewrite (paginar_next _ _ _ _ p2); [| lia | exact N1 | exact S2 | lia].
  rewrite length_app, L1, L2. change (1 + 1) with 2.
  change (Z.of_nat (10 + 10) >=? 25) with false. cbv iota.
  rewrite (paginar_next _ _ _ _ p3);
    [| rewrite length_app; lia | exact N2 | exact S3 | lia].
  rewrite !length_app, L1, L2, L3. reflexivity.
Qed.

Lemma buscar_com_selenium_truncated (site : portal) (limite : Z) :
  0 <= limite ->
  Z.of_nat (length (_buscar_com_selenium site limite)) <= limite.
Proof.
  intros H. unfold _buscar_com_selenium, crawl.
  destruct (site 1) as [p|]; [|simpl; lia].
  destruct (paginar _ _ _ _ _ _) as [patentes pagina_atual]. simpl.
  unfold slice_to. apply Z.leb_le in H. rewrite H.
  rewrite length_firstn. lia.
Qed.

End Pagination.

(** C5: with a limit of 25 and pages of ten valid patents each, the loop
    loads the second and the third page and stops there, the thirty
    patents gathered are cut to their first 25 before the return, and
    [buscar_patentes] returns these 25.  The list returned never exceeds
    the limit. *)
Theorem C5_crawl_stops_at_limit
    (site : Scraper.portal) (p1 p2 p3 : Scraper.pagina) :
  site 1 = Some p1 -> site 2 = Some p2 -> site 3 = Some p3 ->
  (forall n p,
      site n = Some p ->
      length (Scraper.extraidas p) = 10%nat
      /\ Forall (fun x => Scraper.validate_patent x = true)
           (Scraper.extraidas p)) ->
  Scraper.proxima p1 = true -> Scraper.proxima p2 = true ->
  let gathered :=
    (Scraper.extraidas p1 ++ Scraper.extraidas p2) ++ Scraper.extraidas p3 in
  Scraper.crawl site 25 = (firstn 25 gathered, 3)
  /\ Scraper._buscar_com_selenium site 25 = firstn 25 gathered
  /\ length (Scraper._buscar_com_selenium site 25) = 25%nat
  /\ Scraper.buscar_patentes site 25 = firstn 25 gathered
  /\ (forall limite,
         0 <= limite ->
         Z.of_nat (length (Scraper._buscar_com_selenium site limite))
         <= limite).
Proof.
  intros S1 S2 S3 Hall N1 N2 gathered.
  destruct (Hall _ _ S1) as [L1 V1]. destruct (Hall _ _ S2) as [L2 V2].
  destruct (Hall _ _ S3) as [L3 V3].
  assert (Scraper.crawl site 25 = (firstn 25 gathered, 3)) as E
    by (apply crawl_three_pages; assumption).
  assert (length (firstn 25 gathered) = 25%nat) as L.
  { rewrite length_firstn. unfold gathered. rewrite !length_app. lia. }
  split; [exact E|]. unfold Scraper.buscar_patentes.
  unfold Scraper._buscar_com_selenium. rewrite E. simpl fst.
  split; [reflexivity|]. split; [exact L|]. split.
  - rewrite validar_all_valid; [reflexivity | | simpl; lia].
    apply Forall_take. unfold gathered. rewrite !Forall_app. auto.
  - intros limite. apply buscar_com_selenium_truncated.
Qed.

Lemma C5_crawl_witness :
  length (Scraper.buscar_patentes Aux.ten_per_page 25) = 25%nat
  /\ snd (Scraper.crawl Aux.ten_per_page 25) = 3.
Proof.
  destruct (C5_crawl_stops_at_limit Aux.ten_per_page
              {| Scraper.extraidas := Aux.ten_patents;
                 Scraper.proxima := true |}
              {| Scraper.extraidas := Aux.ten_patents;
                 Scraper.proxima := true |}
              {| Scraper.extraidas := Aux.ten_patents;
                 Scraper.proxima := true |})
    as (E & _ & _ & B & _); try reflexivity.
  - intros n p H. injection H as <-. split; [reflexivity|].
    repeat constructor.
  - rewrite E, B. split; reflexivity.
Defined.

(** ** Deduplication and grouping *)

Section Dedup.

Import PyStr Scraper Completa Aux.

Lemma odict_mem_keys (k : string) (d : odict) :
  odict_mem k d = existsb (String.eqb k) (map fst d).
Proof.
  unfold odict_mem. induction d as [|[k' v] d IH]; [reflexivity|].
  simpl. rewrite IH, (String.eqb_sym k' k). reflexivity.
Qed.

Lemma unique_from_keep_first (unique_patents : odict)
    (all_patents : list patente) :
  unique_from unique_patents all_patents
  = unique_patents
    ++ map keyed (keep_first (map fst unique_patents) all_patents).
Proof.
  revert unique_patents.
  induction all_patents as [|p rest IH]; intros unique_patents.
  - simpl. rewrite app_nil_r. reflexivity.
  - simpl. rewrite odict_mem_keys.
    destruct (str_truthy (pub_num_of p)
              && negb (existsb (String.eqb (pub_num_of p))
                         (map fst unique_patents))).
    + rewrite IH, map_app, <- app_assoc. reflexivity.
    + apply IH.
Qed.

Lemma remove_duplicatas_keep_first (l : list patente) :
  remove_duplicatas l = keep_first [] l.
Proof.
  unfold remove_duplicatas, odict_values.
  rewrite unique_from_keep_first. simpl.
  rewrite map_map. apply map_id.
Qed.

Lemma existsb_eqb_In (k : string) (seen : list string) :
  existsb (String.eqb k) seen = true <-> In k seen.
Proof.
  rewrite existsb_exists. split.
  - intros (x & Hx & E). apply String.eqb_eq in E. subst. exact Hx.
  - intros H. exists k. split; [exact H | apply String.eqb_refl].
Qed.

Lemma keep_first_keys (seen : list string) (l : list patente) (p : patente) :
  In p (keep_first seen l) ->
  In p l /\ str_truthy (pub_num_of p) = true /\ ~ In (pub_num_of p) seen.
Proof.
  revert seen. induction l as [|q rest IH]; intros seen; [contradiction|].
  simpl.
  destruct (str_truthy (pub_num_of q)) eqn:T; simpl;
    [destruct (existsb (String.eqb (pub_num_of q)) seen) eqn:E; simpl|].
  - intros H. destruct (IH _ H) as (A & B & C). auto.
  - intros [<-|H].
    + repeat split; auto. intros K. apply existsb_eqb_In in K. congruence.
    + destruct (IH _ H) as (A & B & C). repeat split; auto.
      intros K. apply C, in_or_app. auto.
  - intros H. destruct (IH _ H) as (A & B & C). auto.
Qed.

Lemma keep_first_NoDup (seen : list string) (l : list patente) :
  NoDup (map pub_num_of (keep_first seen l)).
Proof.
  revert seen. induction l as [|q rest IH]; intros seen; [constructor|].
  simpl.
  destruct (str_truthy (pub_num_of q)
            && negb (existsb (String.eqb (pub_num_of q)) seen)); [|apply IH].
  simpl. constructor; [|apply IH].
  intros K. apply list_elem_of_In, in_map_iff in K.
  destruct K as (p & E & K).
  apply keep_first_keys in K. destruct K as (_ & _ & K).
  apply K, in_or_app. right. left. auto.
Qed.

Lemma keep_first_sublist (seen : list string) (l : list patente) :
  sublist (keep_first seen l) l.
Proof.
  revert seen. induction l as [|q rest IH]; intros seen; [constructor|].
  simpl.
  destruct (str_truthy (pub_num_of q)
            && negb (existsb (String.eqb (pub_num_of q)) seen)).
  - apply sublist_skip, IH.
  - apply sublist_cons, IH.
Qed.

Lemma keep_first_first (seen : list string) (l : list patente) (k : string) :
  str_truthy k = true -> ~ In k seen ->
  first_with k (keep_first seen l) = first_with k l.
Proof.
  intros Hk. revert seen. unfold first_with.
  induction l as [|q rest IH]; intros seen Hs; [reflexivity|].
  simpl.
  destruct (String.eqb (pub_num_of q) k) eqn:E.
  - apply String.eqb_eq in E. rewrite E, Hk.
    destruct (existsb (String.eqb k) seen) eqn:X;
      [apply existsb_eqb_In in X; contradiction|].
    simpl. rewrite E, String.eqb_refl. reflexivity.
  - destruct (str_truthy (pub_num_of q)
              && negb (existsb (String.eqb (pub_num_of q)) seen)).
    + simpl. rewrite E. apply IH. intros K. apply in_app_or in K.
      destruct K as [K|[K|[]]]; [auto|]. subst.
      rewrite String.eqb_refl in E. discriminate.
    + apply IH, Hs.
Qed.

(** Grouping a list whose keys are non-empty and distinct keeps every
    record, in order. *)
Lemma odict_set_fresh (k : string) (v : patente) (d : odict) :
  ~ In k (map fst d) -> odict_set k v d = d ++ [(k, v)].
Proof.
  induction d as [|[k' v'] d IH]; [reflexivity|].
  simpl. intros H. destruct (String.eqb k' k) eqn:E.
  - apply String.eqb_eq in E. tauto.
  - rewrite IH; [reflexivity | tauto].
Qed.

Lemma agrupar_em_distinct (agrupadas : odict) (l : list patente) :
  NoDup (map fst agrupadas ++ map pub_num_of l) ->
  Forall (fun p => str_truthy (pub_num_of p) = true) l ->
  agrupar_em agrupadas l = agrupadas ++ map keyed l.
Proof.
  revert agrupadas. induction l as [|p rest IH]; intros agrupadas Hn Ht.
  - simpl. rewrite app_nil_r. reflexivity.
  - inversion Ht as [|? ? Hp Hrest]; subst. simpl. rewrite Hp.
    assert (~ In (pub_num_of p) (map fst agrupadas)) as Hf.
    { intros K. apply NoDup_app in Hn. destruct Hn as (_ & Hn & _).
      apply (Hn (pub_num_of p)); [apply list_elem_of_In, K|].
      simpl. left. }
    rewrite (odict_set_fresh _ _ _ Hf), IH; [| |exact Hrest].
    + rewrite <- app_assoc. reflexivity.
    + rewrite map_app, <- app_assoc. exact Hn.
Qed.

Lemma odict_get_set (k k' : string) (v : patente) (d : odict) :
  odict_get k (odict_set k' v d)
  = if String.eqb k' k then Some v else odict_get k d.
Proof.
  induction d as [|[k0 v0] d IH]; [reflexivity|].
  simpl. destruct (String.eqb k0 k') eqn:E.
  - apply String.eqb_eq in E. subst k0. simpl.
    destruct (String.eqb k' k); reflexivity.
  - simpl. rewrite IH. destruct (String.eqb k0 k) eqn:F; [|reflexivity].
    apply String.eqb_eq in F. subst k0.
    rewrite String.eqb_sym, E. reflexivity.
Qed.

(** Grouping keeps, for a key, the last record that carries it. *)
Lemma agrupar_em_last (agrupadas : odict) (l : list patente) (k : string) :
  str_truthy k = true ->
  odict_get k (agrupar_em agrupadas l)
  = match last_with k l with
    | Some q => Some q
    | None => odict_get k agrupadas
    end.
Proof.
  intros Hk. revert agrupadas.
  induction l as [|p rest IH]; intros agrupadas; [reflexivity|].
  simpl. destruct (str_truthy (pub_num_of p)) eqn:T; rewrite IH.
  - destruct (last_with k rest); [reflexivity|]. rewrite odict_get_set.
    destruct (String.eqb (pub_num_of p) k); reflexivity.
  - destruct (last_with k rest); [reflexivity|].
    destruct (String.eqb (pub_num_of p) k) eqn:E; [|reflexivity].
    apply String.eqb_eq in E. congruence.
Qed.

End Dedup.

(** C6, the claim as stated fails on both cited places: grouping by
    publication number keeps the last of two records with the same
    number, not the first, and the deduplication loop drops every record
    whose publication number is empty or missing, so that two such records
    collapse to none. *)
Lemma C6_first_occurrence_counterexample :
  ~ (forall (l : list Scraper.patente) (k : string),
        Aux.odict_get k (Completa.agrupar_por_publication_number l)
        = Aux.first_with k l)
  /\ ~ (forall (l : list Scraper.patente) (p : Scraper.patente),
          In p l ->
          exists q,
            In q (Completa.remove_duplicatas l)
            /\ Completa.pub_num_of q = Completa.pub_num_of p).
Proof.
  split.
  - intros H.
    specialize (H [Aux.wo_first; Aux.wo_second] "WO2023123456A1").
    vm_compute in H. discriminate.
  - intros H.
    destruct (H [Aux.unnumbered_1; Aux.unnumbered_2] Aux.unnumbered_1)
      as (q & K & _); [left; reflexivity|].
    vm_compute in K. exact K.
Qed.

(** C6 (amended): the deduplication loop of [main] keeps, for every
    non-empty publication number of the list, the first record that
    carries it and drops the later ones; the records kept come in the
    order of the list, with distinct publication numbers; records whose
    publication number is empty or missing are dropped.  Grouping keeps,
    for every non-empty publication number, the last record that carries
    it; on the deduplicated list, which is what [main] passes to it, it
    keeps every record, in order. *)
Theorem C6_dedup_keeps_first_occurrence (l : list Scraper.patente) :
  let kept := Completa.remove_duplicatas l in
  NoDup (map Completa.pub_num_of kept)
  /\ sublist kept l
  /\ (forall p,
         In p kept -> PyStr.str_truthy (Completa.pub_num_of p) = true)
  /\ (forall k,
         PyStr.str_truthy k = true ->
         Aux.first_with k kept = Aux.first_with k l)
  /\ (forall k,
         PyStr.str_truthy k = true ->
         Aux.odict_get k (Completa.agrupar_por_publication_number l)
         = Aux.last_with k l)
  /\ Completa.agrupar_por_publication_number kept = map Aux.keyed kept.
Proof.
  intros kept. unfold kept. rewrite remove_duplicatas_keep_first.
  split; [apply keep_first_NoDup|]. split; [apply keep_first_sublist|].
  split; [intros p H; apply keep_first_keys in H; tauto|].
  split; [intros k H; apply keep_first_first; [exact H | intros []]|].
  split.
  - intros k H. unfold Completa.agrupar_por_publication_number.
    rewrite agrupar_em_last by exact H.
    destruct (Aux.last_with k l); reflexivity.
  - unfold Completa.agrupar_por_publication_number.
    rewrite agrupar_em_distinct; [reflexivity | apply keep_first_NoDup |].
    apply Forall_forall. intros p H.
    apply list_elem_of_In, keep_first_keys in H. tauto.
Qed.

Lemma C6_dedup_witness :
  let l := [Aux.wo_first; Aux.unnumbered_1; Aux.wo_second] in
  Aux.first_with "WO2023123456A1" (Completa.remove_duplicatas l)
  = Some Aux.wo_first
  /\ Aux.odict_get "WO2023123456A1"
       (Completa.agrupar_por_publication_number l)
     = Some Aux.wo_second.
Proof.
  intros l.
  destruct (C6_dedup_keeps_first_occurrence l) as (_ & _ & _ & F & G & _).
  rewrite (F "WO2023123456A1" eq_refl), (G "WO2023123456A1" eq_refl).
  split; reflexivity.
Defined.

(** ** The total count *)

Section TotalCount.

Import PyStr App Aux.

Lemma str_forall_snoc (p : ascii -> bool) (s : string) (c : ascii) :
  str_forall p (s +:+ String c EmptyString) = str_forall p s && p c.
Proof.
  induction s as [|a r IH]; simpl.
  - rewrite andb_true_r. reflexivity.
  - rewrite IH, andb_assoc. reflexivity.
Qed.

Lemma number_like_snoc (n : string) (c : ascii) :
  number_like n = true -> number_char c = true ->
  number_like (n +:+ String c EmptyString) = true.
Proof.
  destruct n as [|a r]; [discriminate|]. simpl.
  intros H Hc. apply andb_true_iff in H. destruct H as [Ha Hr].
  rewrite Ha, str_forall_snoc, Hr, Hc. reflexivity.
Qed.

Lemma findall_from_number_like (s : string) (cur : option string) :
  (forall n, cur = Some n -> number_like n = true) ->
  Forall (fun n => number_like n = true) (findall_numbers_from cur s).
Proof.
  revert cur. induction s as [|c r IH]; intros cur Hcur.
  - simpl. destruct cur; [|constructor].
    constructor; [apply Hcur; reflexivity | constructor].
  - simpl. destruct cur as [n|].
    + destruct (is_digit c || Ascii.eqb c ",") eqn:E.
      * apply IH. intros m [= <-].
        apply number_like_snoc; [apply Hcur; reflexivity | exact E].
      * constructor; [apply Hcur; reflexivity|].
        apply IH. intros m [=].
    + destruct (is_digit c) eqn:E.
      * apply IH. intros m [= <-]. simpl. rewrite E. reflexivity.
      * apply IH. intros m [=].
Qed.

Lemma findall_number_like (s : string) :
  Forall (fun n => number_like n = true) (findall_numbers s).
Proof. apply findall_from_number_like. intros n [=]. Qed.

Lemma int_digits_all_digits (s : string) (acc : Z) :
  str_forall is_digit s = true -> 0 <= acc ->
  exists z, int_digits acc s = Some z /\ 0 <= z.
Proof.
  revert acc. induction s as [|c r IH]; intros acc H Hacc; simpl.
  - exists acc. auto.
  - simpl in H. apply andb_true_iff in H. destruct H as [Hc Hr].
    rewrite Hc. apply IH; [exact Hr|].
    unfold is_digit in Hc. apply andb_true_iff in Hc.
    destruct Hc as [Hlo _]. apply N.leb_le in Hlo. lia.
Qed.

Lemma remove_commas_digits (s : string) :
  str_forall number_char s = true ->
  str_forall is_digit (remove_char "," s) = true.
Proof.
  induction s as [|c r IH]; [reflexivity|]. simpl. intros H.
  apply andb_true_iff in H. destruct H as [Hc Hr].
  destruct (Ascii.eqb c ",") eqn:E; [apply IH, Hr|].
  simpl. unfold number_char in Hc. rewrite E, orb_false_r in Hc.
  rewrite Hc. apply IH, Hr.
Qed.

(** [int] fails on a run found by the pattern only when the run has too
    many digits. *)
Lemma py_int_number_like (n : string) :
  number_like n = true ->
  if int_fits n
  then exists z, py_int (remove_char "," n) = Some z /\ 0 <= z
  else py_int (remove_char "," n) = None.
Proof.
  unfold int_fits.
  destruct n as [|c r]; [discriminate|]. simpl. intros H.
  apply andb_true_iff in H. destruct H as [Hc Hr].
  assert (Ascii.eqb c "," = false) as E.
  { destruct (Ascii.eqb c ",") eqn:E; [|reflexivity].
    apply Ascii.eqb_eq in E. subst c. discriminate. }
  rewrite E. unfold py_int.
  set (m := String c (remove_char "," r)).
  destruct (Z.leb_spec (Z.of_nat (String.length m)) int_max_str_digits)
    as [Hle|Hgt].
  - assert (K : (int_max_str_digits <? Z.of_nat (String.length m)) = false)
      by (apply Z.ltb_ge; exact Hle).
    rewrite K.
    apply (int_digits_all_digits m 0); [|lia].
    unfold m. simpl. rewrite Hc. apply remove_commas_digits, Hr.
  - assert (K : (int_max_str_digits <? Z.of_nat (String.length m)) = true)
      by (apply Z.ltb_lt; exact Hgt).
    rewrite K. reflexivity.
Qed.

Lemma ints_of_number_like (numbers : list string) :
  Forall (fun n => number_like n = true) numbers ->
  if forallb int_fits numbers
  then exists zs,
         ints_of numbers = Some zs
         /\ length zs = length numbers
         /\ Forall (fun z => 0 <= z) zs
  else ints_of numbers = None.
Proof.
  induction 1 as [|n rest Hn _ IH]; [exists []; auto|].
  cbn [forallb ints_of].
  pose proof (py_int_number_like n Hn) as Hz.
  destruct (int_fits n); cbn [andb].
  - destruct Hz as (z & Ez & Pz). rewrite Ez.
    destruct (forallb int_fits rest).
    + destruct IH as (zs & E & L & P).
      exists (z :: zs). rewrite E. cbn [length]. rewrite L. auto.
    + rewrite IH. reflexivity.
  - rewrite Hz. reflexivity.
Qed.

Lemma py_max_ge (zs : list Z) (z : Z) : z <= py_max z zs.
Proof.
  unfold py_max. revert z. induction zs as [|y zs IH]; intros z; simpl;
    [lia|]. specialize (IH (Z.max z y)). lia.
Qed.

Lemma py_max_upper (zs : list Z) (z y : Z) :
  In y (z :: zs) -> y <= py_max z zs.
Proof.
  unfold py_max. revert z. induction zs as [|x zs IH]; intros z.
  - intros [E|[]]. simpl. lia.
  - simpl. pose proof (py_max_ge zs (Z.max z x)) as G. unfold py_max in G.
    intros [E|[E|H]]; [lia | lia |].
    apply IH. right. exact H.
Qed.

Lemma py_max_In (zs : list Z) (z : Z) : In (py_max z zs) (z :: zs).
Proof.
  unfold py_max. revert z. induction zs as [|x zs IH]; intros z.
  - left. reflexivity.
  - simpl. destruct (IH (Z.max z x)) as [H|H].
    + rewrite <- H.
      destruct (Z.max_spec z x) as [[_ E]|[_ E]]; rewrite E; auto.
    + right. right. exact H.
Qed.

(** What [total_in] answers: nothing when the text holds no number, the
    largest of its numbers otherwise, unless [int] refuses one of them. *)
Lemma total_in_spec (text : string) :
  (holds_number text = false /\ total_in text = None)
  \/ (holds_number text = true
      /\ if forallb int_fits (findall_numbers text)
         then exists z zs,
                ints_of (findall_numbers text) = Some (z :: zs)
                /\ total_in text = Some (Ok (py_max z zs))
                /\ 0 <= py_max z zs
         else total_in text = Some (Raise ValueError)).
Proof.
  unfold total_in, holds_number.
  pose proof (findall_number_like text) as H.
  destruct (findall_numbers text) as [|n rest] eqn:E; [left; auto|].
  right. split; [reflexivity|].
  pose proof (ints_of_number_like _ H) as Hi.
  destruct (forallb int_fits (n :: rest)).
  - destruct Hi as (zs & Ez & L & P).
    destruct zs as [|z zs]; [discriminate|].
    exists z, zs. rewrite Ez. repeat split.
    inversion P; subst. pose proof (py_max_ge zs z). lia.
  - rewrite Hi. reflexivity.
Qed.

Lemma total_in_holds (text : string) :
  total_in text = None <-> holds_number text = false.
Proof.
  destruct (total_in_spec text) as [[H E]|(H & K)].
  - rewrite H, E. split; congruence.
  - rewrite H. destruct (forallb int_fits (findall_numbers text)).
    + destruct K as (z & zs & _ & E & _). rewrite E. split; congruence.
    + rewrite K. split; congruence.
Qed.

Lemma total_by_selectors_find (n : node) (sels : list string) :
  total_by_selectors n sels
  = match List.find holds_number
            (List.filter str_truthy
               (omap (fun sel => get (css n sel)) sels)) with
    | Some text => total_in text
    | None => None
    end.
Proof.
  induction sels as [|sel rest IH]; [reflexivity|].
  simpl. destruct (get (css n sel)) as [text|]; [|exact IH].
  simpl. destruct (str_truthy text); [|exact IH].
  simpl. destruct (holds_number text) eqn:H.
  - destruct (total_in text) eqn:E; [reflexivity|].
    apply total_in_holds in E. congruence.
  - apply total_in_holds in H. rewrite H. exact IH.
Qed.

Lemma total_by_texts_find (texts : list string) :
  total_by_texts texts
  = match List.find holds_number (List.filter has_keyword texts) with
    | Some text => total_in text
    | None => None
    end.
Proof.
  induction texts as [|text rest IH]; [reflexivity|].
  simpl. destruct (has_keyword text); [|exact IH].
  simpl. destruct (holds_number text) eqn:H.
  - destruct (total_in text) eqn:E; [reflexivity|].
    apply total_in_holds in E. congruence.
  - apply total_in_holds in H. rewrite H. exact IH.
Qed.

Lemma find_app {A} (f : A -> bool) (l1 l2 : list A) :
  List.find f (l1 ++ l2)
  = match List.find f l1 with
    | Some x => Some x
    | None => List.find f l2
    end.
Proof.
  induction l1 as [|a l1 IH]; [reflexivity|].
  simpl. destruct (f a); [reflexivity | exact IH].
Qed.

(** The total is read from the first text that holds a number. *)
Lemma extract_total_results_find (doc : document) :
  extract_total_results doc
  = match List.find holds_number (count_texts doc) with
    | Some text =>
        match total_in text with
        | Some r => r
        | None => Ok 0
        end
    | None => Ok 0
    end.
Proof.
  unfold extract_total_results, count_texts.
  rewrite find_app, total_by_selectors_find, total_by_texts_find.
  destruct (List.find holds_number
              (List.filter str_truthy
                 (omap (fun sel => get (css (root doc) sel))
                    total_selectors))) as [text|] eqn:F.
  - apply find_some in F. destruct F as [_ F].
    destruct (total_in text) eqn:E; [reflexivity|].
    apply total_in_holds in E. congruence.
  - destruct (List.find holds_number
                (List.filter has_keyword (xpath (root doc) "//text()")))
      as [text|]; reflexivity.
Qed.

Example total_with_separator :
  total_in "Results 1 - 10 of 1,234" = Some (Ok 1234).
Proof. reflexivity. Qed.

(** A number of 4301 digits is more than [int] takes. *)
Example total_too_long :
  total_in ("total " +:+ zeros 4300) = Some (Ok 0)
  /\ total_in ("total " +:+ zeros 4301) = Some (Raise ValueError).
Proof. split; vm_compute; reflexivity. Qed.

End TotalCount.

(** C7, the claim as stated fails: on a document without any candidate
    number [extract_total_results] returns zero, and the search reports
    zero results (on one page). *)
Lemma C7_total_count_counterexample :
  App.extract_total_results Aux.empty_document = App.Ok 0
  /\ exists d w',
       App.search_by_molecule (fun _ => Aux.empty_document)
         "aspirin" "exact" 1 10 (Aux.app_world [Aux.app_response 200 ""])
       = (App.Ok d, w')
       /\ d !! "status" = Some (App.PStr "success")
       /\ d !! "total_results" = Some (App.PInt 0)
       /\ d !! "total_pages" = Some (App.PInt 1).
Proof.
  split; [reflexivity|]. eexists. eexists.
  split; [reflexivity|]. repeat split; reflexivity.
Qed.

(** C7 (amended): [extract_total_results] reads the first text, among the
    first matches of the total selectors and then the text nodes with a
    keyword, that holds a number; it parses all the numbers of that text,
    commas removed, and returns the largest, which is never negative; it
    raises [ValueError] when one of these numbers has more digits than
    [int] accepts; when no text holds a number it returns zero.  The
    caller keeps a total that is not zero and replaces a total of zero by
    the number of records of the page, so that it reports zero results
    exactly when the total extracted is zero and the page has no record;
    when the extraction raises it returns the error payload. *)
Theorem C7_total_count (doc : App.document) :
  match List.find Aux.holds_number (Aux.count_texts doc) with
  | Some text =>
      if forallb Aux.int_fits (PyStr.findall_numbers text)
      then
        exists z zs,
          App.ints_of (PyStr.findall_numbers text) = Some (z :: zs)
          /\ App.extract_total_results doc = App.Ok (App.py_max z zs)
          /\ In (App.py_max z zs) (z :: zs)
          /\ (forall y, In y (z :: zs) -> y <= App.py_max z zs)
          /\ 0 <= App.py_max z zs
      else App.extract_total_results doc = App.Raise App.ValueError
  | None => App.extract_total_results doc = App.Ok 0
  end
  /\ (forall (Selector : string -> App.document)
             (molecule search_type html : string) (page page_size : Z)
             (w w1 : App.world),
         Selector html = doc ->
         App._fetch_with_retry App.SEARCH_URL
           (App.search_params
              (App._build_molecule_query molecule search_type)
              page page_size) 3 w = (App.Ok html, w1) ->
         page_size <> 0 ->
         match App.extract_total_results doc with
         | App.Ok total =>
             exists d reported,
               App.search_by_molecule Selector molecule search_type
                 page page_size w = (App.Ok d, w1)
               /\ d !! "status" = Some (App.PStr "success")
               /\ d !! "total_results" = Some (App.PInt reported)
               /\ (total <> 0 -> reported = total)
               /\ (total = 0 ->
                   reported
                   = Z.of_nat (length (App.parse_search_results doc)))
               /\ (reported = 0
                   <-> total = 0 /\ App.parse_search_results doc = [])
         | App.Raise e =>
             App.search_by_molecule Selector molecule search_type
               page page_size w
             = (App.Ok (App.error_payload e molecule search_type
                          page page_size), w1)
         end).
Proof.
  split.
  - rewrite extract_total_results_find.
    destruct (List.find Aux.holds_number (Aux.count_texts doc))
      as [text|] eqn:F; [|reflexivity].
    apply find_some in F. destruct F as [_ F].
    destruct (total_in_spec text) as [[H _]|(_ & K)]; [congruence|].
    destruct (forallb Aux.int_fits (PyStr.findall_numbers text)).
    + destruct K as (z & zs & Ez & Et & Hz).
      exists z, zs. rewrite Et.
      split; [exact Ez|]. split; [reflexivity|].
      split; [apply py_max_In|]. split; [apply py_max_upper|exact Hz].
    + rewrite K. reflexivity.
  - intros Selector molecule search_type html page page_size w w1
           Hdoc Hfetch Hps.
    unfold App.search_by_molecule, App.try_except, App.search_try,
      App.bind.
    rewrite Hfetch, Hdoc. unfold App.lift.
    destruct (App.extract_total_results doc) as [total|e]; [|reflexivity].
    unfold App.floordiv. destruct (page_size =? 0) eqn:E;
      [apply Z.eqb_eq in E; contradiction|].
    eexists. eexists. split; [reflexivity|]. split; [reflexivity|].
    split; [reflexivity|].
    destruct (Z.eqb_spec total 0) as [->|Hnz]; cbn [andb].
    + destruct (App.parse_search_results doc) as [|r rest] eqn:Er.
      * rewrite bool_decide_eq_true_2 by reflexivity. cbn [negb].
        split; [intros K; contradiction|]. split; [reflexivity|].
        split; [intros _; split; reflexivity|reflexivity].
      * rewrite bool_decide_eq_false_2 by discriminate. cbn [negb].
        split; [intros K; contradiction|]. split; [reflexivity|].
        cbn [length]. split; [intros K; lia|intros [_ K]; discriminate].
    + split; [reflexivity|]. split; [intros K; contradiction|].
      split; [intros K; contradiction|intros [K _]; contradiction].
Qed.

Lemma C7_total_count_witness :
  exists d w',
    App.search_by_molecule (fun _ => Aux.empty_document)
      "aspirin" "exact" 1 10 (Aux.app_world [Aux.app_response 200 ""])
    = (App.Ok d, w')
    /\ d !! "total_results" = Some (App.PInt 0).
Proof.
  destruct (C7_total_count Aux.empty_document) as [_ H].
  pose proof (H (fun _ => Aux.empty_document) "aspirin" "exact" ""
                1 10 (Aux.app_world [Aux.app_response 200 ""])
                (snd (App._fetch_with_retry App.SEARCH_URL
                        (App.search_params
                           (App._build_molecule_query "aspirin" "exact") 1 10)
                        3 (Aux.app_world [Aux.app_response 200 ""])))
                eq_refl eq_refl ltac:(discriminate)) as K.
  change (App.extract_total_results Aux.empty_document) with (@App.Ok Z 0)
    in K.
  destruct K as (d & reported & E & _ & T & _ & _ & Hz).
  exists d. eexists. split; [exact E|].
  rewrite T. destruct Hz as [_ Hz]. rewrite Hz; [reflexivity|].
  split; reflexivity.
Defined.

(** ** Field extraction *)

Section FieldExtraction.

Import PyStr App Aux.

Lemma lookup_set_stripped_ne (key k : string) (x : option string)
    (result : gmap string pyval) :
  key <> k -> set_stripped key x result !! k = result !! k.
Proof.
  intros H. unfold set_stripped.
  destruct x as [t|]; [destruct (str_truthy t)|]; try reflexivity.
  apply lookup_insert_ne, H.
Qed.

Lemma lookup_set_stripped_eq (key : string) (x : option string)
    (result : gmap string pyval) :
  set_stripped key x result !! key
  = match x with
    | Some t => if str_truthy t then Some (VStr (strip t)) else result !! key
    | None => result !! key
    end.
Proof.
  unfold set_stripped.
  destruct x as [t|]; [destruct (str_truthy t)|]; try reflexivity.
  apply lookup_insert_eq.
Qed.

(** Lookups go through the assignments to other keys. *)
Ltac through :=
  repeat first
    [ rewrite lookup_insert_ne by discriminate
    | rewrite lookup_set_stripped_ne by discriminate
    | rewrite lookup_insert_eq
    | rewrite lookup_empty ].

Lemma first_match_truthy (item : node) (sels : list string) (t : string) :
  first_match item sels = Some t -> str_truthy t = true.
Proof.
  induction sels as [|sel rest IH]; [discriminate|]. simpl.
  destruct (get (css item sel)) as [u|]; [|exact IH].
  destruct (str_truthy u) eqn:E; [|exact IH]. congruence.
Qed.

Lemma first_match_cascade (item : node) (before after : list string)
    (sel t : string) :
  Forall (fun s => no_match item s = true) before ->
  get (css item sel) = Some t -> str_truthy t = true ->
  first_match item (before ++ sel :: after) = Some t.
Proof.
  intros Hb Hs Ht. induction Hb as [|s before Hsb _ IH]; simpl.
  - rewrite Hs, Ht. reflexivity.
  - unfold no_match in Hsb. destruct (get (css item s)) as [u|]; [|exact IH].
    apply negb_true_iff in Hsb. rewrite Hsb. exact IH.
Qed.

Lemma collect_concat (item : node) (sels : list string) :
  collect item sels = concat (map (css item) sels).
Proof.
  induction sels as [|sel rest IH]; [reflexivity|].
  simpl. rewrite IH. reflexivity.
Qed.

Lemma parse_item_title (item : node) :
  parse_item item !! "title"
  = (fun t => VStr (strip t)) <$> first_match item title_selectors.
Proof.
  unfold parse_item. through.
  destruct (collect item abstract_selectors); through;
    rewrite lookup_set_stripped_eq;
    (destruct (first_match item title_selectors) as [t|] eqn:E;
     [rewrite (first_match_truthy _ _ _ E); reflexivity|]);
    repeat match goal with
           | |- context [match ?x with _ => _ end] => destruct x
           end; through; reflexivity.
Qed.

Lemma parse_item_publication_date (item : node) :
  parse_item item !! "publication_date"
  = (fun t => VStr (strip t)) <$> first_match item date_selectors.
Proof.
  unfold parse_item. through. rewrite lookup_set_stripped_eq.
  destruct (first_match item date_selectors) as [t|] eqn:E;
    [rewrite (first_match_truthy _ _ _ E); reflexivity|].
  through.
  destruct (collect item abstract_selectors); through;
    repeat match goal with
           | |- context [match ?x with _ => _ end] => destruct x
           end; through; reflexivity.
Qed.

Lemma parse_item_applicants (item : node) :
  parse_item item !! "applicants"
  = Some (VList (stripped_nonempty
                   (concat (map (css item) applicant_selectors)))).
Proof.
  unfold parse_item. through. rewrite collect_concat. reflexivity.
Qed.

Lemma parse_item_inventors (item : node) :
  parse_item item !! "inventors"
  = Some (VList (stripped_nonempty
                   (concat (map (css item) inventor_selectors)))).
Proof.
  unfold parse_item. through. rewrite collect_concat. reflexivity.
Qed.

Lemma parse_item_ipc_codes (item : node) :
  parse_item item !! "ipc_codes"
  = Some (VList (stripped_nonempty
                   (concat (map (css item) ipc_selectors)))).
Proof.
  unfold parse_item. through. rewrite collect_concat. reflexivity.
Qed.

(** The first three steps of [parse_item]: the publication number, the
    identifier of the link, and the identifier by default. *)
Lemma parse_item_identifiers (item : node) (k : string) :
  k = "publication_number" \/ k = "patent_id" ->
  parse_item item !! k
  = (let r1 := set_stripped "publication_number"
                 (match first_match item pub_selectors with
                  | Some t => Some t
                  | None => get (xpath item pub_xpath)
                  end) ∅ in
     let r2 := match doc_id_of item with
               | Some g => <["patent_id" := VStr g]> r1
               | None => r1
               end in
     match r2 !! "patent_id", r2 !! "publication_number" with
     | None, Some p => <["patent_id" := p]> r2
     | _, _ => r2
     end) !! k.
Proof.
  intros Hk. unfold parse_item, doc_id_of.
  set (r1 := set_stripped "publication_number" _ ∅).
  set (r2 := match get (css item docId_link_href) with
             | Some h => _
             | None => r1
             end).
  assert (r2 = match
                 match get (css item docId_link_href) with
                 | Some h => if str_truthy h then search_docId h else None
                 | None => None
                 end
               with
               | Some g => <["patent_id" := VStr g]> r1
               | None => r1
               end) as <-.
  { unfold r2. destruct (get (css item docId_link_href)) as [h|];
      [destruct (str_truthy h)|]; reflexivity. }
  cbv zeta.
  set (r3 := match r2 !! "patent_id" with
             | Some _ => r2
             | None => _
             end).
  destruct Hk as [-> | ->]; through;
    (destruct (collect item abstract_selectors); through; reflexivity).
Qed.

Lemma parse_item_publication_number (item : node) :
  parse_item item !! "publication_number" = VStr <$> pub_of item.
Proof.
  rewrite parse_item_identifiers by auto. cbv zeta. unfold pub_of.
  set (x := match first_match item pub_selectors with
            | Some t => Some t
            | None => get (xpath item pub_xpath)
            end).
  assert (set_stripped "publication_number" x ∅ !! "publication_number"
          = VStr <$> match x with
                     | Some t => if str_truthy t then Some (strip t) else None
                     | None => None
                     end) as H.
  { rewrite lookup_set_stripped_eq.
    destruct x as [t|]; [destruct (str_truthy t)|]; reflexivity. }
  destruct (doc_id_of item) as [g|]; through.
  - exact H.
  - destruct (set_stripped "publication_number" x ∅ !! "publication_number")
      eqn:E; through; congruence.
Qed.

Lemma search_docId_unfold (s : string) :
  search_docId s
  = match
      (if String.prefix "docId=" s
       then if is_empty (take_while docId_char (skip 6 s)) then None
            else Some (take_while docId_char (skip 6 s))
       else None)
    with
    | Some g => Some g
    | None =>
        match s with
        | EmptyString => None
        | String _ r => search_docId r
        end
    end.
Proof. destruct s; reflexivity. Qed.

Lemma search_docId_truthy (h g : string) :
  search_docId h = Some g -> str_truthy g = true.
Proof.
  induction h as [|c r IH]; rewrite search_docId_unfold.
  - simpl. discriminate.
  - destruct (String.prefix "docId=" (String c r)); [|exact IH].
    destruct (is_empty (take_while docId_char (skip 6 (String c r))))
      eqn:E; [exact IH|].
    intros [= <-]. unfold str_truthy. simpl in *. rewrite E. reflexivity.
Qed.

Lemma parse_item_patent_id (item : node) :
  parse_item item !! "patent_id"
  = match doc_id_of item with
    | Some g => Some (VStr g)
    | None => VStr <$> pub_of item
    end.
Proof.
  rewrite <- parse_item_publication_number.
  rewrite !parse_item_identifiers by auto. cbv zeta.
  set (r1 := set_stripped "publication_number" _ ∅).
  assert (r1 !! "patent_id" = None) as H1
    by (unfold r1; rewrite lookup_set_stripped_ne by discriminate;
        apply lookup_empty).
  destruct (doc_id_of item) as [g|].
  - rewrite lookup_insert_eq. apply lookup_insert_eq.
  - rewrite H1. destruct (r1 !! "publication_number") as [p|] eqn:E.
    + rewrite lookup_insert_eq, lookup_insert_ne by discriminate.
      congruence.
    + rewrite H1, E. reflexivity.
Qed.

Lemma pub_of_truthy_or_empty (item : node) (p : string) :
  pub_of item = Some p ->
  get_truthy (parse_item item) "publication_number" = str_truthy p.
Proof.
  intros H. unfold get_truthy.
  rewrite parse_item_publication_number, H. reflexivity.
Qed.

(** A record that passes the final test has a non-empty identifier. *)
Lemma has_minimum_patent_id (item : node) :
  has_minimum (parse_item item) = true ->
  exists id, parse_item item !! "patent_id" = Some (VStr id)
             /\ str_truthy id = true.
Proof.
  unfold has_minimum, get_truthy.
  rewrite parse_item_patent_id, parse_item_publication_number.
  unfold doc_id_of.
  destruct (get (css item docId_link_href)) as [h|];
    [destruct (str_truthy h);
     [destruct (search_docId h) as [g|] eqn:E|]|].
  - intros _. exists g. split; [reflexivity|].
    eapply search_docId_truthy, E.
  - destruct (pub_of item) as [p|]; simpl; [|discriminate].
    rewrite orb_diag. intros H. exists p. auto.
  - destruct (pub_of item) as [p|]; simpl; [|discriminate].
    rewrite orb_diag. intros H. exists p. auto.
  - destruct (pub_of item) as [p|]; simpl; [|discriminate].
    rewrite orb_diag. intros H. exists p. auto.
Qed.

End FieldExtraction.

(** C4, the claim as stated fails: the values of a multi-valued field are
    gathered from all the selectors without removing duplicates, so an
    applicant matched by two selectors is listed twice. *)
Lemma C4_duplicates_kept_counterexample :
  ~ (forall (item : App.node) (l : list string),
        App.parse_item item !! "applicants" = Some (VList l) -> NoDup l).
Proof.
  intros H.
  specialize (H Aux.item_two_applicant_classes ["ACME"; "ACME"] eq_refl).
  apply NoDup_cons in H. destruct H as [H _]. apply H. left.
Qed.

(** C4 (amended): a singular field (title, publication date) is the
    stripped text of the first selector of its cascade whose first match
    is a non-empty string, so that when only the second title selector
    matches the title is that selector's text, stripped; a multi-valued
    field (applicants, inventors, IPC codes) is the concatenation, in the
    order of the cascade, of what all its selectors match, each value
    stripped and the empty ones left out; duplicates are kept. *)
Theorem C4_field_cascades (item : App.node) :
  (forall before sel after t,
      App.title_selectors = before ++ sel :: after ->
      Forall (fun s => Aux.no_match item s = true) before ->
      App.get (App.css item sel) = Some t ->
      PyStr.str_truthy t = true ->
      App.parse_item item !! "title" = Some (VStr (PyStr.strip t)))
  /\ (forall before sel after t,
         App.date_selectors = before ++ sel :: after ->
         Forall (fun s => Aux.no_match item s = true) before ->
         App.get (App.css item sel) = Some t ->
         PyStr.str_truthy t = true ->
         App.parse_item item !! "publication_date"
         = Some (VStr (PyStr.strip t)))
  /\ App.parse_item item !! "applicants"
     = Some (VList (App.stripped_nonempty
                      (concat (map (App.css item)
                                 App.applicant_selectors))))
  /\ App.parse_item item !! "inventors"
     = Some (VList (App.stripped_nonempty
                      (concat (map (App.css item)
                                 App.inventor_selectors))))
  /\ App.parse_item item !! "ipc_codes"
     = Some (VList (App.stripped_nonempty
                      (concat (map (App.css item) App.ipc_selectors)))).
Proof.
  split; [|split; [|split; [|split]]].
  - intros before sel after t E Hb Hs Ht.
    rewrite parse_item_title, E.
    rewrite (first_match_cascade _ _ _ _ _ Hb Hs Ht). reflexivity.
  - intros before sel after t E Hb Hs Ht.
    rewrite parse_item_publication_date, E.
    rewrite (first_match_cascade _ _ _ _ _ Hb Hs Ht). reflexivity.
  - apply parse_item_applicants.
  - apply parse_item_inventors.
  - apply parse_item_ipc_codes.
Qed.

Lemma C4_field_cascades_witness :
  App.parse_item Aux.item_second_title !! "title" = Some (VStr "A title")
  /\ App.parse_item Aux.item_second_title !! "applicants"
     = Some (VList ["ACME"; "Beta"]).
Proof.
  destruct (C4_field_cascades Aux.item_second_title) as (T & _ & A & _).
  split.
  - apply (T [".title::text"] "h3::text"
             (List.tl (List.tl App.title_selectors)) " A title ");
      [reflexivity | repeat constructor | reflexivity | reflexivity].
  - rewrite A. reflexivity.
Defined.

(** C8, the claim as stated fails: a record is kept on its identifier or
    publication number alone, and it may have no title. *)
Lemma C8_title_not_required_counterexample :
  ~ (forall (doc : App.document) (r : gmap string pyval),
        In r (App.parse_search_results doc) ->
        exists t, r !! "title" = Some (VStr t)
                  /\ PyStr.str_truthy t = true).
Proof.
  intros H.
  destruct (H (Aux.document_of [Aux.item_number_only])
              (App.parse_item Aux.item_number_only))
    as (t & K & _).
  - left. reflexivity.
  - vm_compute in K. discriminate.
Qed.

(** C8 (amended): the records returned are the results of [parse_item] on
    the items of the document that have a true identifier or publication
    number, the others being left out without any error; every record
    returned has a non-empty identifier, which is the publication number
    when the item has no link to a detail view with an identifier; its
    title is what the title cascade finds, and may be missing. *)
Theorem C8_records_have_identifier
    (doc : App.document) (r : gmap string pyval) :
  (In r (App.parse_search_results doc)
   <-> exists item,
         In item (App.first_items doc App.result_selectors)
         /\ r = App.parse_item item
         /\ App.has_minimum r = true)
  /\ (In r (App.parse_search_results doc) ->
      (exists id,
          r !! "patent_id" = Some (VStr id)
          /\ PyStr.str_truthy id = true)
      /\ (forall item,
             r = App.parse_item item ->
             Aux.doc_id_of item = None ->
             r !! "patent_id" = r !! "publication_number")
      /\ (forall item,
             r = App.parse_item item ->
             r !! "title"
             = (fun t => VStr (PyStr.strip t))
                 <$> App.first_match item App.title_selectors)).
Proof.
  assert (In r (App.parse_search_results doc)
          <-> exists item,
                In item (App.first_items doc App.result_selectors)
                /\ r = App.parse_item item
                /\ App.has_minimum r = true) as Hin.
  { unfold App.parse_search_results.
    rewrite <- list_elem_of_In, list_elem_of_filter, list_elem_of_fmap.
    split.
    - intros (Hm & item & -> & Hi). exists item.
      apply list_elem_of_In in Hi. apply Is_true_eq_true in Hm. auto.
    - intros (item & Hi & -> & Hm). split.
      + apply Is_true_eq_left, Hm.
      + exists item. split; [reflexivity | apply list_elem_of_In, Hi]. }
  split; [exact Hin|]. intros H.
  apply Hin in H. destruct H as (item & _ & -> & Hm).
  split; [apply has_minimum_patent_id, Hm|]. split.
  - intros item' E Hd. rewrite E, parse_item_patent_id, Hd.
    symmetry. apply parse_item_publication_number.
  - intros item' E. rewrite E. apply parse_item_title.
Qed.

Lemma C8_records_witness :
  let doc := Aux.document_of [Aux.item_number_only; Aux.empty_node] in
  App.parse_search_results doc = [App.parse_item Aux.item_number_only]
  /\ App.parse_item Aux.item_number_only !! "patent_id"
     = Some (VStr "WO2023123456A1").
Proof.
  intros doc. split; [reflexivity|].
  destruct (C8_records_have_identifier doc
              (App.parse_item Aux.item_number_only)) as [_ H].
  destruct H as (_ & K & _); [left; reflexivity|].
  rewrite (K Aux.item_number_only eq_refl eq_refl). reflexivity.
Defined.

(** * Further properties of the code *)

(** ** [_fetch_with_retry]: how many requests, and what ends the loop *)

Section FetchBounds.

Import PyStr App Aux.

(** The world after the cool-down that follows a 429. *)
Lemma cooldown_world (w : world) :
  exists w1, emit EvCooldown w = (Ok tt, w1)
             /\ server w1 = server w /\ issued w1 = issued w.
Proof. eexists. split; [reflexivity|]. split; reflexivity. Qed.



End FetchBounds.



(** ** [_make_request]: how many requests, and what the limiter records *)

Section MakeRequestBounds.

Import PyStr Scraper Aux.

Lemma inject_nat_succ (n : nat) :
  (inject_Z (Z.of_nat (S n)) == inject_Z (Z.of_nat n) + 1)%Q.
Proof.
  rewrite Nat2Z.inj_succ. unfold Z.succ. rewrite inject_Z_plus.
  reflexivity.
Qed.

Lemma inject_nat_nonneg (n : nat) : (0 <= inject_Z (Z.of_nat n))%Q.
Proof. change 0%Q with (inject_Z 0). rewrite <- Zle_Qle. lia. Qed.

(** One call of the body, whatever the session and [time.sleep] do:
    either [wait] raises and nothing is sent, or one request is sent. *)
Lemma body_spec (url method : string) (s : state) :
  exists s1,
    http s1 = http s
    /\ (clock s <= clock s1)%Q
    /\ ((exists e,
            wait s = (Raise e, s1)
            /\ make_request_body url method s = (Raise e, s1)
            /\ observe s1 = observe s
            /\ (e = SleepError
                \/ (e = OverflowError
                    /\ overflows (rate_limiter s1) = true)))
        \/ (fst (wait s) = Ok tt
            /\ match http s (calls s) with
               | Responds r =>
                   if raises_for_status r
                   then make_request_body url method s
                        = (Raise (RequestException (status_error r)), s1)
                        /\ observe s1
                           = (S (calls s), adaptive (rate_limiter s),
                              S (consecutive_errors (rate_limiter s)),
                              O, successes (log s))
                   else make_request_body url method s = (Ok r, s1)
                        /\ observe s1
                           = (S (calls s), adaptive (rate_limiter s), O,
                              S (success_streak (rate_limiter s)),
                              S (successes (log s)))
               | RequestFails detail =>
                   make_request_body url method s
                   = (Raise (RequestException detail), s1)
                   /\ observe s1
                      = (S (calls s), adaptive (rate_limiter s),
                         S (consecutive_errors (rate_limiter s)),
                         O, successes (log s))
               | OtherFails detail =>
                   make_request_body url method s
                   = (Raise (OtherException detail), s1)
                   /\ observe s1
                      = (S (calls s), adaptive (rate_limiter s),
                         consecutive_errors (rate_limiter s),
                         success_streak (rate_limiter s),
                         successes (log s))
               end)).
Proof.
  destruct (wait_cases s) as (s0 & Hh & Ho & Hck & [Ew|[Ew|[Ew Hov]]]).
  - unfold observe in Ho. injection Ho as Hc Ha He Hk Hl.
    unfold make_request_body, bind. rewrite Ew.
    unfold session_request. simpl. rewrite Hh, Hc.
    destruct (http s (calls s)) as [r|detail|detail].
    + destruct (raises_for_status r); simpl;
        (eexists;
         split; [|split; [|right; split; [reflexivity|split;
                                            [reflexivity|]]]];
           [reflexivity|exact Hck|]);
        unfold observe; simpl; rewrite !successes_app; simpl;
        rewrite !Nat.add_0_r, ?Nat.add_1_r; congruence.
    + simpl. eexists.
      split; [|split; [|right; split; [reflexivity|split;
                                         [reflexivity|]]]];
        [reflexivity|exact Hck|].
      unfold observe. simpl. rewrite !successes_app. simpl.
      rewrite !Nat.add_0_r. congruence.
    + simpl. eexists.
      split; [|split; [|right; split; [reflexivity|split;
                                         [reflexivity|]]]];
        [reflexivity|exact Hck|].
      unfold observe. simpl. rewrite !successes_app. simpl.
      rewrite !Nat.add_0_r. congruence.
  - exists s0. split; [exact Hh|]. split; [exact Hck|]. left.
    exists SleepError. split; [exact Ew|]. split.
    + unfold make_request_body, bind. rewrite Ew. reflexivity.
    + split; [exact Ho|]. left. reflexivity.
  - exists s0. split; [exact Hh|]. split; [exact Hck|]. left.
    exists OverflowError. split; [exact Ew|]. split.
    + unfold make_request_body, bind. rewrite Ew. reflexivity.
    + split; [exact Ho|]. right. split; [reflexivity|exact Hov].
Qed.

(** [wait] raises: nothing is sent by this attempt. *)
Lemma retry_outcome_not_started (s s1 : state) (more : nat) (e : exn) :
  wait s = (Raise e, s1) ->
  http s1 = http s -> (clock s <= clock s1)%Q ->
  observe s1 = observe s ->
  (e = SleepError
   \/ (e = OverflowError /\ overflows (rate_limiter s1) = true)) ->
  retry_outcome s more (Raise e) s1.
Proof.
  intros Ew Hh Hck Ho He. unfold observe in Ho.
  injection Ho as Hc _ Hce _ Hsu.
  unfold retry_outcome. rewrite Hc, Nat.sub_diag. cbn [pred].
  split; [exact Hh|]. split; [lia|].
  split; [rewrite Ew; discriminate|]. split; [intros k Hk; lia|].
  split; [change (inject_Z (Z.of_nat 0)) with 0%Q; lra|].
  destruct He as [->|[-> Hov]].
  - split; [lia|]. split; [intros k Hk; lia|]. split; [lia|exact Hsu].
  - split; [exact Hov|]. split; [lia|]. split; [intros k Hk; lia|].
    split; [lia|exact Hsu].
Qed.

(** The attempt is the last one of the call: it returns a response, or
    raises an exception that is not retried, or fails when no attempt is
    left. *)
Lemma retry_outcome_last (s s1 : state) (more : nat)
    (r : result response) :
  http s1 = http s -> (clock s <= clock s1)%Q ->
  calls s1 = S (calls s) ->
  match r with
  | Ok resp =>
      http s (calls s) = Responds resp
      /\ raises_for_status resp = false
      /\ consecutive_errors (rate_limiter s1) = O
      /\ (0 < success_streak (rate_limiter s1))%nat
      /\ successes (log s1) = S (successes (log s))
  | Raise (RetryError e) =>
      more = O
      /\ (exists detail,
             request_error (http s (calls s)) = Some detail
             /\ e = RequestException detail)
      /\ consecutive_errors (rate_limiter s1)
         = S (consecutive_errors (rate_limiter s))
      /\ success_streak (rate_limiter s1) = O
      /\ successes (log s1) = successes (log s)
  | Raise (OtherException detail) =>
      http s (calls s) = OtherFails detail
      /\ consecutive_errors (rate_limiter s1)
         = consecutive_errors (rate_limiter s)
      /\ successes (log s1) = successes (log s)
  | _ => False
  end ->
  retry_outcome s more r s1.
Proof.
  intros Hh Hck Hc Hr. unfold retry_outcome. rewrite Hc.
  replace (S (calls s) - calls s)%nat with 1%nat by lia. cbn [pred].
  split; [exact Hh|]. split; [lia|]. split; [intros _; lia|].
  split; [intros k Hk; lia|].
  split; [change (inject_Z (Z.of_nat 0)) with 0%Q; lra|].
  destruct r as [resp|[d|d|e| | |f]]; try contradiction.
  - split; [lia|exact Hr].
  - split; [lia|]. destruct Hr as (H1 & H2 & H3).
    split; [exact H1|]. split; [|exact H3]. rewrite H2. lia.
  - destruct Hr as (-> & H1 & H2 & H3 & H4).
    split; [lia|]. split; [exact H1|]. split; [lia|].
    split; assumption.
Qed.

(** A failed attempt whose pause [time.sleep] refuses. *)
Lemma retry_outcome_pause_refused (s s1 s2 : state) (k : nat)
    (detail : string) :
  http s1 = http s -> (clock s <= clock s1)%Q ->
  observe s1
  = (S (calls s), adaptive (rate_limiter s),
     S (consecutive_errors (rate_limiter s)), O, successes (log s)) ->
  request_error (http s (calls s)) = Some detail ->
  http s2 = http s1 -> observe s2 = observe s1 -> clock s2 = clock s1 ->
  retry_outcome s (S k) (Raise SleepError) s2.
Proof.
  intros Hh Hck Ho He Hh2 Ho2 Hck2.
  rewrite Ho in Ho2. unfold observe in Ho2.
  injection Ho2 as Hc2 _ Hce2 _ Hsu2.
  unfold retry_outcome. rewrite Hc2, Hh2, Hh, Hck2.
  replace (S (calls s) - calls s)%nat with 1%nat by lia. cbn [pred].
  split; [reflexivity|]. split; [lia|]. split; [intros _; lia|].
  split; [intros j Hj; lia|].
  split; [change (inject_Z (Z.of_nat 0)) with 0%Q; lra|].
  split; [lia|]. split.
  - intros j Hj. replace j with (calls s) by lia. rewrite He. discriminate.
  - split; [lia|exact Hsu2].
Qed.

(** A failed attempt followed by tenacity's sleep and by the attempts
    left. *)
Lemma retry_outcome_failed (s s1 s2 s' : state) (k : nat)
    (detail : string) (pause : Q) (r : result response) :
  http s1 = http s -> (clock s <= clock s1)%Q ->
  observe s1
  = (S (calls s), adaptive (rate_limiter s),
     S (consecutive_errors (rate_limiter s)), O, successes (log s)) ->
  request_error (http s (calls s)) = Some detail ->
  http s2 = http s1 -> observe s2 = observe s1 ->
  clock s2 = (clock s1 + pause)%Q -> (2 <= pause)%Q ->
  retry_outcome s2 k r s' ->
  retry_outcome s (S k) r s'.
Proof.
  intros Hh Hck Ho He Hh2 Ho2 Hck2 Hp H.
  rewrite Ho in Ho2. unfold observe in Ho2.
  injection Ho2 as Hc2 Ha2 Hce2 Hss2 Hsu2.
  unfold retry_outcome in *.
  destruct H as (Hh3 & Hc3 & _ & Hn3 & Hck3 & R3).
  rewrite Hh2, Hh in *. rewrite Hc2 in *.
  rewrite Hce2, Hsu2 in R3.
  split; [exact Hh3|]. split; [lia|]. split; [intros _; lia|]. split.
  { intros j Hj. destruct (Nat.eq_dec j (calls s)) as [->|Hne].
    - rewrite He. discriminate.
    - apply Hn3. lia. }
  split.
  { rewrite Hck2 in Hck3.
    replace (calls s' - calls s)%nat
      with (S (calls s' - S (calls s)))%nat by lia.
    cbn [pred].
    destruct (calls s' - S (calls s))%nat as [|x] eqn:Ex.
    - cbn [pred] in Hck3.
      change (inject_Z (Z.of_nat 0)) with 0%Q in *. lra.
    - cbn [pred] in Hck3. pose proof (inject_nat_succ x) as Hx.
      pose proof (inject_nat_nonneg x) as Hx0.
      set (a := inject_Z (Z.of_nat (S x))) in *.
      set (b := inject_Z (Z.of_nat x)) in *. lra. }
  destruct r as [resp|[d|d|e| | |f]]; try contradiction.
  - destruct R3 as (R0 & R1). split; [lia|exact R1].
  - destruct R3 as (R0 & R1 & R2 & R4).
    split; [lia|]. split; [exact R1|]. split; [|exact R4].
    rewrite R2. lia.
  - destruct R3 as (R1 & R2 & R4 & R5 & R6).
    split; [lia|]. split; [exact R2|]. split; [lia|].
    split; assumption.
  - destruct R3 as (R1 & R2 & R4 & R5 & R6).
    split; [exact R1|]. split; [lia|]. split.
    { intros j Hj. destruct (Nat.eq_dec j (calls s)) as [->|Hne].
      - rewrite He. discriminate.
      - apply R4. lia. }
    split; [lia|exact R6].
  - destruct R3 as (R2 & R4 & R5 & R6).
    split; [lia|]. split.
    { intros j Hj. destruct (Nat.eq_dec j (calls s)) as [->|Hne].
      - rewrite He. discriminate.
      - apply R4. lia. }
    split; [lia|exact R6].
Qed.

Lemma retrying_spec (url method : string) :
  forall more n s r s',
    retrying more n (make_request_body url method) s = (r, s') ->
    retry_outcome s more r s'.
Proof.
  induction more as [|k IH]; intros n s r s' H;
    destruct (body_spec url method s)
      as (s1 & Hh & Hck & [(e & Ew & Hb & Hob & He)|(Hw & Hm)]).
  - cbn [retrying] in H. rewrite Hb in H.
    destruct He as [->|[-> Hov]]; injection H as <- <-;
      apply (retry_outcome_not_started s s1 O _ Ew Hh Hck Hob); auto.
  - cbn [retrying] in H.
    destruct (http s (calls s)) as [r0|detail|detail] eqn:Ho.
    + destruct (raises_for_status r0) eqn:Er;
        destruct Hm as (Hb & Hob); rewrite Hb in H; injection H as <- <-;
        unfold observe in Hob; injection Hob as Hc Ha Hce Hss Hsu;
        apply retry_outcome_last; try assumption.
      * split; [reflexivity|]. split.
        { exists (status_error r0). rewrite Ho. cbn. rewrite Er.
          split; reflexivity. }
        split; [exact Hce|]. split; assumption.
      * split; [exact Ho|]. split; [exact Er|]. split; [exact Hce|].
        split; [lia|exact Hsu].
    + destruct Hm as (Hb & Hob). rewrite Hb in H. injection H as <- <-.
      unfold observe in Hob. injection Hob as Hc Ha Hce Hss Hsu.
      apply retry_outcome_last; try assumption.
      split; [reflexivity|]. split.
      { exists detail. rewrite Ho. split; reflexivity. }
      split; [exact Hce|]. split; assumption.
    + destruct Hm as (Hb & Hob). rewrite Hb in H. injection H as <- <-.
      unfold observe in Hob. injection Hob as Hc Ha Hce Hss Hsu.
      apply retry_outcome_last; try assumption.
      split; [exact Ho|]. split; assumption.
  - cbn [retrying] in H. rewrite Hb in H.
    destruct He as [->|[-> Hov]]; injection H as <- <-;
      apply (retry_outcome_not_started s s1 (S k) _ Ew Hh Hck Hob); auto.
  - cbn [retrying] in H.
    assert (Hfail : forall detail,
               make_request_body url method s
               = (Raise (RequestException detail), s1) ->
               observe s1
               = (S (calls s), adaptive (rate_limiter s),
                  S (consecutive_errors (rate_limiter s)), O,
                  successes (log s)) ->
               request_error (http s (calls s)) = Some detail ->
               retry_outcome s (S k) r s').
    { intros detail Hb Hob He. rewrite Hb in H. unfold bind in H.
      destruct (sleep_cases (wait_exponential n) s1)
        as (s2 & Hh2 & Ho2 & [[E2 Hck2]|[E2 Hck2]]); rewrite E2 in H.
      - apply IH in H.
        exact (retry_outcome_failed s s1 s2 s' k detail
                 (wait_exponential n) r Hh Hck Hob He Hh2 Ho2 Hck2
                 (proj1 (wait_exponential_bounds n)) H).
      - injection H as <- <-.
        exact (retry_outcome_pause_refused s s1 s2 k detail Hh Hck Hob He
                 Hh2 Ho2 Hck2). }
    destruct (http s (calls s)) as [r0|detail|detail] eqn:Ho.
    + destruct (raises_for_status r0) eqn:Er; destruct Hm as (Hb & Hob).
      * apply (Hfail _ Hb Hob). cbn. rewrite Er. reflexivity.
      * rewrite Hb in H. injection H as <- <-.
        unfold observe in Hob. injection Hob as Hc Ha Hce Hss Hsu.
        apply retry_outcome_last; try assumption.
        split; [exact Ho|]. split; [exact Er|]. split; [exact Hce|].
        split; [lia|exact Hsu].
    + destruct Hm as (Hb & Hob). apply (Hfail _ Hb Hob). reflexivity.
    + destruct Hm as (Hb & Hob). rewrite Hb in H. injection H as <- <-.
      unfold observe in Hob. injection Hob as Hc Ha Hce Hss Hsu.
      apply retry_outcome_last; try assumption.
      split; [exact Ho|]. split; assumption.
Qed.

(** In a steady state whose limiter does not overflow, [wait] returns and
    the body raises neither [OverflowError] nor [SleepError]; the state
    it leaves is steady again. *)
Lemma body_steady (url method : string) (s : state) :
  steady s -> overflows (rate_limiter s) = false ->
  fst (wait s) = Ok tt
  /\ steady (snd (make_request_body url method s))
  /\ fst (make_request_body url method s) <> Raise OverflowError
  /\ fst (make_request_body url method s) <> Raise SleepError.
Proof.
  intros Hst Hov.
  destruct (wait_steady s Hst Hov) as (s1 & Ew & Hh & Ho & _ & Hst1).
  split; [rewrite Ew; reflexivity|].
  assert (Hb : exists r1 s2,
             make_request_body url method s = (r1, s2)
             /\ steady s2
             /\ r1 <> Raise OverflowError /\ r1 <> Raise SleepError).
  { unfold make_request_body, bind at 1. rewrite Ew.
    unfold bind, session_request. simpl.
    destruct (http s1 (calls s1)) as [r0|detail|detail];
      [destruct (raises_for_status r0)| |]; unfold raise, ret;
      (eexists; eexists; split; [reflexivity|]);
      (split; [|split; discriminate]);
      apply (steady_frame s1); try reflexivity; try exact Hst1;
      apply Hst1. }
  destruct Hb as (r1 & s2 & -> & Hst2 & N1 & N2). cbn [fst snd].
  split; [exact Hst2|]. split; assumption.
Qed.

(** So the retried body passes neither of them on, as long as the
    consecutive errors stay below 1024. *)
Lemma retrying_steady (url method : string) :
  forall more n s r s',
    steady s -> overflows (rate_limiter s) = false ->
    (consecutive_errors (rate_limiter s) + more < 1024)%nat ->
    retrying more n (make_request_body url method) s = (r, s') ->
    r <> Raise OverflowError /\ r <> Raise SleepError.
Proof.
  induction more as [|k IH]; intros n s r s' Hst Hov Hce H;
    destruct (body_steady url method s Hst Hov) as (Hw & Hst1 & N1 & N2);
    cbn [retrying] in H;
    destruct (make_request_body url method s) as [r1 s1] eqn:Eb;
    cbn [fst snd] in *.
  - destruct r1 as [resp|[d|d|e| | |f]]; injection H as <- <-;
      split; solve [discriminate | assumption].
  - destruct r1 as [resp|[d|d|e| | |f]];
      try (injection H as <- <-; split; solve [discriminate | assumption]).
    unfold bind in H.
    destruct (sleep_steady n s1 Hst1) as (s2 & E2 & Hh2 & Ho2 & Hst2).
    rewrite E2 in H.
    destruct (body_spec url method s)
      as (s1' & Hh & Hck & [(e & Ew & Hb & _)|(_ & Hm)]).
    { rewrite Ew in Hw. discriminate. }
    assert (Hob : observe s1
                  = (S (calls s), adaptive (rate_limiter s),
                     S (consecutive_errors (rate_limiter s)), O,
                     successes (log s))).
    { destruct (http s (calls s)) as [r0|detail|detail].
      - destruct (raises_for_status r0); destruct Hm as (Hb & Hob);
          rewrite Eb in Hb; injection Hb as Hd Hs; subst s1';
          [exact Hob|discriminate].
      - destruct Hm as (Hb & Hob). rewrite Eb in Hb.
        injection Hb as Hd Hs. subst s1'. exact Hob.
      - destruct Hm as (Hb & Hob). rewrite Eb in Hb. discriminate. }
    rewrite <- Ho2 in Hob.
    apply (IH (n + 1) s2 r s' Hst2); [| |exact H].
    + apply (observe_error_fits s2 _ _ _ _ Hob). lia.
    + unfold observe in Hob. injection Hob as _ _ Hc _ _. rewrite Hc. lia.
Qed.

(** When the first [wait] raises, its exception leaves [_make_request]
    and nothing is sent. *)
Lemma make_request_wait_raises (url method : string) (s s1 s' : state)
    (e : exn) (r : result response) :
  wait s = (Raise e, s1) ->
  _make_request url method s = (r, s') ->
  r = Raise e /\ s' = s1 /\ calls s' = calls s.
Proof.
  intros Ew H. unfold _make_request in H.
  destruct (body_spec url method s)
    as (s2 & _ & _ & [(e2 & Ew2 & Hb & Hob & He)|(Hw & _)]).
  - rewrite Ew in Ew2. injection Ew2 as <- <-.
    cbn [retrying] in H. rewrite Hb in H.
    assert (Hr : r = Raise e /\ s' = s1)
      by (destruct He as [->|[-> _]]; injection H as <- <-;
          split; reflexivity).
    destruct Hr as (-> & ->). split; [reflexivity|].
    split; [reflexivity|]. exact (observe_calls _ _ _ _ _ _ Hob).
  - rewrite Ew in Hw. discriminate.
Qed.

(** In a steady state with fewer than 1022 consecutive errors and a
    streak in the float range, the first [wait] returns and neither
    [OverflowError] nor [SleepError] leaves [_make_request]. *)
Lemma make_request_steady (url method : string) (s s' : state)
    (r : result response) :
  steady s ->
  (consecutive_errors (rate_limiter s) < 1022)%nat ->
  Z.of_nat (success_streak (rate_limiter s)) < float_int_limit ->
  _make_request url method s = (r, s') ->
  fst (wait s) = Ok tt
  /\ r <> Raise OverflowError /\ r <> Raise SleepError.
Proof.
  intros Hst Hce Hss H. unfold _make_request in H.
  assert (Hov : overflows (rate_limiter s) = false)
    by (apply overflows_false; [lia|exact Hss]).
  assert (Hle : (consecutive_errors (rate_limiter s) + 2 < 1024)%nat)
    by lia.
  split; [exact (proj1 (body_steady url method s Hst Hov))|].
  exact (retrying_steady url method 2 1 s r s' Hst Hov Hle H).
Qed.

End MakeRequestBounds.

(** X2: whatever the session and [time.sleep] do, [_make_request] sends
    at most three requests, and at least one when the first [wait]
    returns; when the first [wait] raises, its exception leaves the
    function and nothing is sent.  Every attempt before the last one
    failed with a request error (an exception of the session or a 4xx/5xx
    status), and at least two seconds pass on the clock between two
    attempts.  A response is returned only when the last request is
    answered with a status that [raise_for_status] accepts, and then the
    limiter has no consecutive error, a positive streak and one more
    recorded success.  A [RetryError] means that three requests failed,
    each of them counted as an error by the limiter.  An exception of the
    session that is not a [RequestException] is passed on at once,
    without being retried or recorded.  An [OverflowError] comes from
    [wait]: the limiter overflows, every request sent before failed, at
    most two were sent, and none when the limiter overflowed from the
    start, the state being then untouched.  An exception of
    [time.sleep] comes from [wait] or from the pause between two
    attempts: every request sent before failed, and at most two were
    sent.  No other exception leaves the function; and in a steady state
    (delays in order, the last request not in the future, pauses up to
    the maximum delay and up to ten seconds accepted) with fewer than
    1022 consecutive errors and a streak below the float range, neither
    of these two does, and a request is sent. *)
Theorem make_request_at_most_three
    (url method : string) (s s' : Scraper.state)
    (r : Scraper.result Scraper.response) :
  Scraper._make_request url method s = (r, s') ->
  Scraper.http s' = Scraper.http s
  /\ (Scraper.calls s <= Scraper.calls s' <= Scraper.calls s + 3)%nat
  /\ (fst (Scraper.wait s) = Scraper.Ok tt ->
      (Scraper.calls s < Scraper.calls s')%nat)
  /\ (forall e s1,
         Scraper.wait s = (Scraper.Raise e, s1) ->
         r = Scraper.Raise e /\ s' = s1
         /\ Scraper.calls s' = Scraper.calls s)
  /\ (Aux.overflows (Scraper.rate_limiter s) = true ->
      r = Scraper.Raise Scraper.OverflowError /\ s' = s)
  /\ (Aux.steady s ->
      (Scraper.consecutive_errors (Scraper.rate_limiter s) < 1022)%nat ->
      Z.of_nat (Scraper.success_streak (Scraper.rate_limiter s))
      < Scraper.float_int_limit ->
      r <> Scraper.Raise Scraper.OverflowError
      /\ r <> Scraper.Raise Scraper.SleepError
      /\ (Scraper.calls s < Scraper.calls s')%nat)
  /\ (forall k,
         (Scraper.calls s <= k < pred (Scraper.calls s'))%nat ->
         Aux.request_error (Scraper.http s k) <> None)
  /\ (Scraper.clock s
      + 2 * inject_Z
              (Z.of_nat (pred (Scraper.calls s' - Scraper.calls s)))
      <= Scraper.clock s')%Q
  /\ match r with
     | Scraper.Ok resp =>
         (Scraper.calls s < Scraper.calls s')%nat
         /\ Scraper.http s (pred (Scraper.calls s')) = Scraper.Responds resp
         /\ Scraper.raises_for_status resp = false
         /\ Scraper.consecutive_errors (Scraper.rate_limiter s') = O
         /\ (0 < Scraper.success_streak (Scraper.rate_limiter s'))%nat
         /\ Aux.successes (Scraper.log s')
            = S (Aux.successes (Scraper.log s))
     | Scraper.Raise (Scraper.RetryError e) =>
         Scraper.calls s' = (Scraper.calls s + 3)%nat
         /\ (exists detail,
                Aux.request_error
                  (Scraper.http s (pred (Scraper.calls s')))
                = Some detail
                /\ e = Scraper.RequestException detail)
         /\ Scraper.consecutive_errors (Scraper.rate_limiter s')
            = (Scraper.consecutive_errors (Scraper.rate_limiter s) + 3)%nat
         /\ Scraper.success_streak (Scraper.rate_limiter s') = O
         /\ Aux.successes (Scraper.log s') = Aux.successes (Scraper.log s)
     | Scraper.Raise (Scraper.OtherException detail) =>
         (Scraper.calls s < Scraper.calls s')%nat
         /\ Scraper.http s (pred (Scraper.calls s'))
            = Scraper.OtherFails detail
         /\ Scraper.consecutive_errors (Scraper.rate_limiter s')
            = (Scraper.consecutive_errors (Scraper.rate_limiter s)
               + (Scraper.calls s' - S (Scraper.calls s)))%nat
         /\ Aux.successes (Scraper.log s') = Aux.successes (Scraper.log s)
     | Scraper.Raise Scraper.OverflowError =>
         Aux.overflows (Scraper.rate_limiter s') = true
         /\ (Scraper.calls s' <= Scraper.calls s + 2)%nat
         /\ (forall k,
                (Scraper.calls s <= k < Scraper.calls s')%nat ->
                Aux.request_error (Scraper.http s k) <> None)
         /\ Scraper.consecutive_errors (Scraper.rate_limiter s')
            = (Scraper.consecutive_errors (Scraper.rate_limiter s)
               + (Scraper.calls s' - Scraper.calls s))%nat
         /\ Aux.successes (Scraper.log s') = Aux.successes (Scraper.log s)
         /\ (Scraper.calls s' = Scraper.calls s -> s' = s)
     | Scraper.Raise Scraper.SleepError =>
         (Scraper.calls s' <= Scraper.calls s + 2)%nat
         /\ (forall k,
                (Scraper.calls s <= k < Scraper.calls s')%nat ->
                Aux.request_error (Scraper.http s k) <> None)
         /\ Scraper.consecutive_errors (Scraper.rate_limiter s')
            = (Scraper.consecutive_errors (Scraper.rate_limiter s)
               + (Scraper.calls s' - Scraper.calls s))%nat
         /\ Aux.successes (Scraper.log s') = Aux.successes (Scraper.log s)
     | Scraper.Raise (Scraper.RequestException _) => False
     | Scraper.Raise (Scraper.OSError _) => False
     end.
Proof.
  intros H.
  assert (Hwait : forall e s1,
             Scraper.wait s = (Scraper.Raise e, s1) ->
             r = Scraper.Raise e /\ s' = s1
             /\ Scraper.calls s' = Scraper.calls s).
  { intros e s1 Ew.
    exact (make_request_wait_raises url method s s1 s' e r Ew H). }
  assert (Hfirst : Aux.overflows (Scraper.rate_limiter s) = true ->
                   r = Scraper.Raise Scraper.OverflowError /\ s' = s).
  { intros Hov. destruct (Hwait _ _ (wait_raises s Hov)) as (E1 & E2 & _).
    split; assumption. }
  pose proof (make_request_steady url method s s' r) as Hsteady.
  unfold Scraper._make_request in H.
  pose proof (retrying_spec url method _ _ _ _ _ H) as Hspec.
  unfold Aux.retry_outcome in Hspec.
  destruct Hspec as (H1 & H2 & H3 & H4 & H5 & H6).
  split; [exact H1|]. split; [exact H2|]. split; [exact H3|].
  split; [exact Hwait|]. split; [exact Hfirst|]. split.
  { intros Hst Hce Hss.
    destruct (Hsteady Hst Hce Hss H) as (Hw & N1 & N2).
    split; [exact N1|]. split; [exact N2|]. exact (H3 Hw). }
  split; [exact H4|]. split; [exact H5|].
  destruct r as [resp|[d|d|e| | |f]]; try exact H6.
  destruct H6 as (R1 & R2 & R3 & R4 & R5).
  split; [exact R1|]. split; [exact R2|]. split; [exact R3|].
  split; [exact R4|]. split; [exact R5|].
  intros Hc.
  destruct (wait_cases s) as (s1 & _ & Hob & _ & [Ew|[Ew|[Ew Hov]]]).
  - assert (Scraper.calls s < Scraper.calls s')%nat
      by (apply H3; rewrite Ew; reflexivity). lia.
  - destruct (Hwait _ _ Ew) as (E1 & _). discriminate.
  - rewrite (overflows_observe _ _ Hob) in Hov.
    exact (proj2 (Hfirst Hov)).
Qed.

Lemma make_request_at_most_three_witness :
  let s :=
    Aux.scraper_state
      [Aux.scraper_response 503 "busy"; Aux.scraper_response 302 "moved"]
  in
  exists s',
    Scraper._make_request "u" "GET" s
    = (Scraper.Ok (Aux.scraper_response 302 "moved"), s')
    /\ (Scraper.calls s' <= 3)%nat
    /\ (2 <= Scraper.clock s')%Q
    /\ Scraper.consecutive_errors (Scraper.rate_limiter s') = O.
Proof.
  intros s.
  assert (R : Scraper._make_request "u" "GET" s
              = (Scraper.Ok (Aux.scraper_response 302 "moved"),
                 snd (Scraper._make_request "u" "GET" s)))
    by (vm_compute; reflexivity).
  pose proof (make_request_at_most_three "u" "GET" s _ _ R)
    as (_ & B & _ & _ & _ & _ & _ & C & (L & _ & _ & E & _)).
  exists (snd (Scraper._make_request "u" "GET" s)).
  split; [exact R|]. split; [exact (proj2 B)|]. split; [|exact E].
  refine (Qle_trans _ _ _ _ C). vm_compute. discriminate.
Defined.

(** ** [RateLimiter.wait]: the pause it enforces *)

Section WaitFacts.

Import Scraper.

Lemma py_min_mono_l (a a' b : Q) :
  (a <= a')%Q -> (py_min a b <= py_min a' b)%Q.
Proof.
  intros H. unfold py_min.
  destruct (Qlt_bool b a) eqn:E1, (Qlt_bool b a') eqn:E2;
    rewrite ?Qlt_bool_true, ?Qlt_bool_false in *; lra.
Qed.

Lemma py_max_mono_r (a b b' : Q) :
  (b <= b')%Q -> (py_max a b <= py_max a b')%Q.
Proof.
  intros H. unfold py_max.
  destruct (Qlt_bool a b) eqn:E1, (Qlt_bool a b') eqn:E2;
    rewrite ?Qlt_bool_true, ?Qlt_bool_false in *; lra.
Qed.

Lemma Qdiv_antitone (m d1 d2 : Q) :
  (0 <= m)%Q -> (0 < d1)%Q -> (d1 <= d2)%Q -> (m / d2 <= m / d1)%Q.
Proof.
  intros Hm H1 H2.
  assert (H0 : (0 <= m / d1)%Q) by (apply Qle_shift_div_l; lra).
  assert (He : (d1 * (m / d1) == m)%Q) by (apply Qmult_div_r; lra).
  apply Qle_shift_div_r; [lra|].
  set (q := (m / d1)%Q) in *. nra.
Qed.

Lemma pow2_double (n : nat) :
  (inject_Z (2 ^ Z.of_nat (S n)) == 2 * inject_Z (2 ^ Z.of_nat n))%Q.
Proof.
  rewrite Nat2Z.inj_succ, Z.pow_succ_r by lia.
  rewrite inject_Z_mult. reflexivity.
Qed.

End WaitFacts.

(** X3: [wait] either raises [OverflowError] at once, which an adaptive
    limiter does from 1024 consecutive errors on, leaving everything as
    it was, or computes a delay between [min_delay] and [max_delay] and
    sleeps only when less than the delay has elapsed since the previous
    request.  When [time.sleep] refuses the pause, its exception leaves
    [wait] with the clock and the time of the previous request as they
    were.  Otherwise [wait] returns with the clock at least the delay
    after the time of the previous request, and records the clock as the
    time of this one; it never moves the clock back, and when the clock
    is not before the previous request it sleeps no longer than the
    delay, hence no longer than [max_delay].  [wait] returns whenever the
    clock is not before the previous request and [time.sleep] accepts the
    pauses up to [max_delay].  It touches neither the counters of the
    limiter nor the session.  The draw of [random.uniform] is read as a
    number between 0 and 1. *)
Theorem wait_keeps_requests_apart (s : Scraper.state) :
  let rl := Scraper.rate_limiter s in
  (0 <= Scraper.min_delay rl)%Q ->
  (Scraper.min_delay rl <= Scraper.max_delay rl)%Q ->
  (0 <= Scraper.draws s (Scraper.drawn s) <= 1)%Q ->
  (Aux.overflows rl = true ->
   Scraper.wait s = (Scraper.Raise Scraper.OverflowError, s))
  /\ ((1024 <= Scraper.consecutive_errors rl)%nat ->
      Scraper.adaptive rl = true -> Aux.overflows rl = true)
  /\ ((Scraper.consecutive_errors rl < 1024)%nat ->
      Z.of_nat (Scraper.success_streak rl) < Scraper.float_int_limit ->
      Aux.overflows rl = false)
  /\ (Aux.overflows rl = false ->
      exists s' delay,
        Scraper.wait_delay rl
          (if Scraper.adaptive rl then 0
           else Scraper.draws s (Scraper.drawn s))
        = Scraper.Ok delay
        /\ (Scraper.min_delay rl <= delay <= Scraper.max_delay rl)%Q
        /\ (let elapsed :=
              (Scraper.clock s - Scraper.last_request_time rl)%Q in
            if Scraper.Qlt_bool elapsed delay
               && negb (Scraper.dorme s (Scraper.dormidas s)
                          (delay - elapsed)%Q)
            then Scraper.wait s = (Scraper.Raise Scraper.SleepError, s')
                 /\ Scraper.clock s' = Scraper.clock s
                 /\ Scraper.last_request_time (Scraper.rate_limiter s')
                    = Scraper.last_request_time rl
                 /\ Scraper.log s' = Scraper.log s
            else Scraper.wait s = (Scraper.Ok tt, s')
                 /\ (Scraper.last_request_time rl + delay
                     <= Scraper.clock s')%Q
                 /\ Scraper.last_request_time (Scraper.rate_limiter s')
                    = Scraper.clock s'
                 /\ (Scraper.clock s <= Scraper.clock s')%Q
                 /\ ((Scraper.last_request_time rl <= Scraper.clock s)%Q ->
                     (Scraper.clock s' <= Scraper.clock s + delay)%Q)
                 /\ ((delay <= elapsed)%Q ->
                     Scraper.clock s' = Scraper.clock s
                     /\ Scraper.log s' = Scraper.log s))
        /\ ((Scraper.last_request_time rl <= Scraper.clock s)%Q ->
            (forall x,
                (0 < x)%Q -> (x <= Scraper.max_delay rl)%Q ->
                Scraper.dorme s (Scraper.dormidas s) x = true) ->
            Scraper.wait s = (Scraper.Ok tt, s'))
        /\ Scraper.consecutive_errors (Scraper.rate_limiter s')
           = Scraper.consecutive_errors rl
        /\ Scraper.success_streak (Scraper.rate_limiter s')
           = Scraper.success_streak rl
        /\ Scraper.http s' = Scraper.http s
        /\ Scraper.calls s' = Scraper.calls s).
Proof.
  intros rl H0 Hm Hu. split; [apply wait_raises|]. split.
  { intros Hge Ha. unfold Aux.overflows. rewrite Ha. cbn [andb].
    assert (Hpos : (0 <? Scraper.consecutive_errors rl)%nat = true)
      by (apply Nat.ltb_lt; lia).
    rewrite Hpos. apply Nat.leb_le. exact Hge. }
  split; [apply overflows_false|].
  intros Hov.
  destruct (delay_bounds rl (Scraper.draws s (Scraper.drawn s))
              Hov H0 Hm Hu) as (delay & Ed & Hb).
  assert (Ec : exists s0, Scraper.compute_delay s = (Scraper.Ok delay, s0)).
  { destruct (compute_delay_fits s Hov) as (d & s0 & Ec & Ed').
    fold rl in Ed'. rewrite Ed in Ed'. injection Ed' as <-.
    exists s0. exact Ec. }
  destruct Ec as (s0 & Ec).
  destruct (wait_computed s delay s0 Ec) as (s' & Hw & Hh & Hob & _).
  fold rl in Hw. cbv zeta in Hw.
  unfold Aux.observe in Hob. injection Hob as Hc _ Hce Hss _.
  exists s', delay. split; [exact Ed|]. split; [exact Hb|].
  cbv zeta.
  set (elapsed := (Scraper.clock s - Scraper.last_request_time rl)%Q) in *.
  split; [|split; [|repeat split; assumption]].
  - destruct (Scraper.Qlt_bool elapsed delay) eqn:Hlt.
    + apply Qlt_bool_true in Hlt. cbn [andb] in *.
      destruct (Scraper.dorme s (Scraper.dormidas s) (delay - elapsed)%Q);
        cbn [negb] in *.
      * destruct Hw as (Ew & Hck & Hlog & Hlast).
        split; [exact Ew|]. rewrite Hck. unfold elapsed in *.
        split; [lra|]. split; [rewrite Hlast, Hck; reflexivity|].
        split; [lra|]. split; intros; lra.
      * destruct Hw as (Ew & Hck & Hlog & Hlast).
        repeat split; assumption.
    + apply Qlt_bool_false in Hlt. cbn [andb] in *.
      destruct Hw as (Ew & Hck & Hlog & Hlast).
      split; [exact Ew|]. rewrite Hck. unfold elapsed in *.
      split; [lra|]. split; [rewrite Hlast, Hck; reflexivity|].
      split; [lra|]. split; [intros; lra|].
      intros _. split; [reflexivity|]. rewrite Hlog. apply app_nil_r.
  - intros Hpast Hsleep.
    destruct (Scraper.Qlt_bool elapsed delay) eqn:Hlt.
    + apply Qlt_bool_true in Hlt. cbn [andb] in Hw.
      rewrite Hsleep in Hw; [apply Hw| |]; unfold elapsed in *; lra.
    + cbn [andb] in Hw. apply Hw.
Qed.

Lemma wait_keeps_requests_apart_witness :
  exists s',
    Scraper.wait (Aux.scraper_state []) = (Scraper.Ok tt, s')
    /\ (3 <= Scraper.clock s')%Q
    /\ Scraper.last_request_time (Scraper.rate_limiter s') = Scraper.clock s'.
Proof.
  destruct (wait_keeps_requests_apart (Aux.scraper_state []))
    as (_ & _ & _ & H).
  - unfold Qle. simpl. lia.
  - unfold Qle. simpl. lia.
  - split; unfold Qle; simpl; lia.
  - destruct (H eq_refl) as (s' & delay & D & _ & W & _).
    vm_compute in D. injection D as <-. cbv zeta in W.
    match type of W with
    | if ?c then _ else _ => change c with false in W
    end.
    destruct W as (E & A & L & _).
    exists s'. split; [exact E|]. split; [|exact L].
    refine (Qle_trans _ _ _ _ A). vm_compute. discriminate.
Defined.

(** X4: the delay of an adaptive limiter, from one call of [record_error]
    or [record_success] to the next.  While errors follow one another, up
    to the 1023rd, the delay never gets shorter, and once
    [min_delay * 2 ** consecutive_errors] has reached [max_delay] it
    stays at [max_delay]; the 1024th error in a row leaves no delay at
    all, the computation raising [OverflowError].  While successes follow
    one another the delay never gets longer.  But the first error after
    a fresh start makes the delay shorter whenever
    [2 * min_delay < max_delay]: it goes from [max_delay] down to
    [2 * min_delay]. *)
Theorem adaptive_delay_regimes (rl : Scraper.RateLimiter) (u : Q) :
  Scraper.adaptive rl = true ->
  (0 <= Scraper.min_delay rl)%Q ->
  (Scraper.min_delay rl <= Scraper.max_delay rl)%Q ->
  ((0 < Scraper.consecutive_errors rl < 1023)%nat ->
   exists d d',
     Scraper.wait_delay rl u = Scraper.Ok d
     /\ Scraper.wait_delay (Scraper.record_error rl) u = Scraper.Ok d'
     /\ (d <= d')%Q
     /\ ((Scraper.max_delay rl
          <= Scraper.min_delay rl
             * inject_Z (2 ^ Z.of_nat (Scraper.consecutive_errors rl)))%Q ->
         (d == Scraper.max_delay rl)%Q /\ (d' == Scraper.max_delay rl)%Q))
  /\ ((1023 <= Scraper.consecutive_errors rl)%nat ->
      Scraper.wait_delay (Scraper.record_error rl) u
      = Scraper.Raise Scraper.OverflowError)
  /\ (Scraper.consecutive_errors rl = O ->
      Z.of_nat (S (Scraper.success_streak rl)) < Scraper.float_int_limit ->
      exists d d',
        Scraper.wait_delay rl u = Scraper.Ok d
        /\ Scraper.wait_delay (Scraper.record_success rl) u = Scraper.Ok d'
        /\ (d' <= d)%Q)
  /\ (Scraper.consecutive_errors rl = O ->
      Scraper.success_streak rl = O ->
      (2 * Scraper.min_delay rl < Scraper.max_delay rl)%Q ->
      exists d d',
        Scraper.wait_delay rl u = Scraper.Ok d
        /\ Scraper.wait_delay (Scraper.record_error rl) u = Scraper.Ok d'
        /\ (d == Scraper.max_delay rl)%Q
        /\ (d' == 2 * Scraper.min_delay rl)%Q
        /\ (d' < d)%Q).
Proof.
  intros Ha H0 Hm. split; [|split; [|split]].
  - intros [Hpos Hlt].
    assert (Hp : (0 <? Scraper.consecutive_errors rl)%nat = true)
      by (apply Nat.ltb_lt; exact Hpos).
    assert (O1 : Aux.overflows rl = false).
    { unfold Aux.overflows. rewrite Ha, Hp. apply Nat.leb_gt. lia. }
    assert (O2 : Aux.overflows (Scraper.record_error rl) = false).
    { rewrite overflows_after_error, Ha. apply Nat.leb_gt. lia. }
    rewrite !wait_delay_spec, O1, O2, Ha.
    cbn [Scraper.record_error Scraper.adaptive Scraper.consecutive_errors
         Scraper.min_delay Scraper.max_delay].
    rewrite Ha, Hp. change (0 <? S _)%nat with true. cbv iota.
    eexists. eexists. split; [reflexivity|]. split; [reflexivity|].
    pose proof (pow2_double (Scraper.consecutive_errors rl)) as Hd.
    pose proof (pow2_ge_1 (Scraper.consecutive_errors rl)) as Hq.
    set (p := inject_Z (2 ^ Z.of_nat (Scraper.consecutive_errors rl))) in *.
    set (p' := inject_Z (2 ^ Z.of_nat (S (Scraper.consecutive_errors rl))))
      in *.
    split.
    + apply py_min_mono_l. nra.
    + intros Hs. unfold Scraper.py_min.
      destruct (Scraper.Qlt_bool (Scraper.max_delay rl)
                  (Scraper.min_delay rl * p)) eqn:B1,
               (Scraper.Qlt_bool (Scraper.max_delay rl)
                  (Scraper.min_delay rl * p')) eqn:B2;
        rewrite ?Qlt_bool_true, ?Qlt_bool_false in *; split; nra.
  - intros Hge.
    assert (O2 : Aux.overflows (Scraper.record_error rl) = true).
    { rewrite overflows_after_error, Ha. apply Nat.leb_le. exact Hge. }
    rewrite wait_delay_spec, O2. reflexivity.
  - intros He Hs.
    assert (O1 : Aux.overflows rl = false).
    { unfold Aux.overflows. rewrite Ha, He. cbn. apply Z.leb_gt. lia. }
    assert (O2 : Aux.overflows (Scraper.record_success rl) = false).
    { unfold Aux.overflows. cbn. rewrite Ha. cbn. apply Z.leb_gt.
      exact Hs. }
    rewrite !wait_delay_spec, O1, O2, Ha.
    cbn [Scraper.record_success Scraper.adaptive Scraper.consecutive_errors
         Scraper.success_streak Scraper.min_delay Scraper.max_delay].
    rewrite Ha, He. change (0 <? 0)%nat with false. cbv iota.
    eexists. eexists. split; [reflexivity|]. split; [reflexivity|].
    apply py_max_mono_r.
    pose proof (inject_nat_nonneg (Scraper.success_streak rl)) as Hn.
    pose proof (inject_nat_succ (Scraper.success_streak rl)) as Hk.
    set (k := inject_Z (Z.of_nat (Scraper.success_streak rl))) in *.
    set (k' := inject_Z (Z.of_nat (S (Scraper.success_streak rl)))) in *.
    apply Qdiv_antitone; nra.
  - intros He Hs Hlt.
    assert (O1 : Aux.overflows rl = false).
    { unfold Aux.overflows. rewrite Ha, He, Hs. reflexivity. }
    assert (O2 : Aux.overflows (Scraper.record_error rl) = false).
    { rewrite overflows_after_error, Ha, He. reflexivity. }
    rewrite !wait_delay_spec, O1, O2, Ha.
    cbn [Scraper.record_error Scraper.adaptive Scraper.consecutive_errors
         Scraper.min_delay Scraper.max_delay].
    rewrite Ha, He, Hs.
    change (0 <? 1)%nat with true. change (0 <? 0)%nat with false.
    cbv iota. change (inject_Z (2 ^ Z.of_nat 1)) with 2%Q.
    change (inject_Z (Z.of_nat 0)) with 0%Q.
    eexists. eexists. split; [reflexivity|]. split; [reflexivity|].
    assert (E1 : (Scraper.py_max (Scraper.min_delay rl)
                    (Scraper.max_delay rl / (1 + 0 * (1 # 10)))
                  == Scraper.max_delay rl)%Q).
    { assert (Hq : (Scraper.max_delay rl / (1 + 0 * (1 # 10))
                    == Scraper.max_delay rl)%Q) by (field; discriminate).
      unfold Scraper.py_max.
      destruct (Scraper.Qlt_bool _ _) eqn:B;
        rewrite ?Qlt_bool_true, ?Qlt_bool_false in *; [exact Hq|].
      rewrite Hq in B. lra. }
    assert (E2 : (Scraper.py_min (Scraper.min_delay rl * 2)
                    (Scraper.max_delay rl)
                  == 2 * Scraper.min_delay rl)%Q).
    { unfold Scraper.py_min.
      destruct (Scraper.Qlt_bool _ _) eqn:B;
        rewrite ?Qlt_bool_true, ?Qlt_bool_false in *.
      - lra.
      - ring. }
    split; [exact E1|]. split; [exact E2|]. rewrite E1, E2. exact Hlt.
Qed.

Lemma adaptive_delay_regimes_witness :
  (exists d d',
      Scraper.wait_delay (Scraper.new_RateLimiter 1 3 true) 0 = Scraper.Ok d
      /\ Scraper.wait_delay
           (Scraper.record_error (Scraper.new_RateLimiter 1 3 true)) 0
         = Scraper.Ok d'
      /\ (d' < d)%Q)
  /\ Scraper.wait_delay
       (Nat.iter 1024 Scraper.record_error
          (Scraper.new_RateLimiter 1 3 true)) 0
     = Scraper.Raise Scraper.OverflowError.
Proof.
  split.
  - destruct (adaptive_delay_regimes (Scraper.new_RateLimiter 1 3 true) 0)
      as (_ & _ & _ & H).
    + reflexivity.
    + unfold Qle. simpl. lia.
    + unfold Qle. simpl. lia.
    + destruct H as (d & d' & E & E' & _ & _ & L);
        [reflexivity|reflexivity|unfold Qlt; simpl; lia|].
      exists d, d'. split; [exact E|]. split; [exact E'|exact L].
  - destruct (adaptive_delay_regimes
                (Nat.iter 1023 Scraper.record_error
                   (Scraper.new_RateLimiter 1 3 true)) 0)
      as (_ & H & _).
    + vm_compute. reflexivity.
    + vm_compute. discriminate.
    + vm_compute. discriminate.
    + apply H. apply Nat.leb_le. vm_compute. reflexivity.
Defined.

(** ** The pagination loop, page by page *)

Section PaginationPages.

Import PyStr Scraper Aux.

Lemma paginar_spec (site : portal) (limite : Z) :
  forall restantes j atual,
    site (Z.of_nat j) = Some atual ->
    Z.of_nat (j + restantes) = max_paginas ->
    exists k,
      (j <= k <= j + restantes)%nat
      /\ paginar restantes site limite atual (paginas_ate site j)
           (Z.of_nat j)
         = (paginas_ate site k, Z.of_nat k)
      /\ (forall i, (j < i <= k)%nat -> pagina_lida site limite i)
      /\ paginacao_termina site limite k.
Proof.
  induction restantes as [|r IH]; intros j atual Hj Hr.
  - exists j. split; [lia|]. split; [reflexivity|].
    split; [intros i Hi; lia|]. left. rewrite <- Hr. f_equal. lia.
  - cbn [paginar].
    destruct (Z.of_nat (length (paginas_ate site j)) <? limite) eqn:Hlen;
      cbn [negb].
    2:{ exists j. split; [lia|]. split; [reflexivity|].
        split; [intros i Hi; lia|]. right; left.
        apply Z.ltb_ge in Hlen. exact Hlen. }
    apply Z.ltb_lt in Hlen.
    destruct (proxima atual) eqn:Hprox; cbn [negb].
    2:{ exists j. split; [lia|]. split; [reflexivity|].
        split; [intros i Hi; lia|]. right; right; left.
        exists atual. split; assumption. }
    replace (Z.of_nat j + 1) with (Z.of_nat (S j)) by lia.
    destruct (site (Z.of_nat (S j))) as [nova|] eqn:Hnova.
    2:{ exists j. split; [lia|]. split; [reflexivity|].
        split; [intros i Hi; lia|]. right; right; right; left. exact Hnova. }
    destruct (Z.of_nat (length (extraidas nova)) =? 0) eqn:Hvazia.
    { exists j. split; [lia|]. split; [reflexivity|].
      split; [intros i Hi; lia|]. right; right; right; right.
      exists nova. split; [exact Hnova|].
      apply Z.eqb_eq in Hvazia. destruct (extraidas nova); [reflexivity|].
      cbn in Hvazia. lia. }
    assert (Hne : extraidas nova <> []).
    { intros E. rewrite E in Hvazia. discriminate. }
    assert (Hlida : pagina_lida site limite (S j)).
    { exists atual, nova. cbn [pred]. repeat split; assumption. }
    assert (Hpag : paginas_ate site (S j)
                   = paginas_ate site j ++ extraidas nova).
    { cbn [paginas_ate]. rewrite Hnova. reflexivity. }
    rewrite <- Hpag.
    destruct (Z.of_nat (length (paginas_ate site (S j))) >=? limite)
      eqn:Hcheio.
    { exists (S j). split; [lia|]. split; [reflexivity|].
      split.
      - intros i Hi. replace i with (S j) by lia. exact Hlida.
      - right; left. apply Z.geb_le in Hcheio. exact Hcheio. }
    destruct (IH (S j) nova Hnova) as (k & Hk & E & L & T).
    { rewrite <- Hr. f_equal. lia. }
    exists k. split; [lia|]. split; [exact E|]. split; [|exact T].
    intros i Hi. destruct (Nat.eq_dec i (S j)) as [->|Hneq];
      [exact Hlida|apply L; lia].
Qed.

End PaginationPages.

(** X5: the pagination loop of [_buscar_com_selenium] reads the result
    pages in order, from page 1 to some page [k] no greater than 10, and
    what it returns is the patents of these pages, in the order of the
    pages, cut to [limite]; nothing is skipped and nothing is read twice.
    It goes on to a further page only when the limit is not reached, the
    page shown has a next-page control, and the further page loads and
    holds some patent; it stops on page [k] only because [k] is 10, the
    limit is reached, page [k] has no next-page control, or page [k + 1]
    fails to load or is empty.  When the first page cannot be read the
    result is empty. *)
Theorem crawl_reads_pages_in_order (site : Scraper.portal) (limite : Z) :
  (site 1 = None -> Scraper.crawl site limite = ([], 1))
  /\ (forall primeira,
         site 1 = Some primeira ->
         exists k,
           (1 <= k <= 10)%nat
           /\ Scraper.crawl site limite
              = (Scraper.slice_to (Aux.paginas_ate site k) limite,
                 Z.of_nat k)
           /\ (forall i, (1 < i <= k)%nat -> Aux.pagina_lida site limite i)
           /\ Aux.paginacao_termina site limite k).
Proof.
  split.
  - intros H. unfold Scraper.crawl. rewrite H. reflexivity.
  - intros primeira H. unfold Scraper.crawl. rewrite H.
    destruct (paginar_spec site limite 9 1 primeira H eq_refl)
      as (k & Hk & E & L & T).
    assert (H1 : Aux.paginas_ate site 1 = Scraper.extraidas primeira).
    { cbn [Aux.paginas_ate]. change (Z.of_nat 1) with 1. rewrite H.
      reflexivity. }
    rewrite H1 in E. change (Z.of_nat 1) with 1 in E.
    change (Z.to_nat (Scraper.max_paginas - 1)) with 9%nat.
    rewrite E. exists k. split; [lia|]. split; [reflexivity|].
    split; assumption.
Qed.

Lemma crawl_reads_pages_in_order_witness :
  exists k,
    (1 <= k <= 10)%nat
    /\ Scraper.crawl Aux.ten_per_page 95
       = (Scraper.slice_to (Aux.paginas_ate Aux.ten_per_page k) 95,
          Z.of_nat k).
Proof.
  destruct (crawl_reads_pages_in_order Aux.ten_per_page 95) as [_ H].
  destruct (H _ eq_refl) as (k & Hk & E & _ & _).
  exists k. split; assumption.
Defined.

(** ** Validation of the patents found *)

Section Validation.

Import PyStr Scraper.

(** A patent is valid exactly when it has a non-empty publication number
    and a title of five characters or more. *)
Lemma validate_patent_iff (data : patente) :
  validate_patent data = true
  <-> (exists n, publicationNumber data = Some n /\ n <> EmptyString)
      /\ (exists t, title data = Some t
                    /\ (5 <= String.length t)%nat).
Proof.
  unfold validate_patent, present, MIN_TITLE_LENGTH.
  destruct (publicationNumber data) as [n|]; cbn.
  2:{ split; [discriminate|]. intros [(n & E & _) _]. discriminate. }
  destruct n as [|c n]; cbn.
  { split; [discriminate|]. intros [(n & E & K) _].
    injection E as <-. contradiction. }
  destruct (title data) as [t|]; cbn.
  2:{ split; [discriminate|]. intros [_ (t & E & _)]. discriminate. }
  destruct t as [|d t]; cbn.
  { split; [discriminate|]. intros [_ (t & E & K)].
    injection E as <-. cbn in K. lia. }
  destruct (Z.ltb_spec (Z.of_nat (S (String.length t))) 5) as [Hlt|Hge].
  - split; [discriminate|]. intros [_ (t' & E & K)].
    injection E as <-. cbn in K. lia.
  - split; [|reflexivity]. intros _. split.
    + eexists. split; [reflexivity|discriminate].
    + eexists. split; [reflexivity|]. cbn. lia.
Qed.

(** The loop over the patents found keeps the valid ones, in order, and
    stops as soon as the list has reached the limit; the test comes after
    the first valid patent is appended. *)
Lemma validar_firstn (limite : Z) :
  forall patentes resultados,
    validar patentes resultados limite
    = resultados
      ++ firstn (Z.to_nat (Z.max 1 (limite - Z.of_nat (length resultados))))
           (List.filter validate_patent patentes).
Proof.
  induction patentes as [|p rest IH]; intros resultados.
  - cbn. rewrite firstn_nil, app_nil_r. reflexivity.
  - cbn [validar List.filter]. destruct (validate_patent p).
    + rewrite length_app. cbn [length].
      destruct (Z.geb_spec (Z.of_nat (length resultados + 1)) limite)
        as [Hge|Hlt].
      * replace (Z.to_nat (Z.max 1 (limite - Z.of_nat (length resultados))))
          with 1%nat by lia.
        cbn. reflexivity.
      * rewrite IH, length_app. cbn [length].
        replace (Z.to_nat (Z.max 1 (limite - Z.of_nat (length resultados))))
          with (S (Z.to_nat
                     (Z.max 1
                        (limite - Z.of_nat (length resultados + 1)))))
          by lia.
        cbn [firstn]. rewrite <- app_assoc. reflexivity.
    + apply IH.
Qed.

End Validation.

(** X6: [buscar_patentes] returns the valid patents of the crawl, in the
    order of the crawl, up to the limit: the first [max(1, limite)] of
    them, because the limit is tested only after a patent has been
    appended.  Every patent returned has a non-empty publication number
    and a title of at least five characters, and the list has at most
    [max(1, limite)] patents. *)
Theorem buscar_patentes_first_valid (site : Scraper.portal) (limite : Z) :
  Scraper.buscar_patentes site limite
  = firstn (Z.to_nat (Z.max 1 limite))
      (List.filter Scraper.validate_patent
         (Scraper._buscar_com_selenium site limite))
  /\ Forall
       (fun p =>
          (exists n, Scraper.publicationNumber p = Some n
                     /\ n <> EmptyString)
          /\ (exists t, Scraper.title p = Some t
                        /\ (5 <= String.length t)%nat))
       (Scraper.buscar_patentes site limite)
  /\ Z.of_nat (length (Scraper.buscar_patentes site limite))
     <= Z.max 1 limite.
Proof.
  assert (E : Scraper.buscar_patentes site limite
              = firstn (Z.to_nat (Z.max 1 limite))
                  (List.filter Scraper.validate_patent
                     (Scraper._buscar_com_selenium site limite))).
  { unfold Scraper.buscar_patentes. rewrite validar_firstn.
    cbn [length app]. rewrite Z.sub_0_r. reflexivity. }
  split; [exact E|]. rewrite E. split.
  - apply Forall_forall. intros p Hp. apply list_elem_of_In in Hp.
    apply validate_patent_iff.
    assert (Hin : In p (List.filter Scraper.validate_patent
                          (Scraper._buscar_com_selenium site limite))).
    { clear E. revert Hp. generalize (Z.to_nat (Z.max 1 limite)).
      generalize (List.filter Scraper.validate_patent
                    (Scraper._buscar_com_selenium site limite)).
      induction l as [|x l IH]; intros n Hp.
      - rewrite firstn_nil in Hp. destruct Hp.
      - destruct n as [|n]; [destruct Hp|].
        cbn in Hp. destruct Hp as [->|Hp]; [left; reflexivity|].
        right. exact (IH n Hp). }
    apply filter_In in Hin. apply Hin.
  - pose proof (firstn_le_length (Z.to_nat (Z.max 1 limite))
                  (List.filter Scraper.validate_patent
                     (Scraper._buscar_com_selenium site limite))).
    lia.
Qed.

(** ** Deduplication: repeated and on concatenated lists *)

Section DedupStable.

Import PyStr Scraper Completa Aux.

Lemma keep_first_app (l1 l2 : list patente) :
  forall seen,
    keep_first seen (l1 ++ l2)
    = keep_first seen l1
      ++ keep_first (seen ++ map pub_num_of (keep_first seen l1)) l2.
Proof.
  induction l1 as [|p rest IH]; intros seen.
  - cbn. rewrite app_nil_r. reflexivity.
  - cbn [app keep_first].
    destruct (str_truthy (pub_num_of p)
              && negb (existsb (String.eqb (pub_num_of p)) seen)).
    + rewrite IH. cbn [map app]. rewrite <- app_assoc. reflexivity.
    + apply IH.
Qed.

(** A list with distinct non-empty publication numbers, none of them
    seen before, is kept as it is. *)
Lemma keep_first_fixed (l : list patente) :
  forall seen,
    NoDup (map pub_num_of l) ->
    (forall p, In p l ->
               str_truthy (pub_num_of p) = true
               /\ ~ In (pub_num_of p) seen) ->
    keep_first seen l = l.
Proof.
  induction l as [|p rest IH]; intros seen Hn Hp; [reflexivity|].
  cbn [keep_first]. cbn [map] in Hn. apply NoDup_cons in Hn.
  destruct Hn as [Hnotin Hn].
  destruct (Hp p (or_introl eq_refl)) as [Ht Hs]. rewrite Ht.
  destruct (existsb (String.eqb (pub_num_of p)) seen) eqn:E.
  { apply existsb_eqb_In in E. contradiction. }
  cbn. f_equal. apply IH; [exact Hn|].
  intros q Hq. destruct (Hp q (or_intror Hq)) as [Hqt Hqs].
  split; [exact Hqt|]. intros K. apply in_app_or in K.
  destruct K as [K|[K|[]]]; [contradiction|].
  apply Hnotin. apply list_elem_of_In, in_map_iff.
  exists q. split; [symmetry; exact K|exact Hq].
Qed.

(** Every non-empty publication number of a list is carried by one of the
    records kept. *)
Lemma keep_first_covers (l : list patente) (q : patente) :
  In q l -> str_truthy (pub_num_of q) = true ->
  In (pub_num_of q) (map pub_num_of (keep_first [] l)).
Proof.
  intros Hq Ht.
  pose proof (keep_first_first [] l (pub_num_of q) Ht (fun K => K)) as E.
  unfold first_with in E.
  destruct (List.find (fun p => String.eqb (pub_num_of p) (pub_num_of q)) l)
    as [x|] eqn:F.
  - apply find_some in E. destruct E as [Hin Heq].
    apply String.eqb_eq in Heq. apply in_map_iff.
    exists x. split; assumption.
  - pose proof (find_none _ _ F q Hq) as K. cbn in K.
    rewrite String.eqb_refl in K. discriminate.
Qed.

End DedupStable.

(** X7: deduplicating a second time changes nothing; and when a list is
    followed by another one, as when [main] puts the results of one
    country after those of another, the records kept from the first list
    are the same as if it were alone and come first, followed by records
    of the second list, in their order, whose publication number no
    record of the first list carries.  The result is never longer than
    the list. *)
Theorem remove_duplicatas_stable (l1 l2 : list Scraper.patente) :
  Completa.remove_duplicatas (Completa.remove_duplicatas l1)
  = Completa.remove_duplicatas l1
  /\ (exists novos,
         Completa.remove_duplicatas (l1 ++ l2)
         = Completa.remove_duplicatas l1 ++ novos
         /\ sublist novos l2
         /\ forall p q,
              In p novos -> In q l1 ->
              Completa.pub_num_of q <> Completa.pub_num_of p)
  /\ (length (Completa.remove_duplicatas l1) <= length l1)%nat.
Proof.
  rewrite !remove_duplicatas_keep_first. split; [|split].
  - apply keep_first_fixed; [apply keep_first_NoDup|].
    intros p Hp. apply keep_first_keys in Hp.
    destruct Hp as (_ & Ht & _). split; [exact Ht|]. intros [].
  - exists (Aux.keep_first
              ([] ++ map Completa.pub_num_of (Aux.keep_first [] l1)) l2).
    split; [apply keep_first_app|]. split; [apply keep_first_sublist|].
    intros p q Hp Hq E. apply keep_first_keys in Hp.
    destruct Hp as (_ & Ht & Hs). apply Hs. cbn [app].
    rewrite <- E. apply keep_first_covers; [exact Hq|].
    rewrite E. exact Ht.
  - apply sublist_length, keep_first_sublist.
Qed.

(** ** More on strings *)

Section MoreStringFacts.

Import PyStr.

Lemma length_append (s1 s2 : string) :
  String.length (s1 +:+ s2) = (String.length s1 + String.length s2)%nat.
Proof.
  induction s1 as [|c s1 IH]; [reflexivity|].
  change (S (String.length (s1 +:+ s2))
          = S (String.length s1 + String.length s2)).
  f_equal. exact IH.
Qed.

Lemma rstrip_idempotent (s : string) : rstrip (rstrip s) = rstrip s.
Proof.
  induction s as [|c r IH]; [reflexivity|].
  cbn [rstrip]. cbv zeta.
  destruct (is_space c && is_empty (rstrip r)) eqn:E; [reflexivity|].
  cbn [rstrip]. cbv zeta. rewrite IH, E. reflexivity.
Qed.

(** What [lstrip] returns is empty or starts with a character that is not
    a space. *)
Lemma lstrip_head (s : string) :
  lstrip s = EmptyString
  \/ exists c r, lstrip s = String c r /\ is_space c = false.
Proof.
  induction s as [|c r IH]; [left; reflexivity|].
  cbn [lstrip]. destruct (is_space c) eqn:E; [exact IH|].
  right. exists c, r. split; [reflexivity|exact E].
Qed.

Lemma strip_idempotent (s : string) : strip (strip s) = strip s.
Proof.
  unfold strip. destruct (lstrip_head s) as [->|(c & r & -> & Hc)];
    [reflexivity|].
  assert (E : rstrip (String c r) = String c (rstrip r)).
  { cbn [rstrip]. cbv zeta. rewrite Hc. reflexivity. }
  rewrite E. cbn [lstrip]. rewrite Hc. rewrite <- E.
  apply rstrip_idempotent.
Qed.

Lemma lstrip_all_space (s : string) :
  str_forall is_space s = true -> lstrip s = EmptyString.
Proof.
  induction s as [|c r IH]; [reflexivity|].
  cbn. destruct (is_space c); [exact IH|discriminate].
Qed.

Lemma is_space_lower (c : ascii) : is_space (lower_char c) = is_space c.
Proof. destruct c as [[] [] [] [] [] [] [] []]; vm_compute; reflexivity. Qed.

Lemma lt_lower (x : ascii) : Ascii.eqb "<" (lower_char x) = Ascii.eqb "<" x.
Proof. destruct x as [[] [] [] [] [] [] [] []]; vm_compute; reflexivity. Qed.

Lemma gt_lower (x : ascii) : Ascii.eqb ">" (lower_char x) = Ascii.eqb ">" x.
Proof. destruct x as [[] [] [] [] [] [] [] []]; vm_compute; reflexivity. Qed.

Lemma is_empty_lower (s : string) : is_empty (lower s) = is_empty s.
Proof. destruct s; reflexivity. Qed.

Lemma lower_lstrip (s : string) : lower (lstrip s) = lstrip (lower s).
Proof.
  induction s as [|c r IH]; [reflexivity|].
  cbn [lstrip lower]. rewrite is_space_lower.
  destruct (is_space c); [exact IH|reflexivity].
Qed.

Lemma lower_rstrip (s : string) : lower (rstrip s) = rstrip (lower s).
Proof.
  induction s as [|c r IH]; [reflexivity|].
  cbn [rstrip lower]. cbv zeta.
  rewrite is_space_lower, <- IH, is_empty_lower.
  destruct (is_space c && is_empty (rstrip r)); reflexivity.
Qed.

Lemma lower_strip (s : string) : lower (strip s) = strip (lower s).
Proof. unfold strip. rewrite lower_rstrip, lower_lstrip. reflexivity. Qed.

Lemma contains_empty (s : string) : contains EmptyString s = true.
Proof. destruct s; reflexivity. Qed.

Lemma contains_lstrip (d s : string) :
  contains d (lstrip s) = true -> contains d s = true.
Proof.
  induction s as [|c r IH]; [trivial|].
  cbn [lstrip]. destruct (is_space c); [|trivial].
  intros H. cbn [contains]. rewrite (IH H). apply orb_true_r.
Qed.

Lemma prefix_rstrip (s : string) :
  forall d, String.prefix d (rstrip s) = true -> String.prefix d s = true.
Proof.
  induction s as [|c r IH]; intros d; [trivial|].
  destruct d as [|e d]; [reflexivity|].
  cbn [rstrip]. cbv zeta.
  destruct (is_space c && is_empty (rstrip r)); [discriminate|].
  cbn [String.prefix]. destruct (ascii_dec e c); [apply IH|trivial].
Qed.

Lemma contains_rstrip (d s : string) :
  contains d (rstrip s) = true -> contains d s = true.
Proof.
  induction s as [|c r IH]; [trivial|].
  cbn [rstrip]. cbv zeta.
  destruct (is_space c && is_empty (rstrip r)) eqn:E.
  - destruct d as [|e d]; [intros _; apply contains_empty|discriminate].
  - intros H. cbn [contains] in H. apply orb_true_iff in H.
    destruct H as [H|H].
    + assert (K : String.prefix d (rstrip (String c r)) = true).
      { cbn [rstrip]. cbv zeta. rewrite E. exact H. }
      apply prefix_rstrip in K. cbn [contains]. rewrite K. reflexivity.
    + cbn [contains]. rewrite (IH H). apply orb_true_r.
Qed.

(** What is found in the stripped string is found in the string. *)
Lemma contains_strip (d s : string) :
  contains d (strip s) = true -> contains d s = true.
Proof.
  unfold strip. intros H. apply contains_lstrip, contains_rstrip, H.
Qed.

Lemma str_exists_ext (p q : ascii -> bool) (s : string) :
  (forall c, p c = q c) -> str_exists p s = str_exists q s.
Proof.
  intros H. induction s as [|c r IH]; [reflexivity|].
  cbn. rewrite H, IH. reflexivity.
Qed.

Lemma str_exists_lower (p : ascii -> bool) (s : string) :
  str_exists p (lower s) = str_exists (fun c => p (lower_char c)) s.
Proof.
  induction s as [|c r IH]; [reflexivity|]. cbn. rewrite IH. reflexivity.
Qed.

End MoreStringFacts.

(** ** The payload of a successful search *)

Section SearchPayload.

Import PyStr App Aux.

(** The count of results is never negative, and the only exception of
    its extraction is the [ValueError] of [int]. *)
Lemma extract_total_results_cases (doc : document) :
  match extract_total_results doc with
  | Ok z => 0 <= z
  | Raise e => e = ValueError
  end.
Proof.
  rewrite extract_total_results_find.
  destruct (List.find holds_number (count_texts doc)) as [text|];
    [|cbn; lia].
  destruct (total_in_spec text) as [[_ E]|(_ & K)].
  - rewrite E. cbn. lia.
  - destruct (forallb int_fits (findall_numbers text)).
    + destruct K as (z & zs & _ & E & Hz). rewrite E. exact Hz.
    + rewrite K. reflexivity.
Qed.

Lemma error_payload_status (e : exn) (molecule search_type : string)
    (page page_size : Z) :
  error_payload e molecule search_type page page_size !! "status"
  = Some (PStr "error").
Proof. reflexivity. Qed.

(** The URL put on a record that has an identifier. *)
Lemma add_url_detail (r : gmap string pyval) (id : string) :
  r !! "patent_id" = Some (VStr id) ->
  add_url r !! "patent_id" = Some (VStr id)
  /\ add_url r !! "url"
     = Some (VStr (BASE_URL +:+ "/search/en/detail.jsf?docId=" +:+ id)).
Proof.
  intros H. unfold add_url. rewrite H. cbn [interpolate]. split.
  - rewrite lookup_insert_ne by discriminate. exact H.
  - apply lookup_insert_eq.
Qed.

(** Pages of [page_size] results needed for [total] results. *)
Lemma pages_needed (total page_size : Z) :
  0 < page_size -> 0 <= total ->
  let pages := Z.max 1 ((total + page_size - 1) / page_size) in
  1 <= pages
  /\ total <= pages * page_size
  /\ (pages - 1) * page_size < Z.max 1 total.
Proof.
  intros Hp Ht.
  pose proof (Z.mul_div_le (total + page_size - 1) page_size Hp) as H1.
  pose proof (Z.mul_succ_div_gt (total + page_size - 1) page_size Hp) as H2.
  set (q := (total + page_size - 1) / page_size) in *. cbv zeta.
  destruct (Z.max_spec 1 q) as [[Hq ->]|[Hq ->]]; nia.
Qed.

(** The search succeeds once the page is fetched and its total read. *)
Lemma search_succeeds (Selector : string -> document)
    (molecule search_type html : string) (page page_size z : Z)
    (w w1 : world) :
  _fetch_with_retry SEARCH_URL
    (search_params (_build_molecule_query molecule search_type)
       page page_size) 3 w = (Ok html, w1) ->
  extract_total_results (Selector html) = Ok z ->
  page_size <> 0 ->
  exists d,
    search_by_molecule Selector molecule search_type page page_size w
    = (Ok d, w1)
    /\ d !! "status" = Some (PStr "success").
Proof.
  intros Hfetch Hz Hps.
  unfold search_by_molecule, try_except, search_try, bind.
  rewrite Hfetch. unfold lift. rewrite Hz.
  unfold floordiv. destruct (page_size =? 0) eqn:E;
    [apply Z.eqb_eq in E; contradiction|].
  eexists. split; reflexivity.
Qed.

End SearchPayload.

(** X8: when the fetch succeeds and the page size is not zero, the search
    returns the success payload, unless [int] refuses a number of the
    count text: then it returns the error payload of that [ValueError].
    In the success payload the [query] entry echoes the molecule as it
    was given, not the query built from it; the records are those of the
    parser, each with a non-empty identifier and with the URL of the
    detail view of that identifier, so that the fallback to the bare base
    URL is never taken. *)
Theorem search_results_link_to_detail
    (Selector : string -> App.document) (molecule search_type html : string)
    (page page_size : Z) (w w1 : App.world) :
  App._fetch_with_retry App.SEARCH_URL
    (App.search_params (App._build_molecule_query molecule search_type)
       page page_size) 3 w = (App.Ok html, w1) ->
  page_size <> 0 ->
  match App.extract_total_results (Selector html) with
  | App.Ok _ =>
      exists d results,
        App.search_by_molecule Selector molecule search_type page page_size w
        = (App.Ok d, w1)
        /\ d !! "status" = Some (App.PStr "success")
        /\ d !! "query" = Some (App.PStr molecule)
        /\ d !! "results" = Some (App.PResults results)
        /\ results
           = map App.add_url (App.parse_search_results (Selector html))
        /\ forall r,
             In r results ->
             exists id,
               r !! "patent_id" = Some (VStr id)
               /\ PyStr.str_truthy id = true
               /\ r !! "url"
                  = Some (VStr (App.BASE_URL
                                +:+ "/search/en/detail.jsf?docId=" +:+ id))
               /\ r !! "url" <> Some (VStr App.BASE_URL)
  | App.Raise e =>
      e = App.ValueError
      /\ App.search_by_molecule Selector molecule search_type page page_size
           w
         = (App.Ok
              (App.error_payload App.ValueError molecule search_type
                 page page_size), w1)
  end.
Proof.
  intros Hfetch Hps.
  pose proof (extract_total_results_cases (Selector html)) as Hc.
  unfold App.search_by_molecule, App.try_except, App.search_try, App.bind.
  rewrite Hfetch. unfold App.lift.
  destruct (App.extract_total_results (Selector html)) as [z|e];
    [|subst e; split; reflexivity].
  unfold App.floordiv. destruct (page_size =? 0) eqn:E;
    [apply Z.eqb_eq in E; contradiction|].
  eexists. eexists. split; [reflexivity|]. split; [reflexivity|].
  split; [reflexivity|]. split; [reflexivity|]. split; [reflexivity|].
  intros r Hr. apply in_map_iff in Hr. destruct Hr as (r0 & <- & Hr0).
  unfold App.parse_search_results in Hr0.
  apply list_elem_of_In, list_elem_of_filter in Hr0.
  destruct Hr0 as [Hmin Hr0]. apply list_elem_of_In, in_map_iff in Hr0.
  destruct Hr0 as (item & <- & _).
  apply Is_true_true in Hmin.
  destruct (has_minimum_patent_id item Hmin) as (id & Hid & Ht).
  destruct (add_url_detail _ _ Hid) as [H1 H2].
  exists id. split; [exact H1|]. split; [exact Ht|]. split; [exact H2|].
  rewrite H2. intros K. injection K as K.
  apply (f_equal String.length) in K. unfold App.BASE_URL in K.
  rewrite !length_append in K. cbn in K. lia.
Qed.

Lemma search_results_link_to_detail_witness :
  let world := Aux.app_world [Aux.app_response 200 "<html>"] in
  let Selector := fun _ : string => Aux.document_of [Aux.item_number_only] in
  exists d w',
    App.search_by_molecule Selector "aspirin" "exact" 1 10 world
    = (App.Ok d, w')
    /\ d !! "results"
       = Some (App.PResults
                 (map App.add_url
                    (App.parse_search_results
                       (Aux.document_of [Aux.item_number_only])))).
Proof.
  intros world Selector.
  pose proof (search_results_link_to_detail Selector "aspirin" "exact"
                "<html>" 1 10 world
                (snd (App._fetch_with_retry App.SEARCH_URL
                        (App.search_params
                           (App._build_molecule_query "aspirin" "exact")
                           1 10)
                        3 world))
                eq_refl ltac:(discriminate)) as K.
  assert (Ez : App.extract_total_results (Selector "<html>") = App.Ok 0)
    by reflexivity.
  rewrite Ez in K. destruct K as (d & results & E & _ & _ & R & -> & _).
  exists d. eexists. split; [exact E|exact R].
Defined.

(** X9: the page arithmetic of a successful search with a positive page
    size.  A search that returns the success payload has fetched a page;
    the total is never negative, and positive when the page holds a
    record; the number of pages is the least number of pages of
    [page_size] results that hold the total, and at least one; there is a
    next page exactly when the page asked for is before the last one, a
    previous page exactly when it is after the first, and the numbers of
    these pages are given only then. *)
Theorem search_pagination_arithmetic
    (Selector : string -> App.document) (molecule search_type : string)
    (page page_size : Z) (w w1 : App.world) (d : gmap string App.payval) :
  App.search_by_molecule Selector molecule search_type page page_size w
  = (App.Ok d, w1) ->
  d !! "status" = Some (App.PStr "success") ->
  0 < page_size ->
  exists html total pages,
    App._fetch_with_retry App.SEARCH_URL
      (App.search_params (App._build_molecule_query molecule search_type)
         page page_size) 3 w = (App.Ok html, w1)
    /\ d !! "total_results" = Some (App.PInt total)
    /\ d !! "total_pages" = Some (App.PInt pages)
    /\ 0 <= total
    /\ (App.parse_search_results (Selector html) <> [] -> 0 < total)
    /\ 1 <= pages
    /\ total <= pages * page_size
    /\ (pages - 1) * page_size < Z.max 1 total
    /\ d !! "has_next" = Some (App.PBool (page <? pages))
    /\ d !! "next_page"
       = Some (if page <? pages then App.PInt (page + 1) else App.PNone)
    /\ d !! "has_previous" = Some (App.PBool (1 <? page))
    /\ d !! "previous_page"
       = Some (if 1 <? page then App.PInt (page - 1) else App.PNone)
    /\ d !! "page" = Some (App.PInt page)
    /\ d !! "page_size" = Some (App.PInt page_size).
Proof.
  intros Hs Hst Hps.
  unfold App.search_by_molecule, App.try_except, App.search_try, App.bind
    in Hs.
  destruct (App._fetch_with_retry App.SEARCH_URL _ 3 w) as [[html|e] w2];
    [|injection Hs as <- <-; rewrite error_payload_status in Hst;
      discriminate].
  unfold App.lift in Hs.
  pose proof (extract_total_results_cases (Selector html)) as Hz.
  destruct (App.extract_total_results (Selector html)) as [z|e];
    [|injection Hs as <- <-; rewrite error_payload_status in Hst;
      discriminate].
  unfold App.floordiv in Hs. destruct (page_size =? 0) eqn:E;
    [apply Z.eqb_eq in E; lia|].
  injection Hs as <- <-. clear Hst.
  remember (App.parse_search_results (Selector html)) as results
    eqn:Hresults.
  set (total := if (z =? 0) && negb (bool_decide (results = []))
                then Z.of_nat (length results) else z).
  assert (Ht : 0 <= total).
  { unfold total. destruct ((z =? 0) && negb (bool_decide (results = [])));
      lia. }
  assert (Hpos : results <> [] -> 0 < total).
  { intros Hne. unfold total. destruct (Z.eqb_spec z 0) as [->|Hnz]; cbn.
    - rewrite bool_decide_eq_false_2 by exact Hne. cbn [negb].
      destruct results; [contradiction|].
      cbn [length]. lia.
    - lia. }
  destruct (pages_needed total page_size Hps Ht) as (P1 & P2 & P3).
  exists html, total. eexists.
  split; [reflexivity|]. split; [reflexivity|]. split; [reflexivity|].
  split; [exact Ht|].
  split; [intros Hne; apply Hpos; rewrite Hresults; exact Hne|].
  split; [exact P1|].
  split; [exact P2|]. split; [exact P3|].
  repeat split; reflexivity.
Qed.

Lemma search_pagination_arithmetic_witness :
  let world := Aux.app_world [Aux.app_response 200 "<html>"] in
  let Selector := fun _ : string => Aux.document_of [Aux.item_number_only] in
  exists d w' total pages,
    App.search_by_molecule Selector "aspirin" "exact" 1 10 world
    = (App.Ok d, w')
    /\ d !! "total_results" = Some (App.PInt total)
    /\ d !! "total_pages" = Some (App.PInt pages)
    /\ 0 < total <= pages * 10.
Proof.
  intros world Selector.
  destruct (search_succeeds Selector "aspirin" "exact" "<html>" 1 10 0
              world
              (snd (App._fetch_with_retry App.SEARCH_URL
                      (App.search_params
                         (App._build_molecule_query "aspirin" "exact") 1 10)
                      3 world)))
    as (d & E & Hst); [reflexivity|reflexivity|discriminate|].
  destruct (search_pagination_arithmetic Selector "aspirin" "exact"
              1 10 world _ d E Hst ltac:(lia))
    as (html & total & pages & _ & T & P & _ & Hpos & _ & Hle & _).
  exists d. eexists. exists total, pages.
  split; [exact E|]. split; [exact T|]. split; [exact P|].
  split; [|exact Hle]. apply Hpos. discriminate.
Defined.

(** X10: the query builder does not see the whitespace around its input:
    stripping the input beforehand changes neither the kind it detects
    nor the query it builds.  An input that is empty or made of
    whitespace only is not rejected: it counts as a formula and gives the
    query on the abstract field with an empty quoted string. *)
Theorem query_ignores_outer_whitespace (molecule search_type : string) :
  App.classify (PyStr.strip molecule) = App.classify molecule
  /\ App._build_molecule_query (PyStr.strip molecule) search_type
     = App._build_molecule_query molecule search_type
  /\ (PyStr.str_forall PyStr.is_space molecule = true ->
      App.classify molecule = App.Formula
      /\ App._build_molecule_query molecule search_type
         = "EN_AB:(" +:+ App.quoted "" +:+ ")").
Proof.
  split; [|split].
  - unfold App.classify. rewrite strip_idempotent. reflexivity.
  - unfold App._build_molecule_query. rewrite strip_idempotent. reflexivity.
  - intros H. unfold App.classify, App._build_molecule_query, PyStr.strip.
    rewrite (lstrip_all_space _ H). split; reflexivity.
Qed.

Lemma query_ignores_outer_whitespace_witness :
  App._build_molecule_query "   " "exact"
  = "EN_AB:(" +:+ App.quoted "" +:+ ")".
Proof.
  destruct (query_ignores_outer_whitespace "   " "exact") as (_ & _ & H).
  destruct (H eq_refl) as [_ E]. exact E.
Defined.

(** ** The request model *)

Section RequestModel.

Import PyStr Models.

(** None of the dangerous words is found in the lower-case form of the
    stripped value when none is found in that of the value. *)
Lemma dangerous_strip (v : string) :
  existsb (fun d => contains d (lower v)) dangerous = false ->
  existsb (fun d => contains d (lower (strip v))) dangerous = false.
Proof.
  intros H. apply not_true_is_false. intros K.
  apply existsb_exists in K. destruct K as (d & Hd & K).
  rewrite lower_strip in K. apply contains_strip in K.
  assert (E : existsb (fun d => contains d (lower v)) dangerous = true).
  { apply existsb_exists. exists d. split; assumption. }
  congruence.
Qed.

Lemma validate_molecule_ok (v m : string) :
  validate_molecule v = Ok m ->
  m = strip v
  /\ is_empty (strip v) = false
  /\ existsb (fun d => contains d (lower v)) dangerous = false.
Proof.
  unfold validate_molecule.
  destruct (negb (str_truthy v) || is_empty (strip v)) eqn:E1;
    [discriminate|].
  destruct (existsb (fun d => contains d (lower v)) dangerous) eqn:E2;
    [discriminate|].
  intros H. injection H as <-. apply orb_false_iff in E1.
  split; [reflexivity|]. split; [apply E1|reflexivity].
Qed.

End RequestModel.

(** X11: the validator of the molecule rejects a value that is empty or
    made of whitespace only, and what it accepts it returns stripped: the
    accepted value is not empty, has no whitespace at either end, holds
    neither [<] nor [>], and does not hold the word [script] in any
    letter case; validating it again returns it unchanged. *)
Theorem validate_molecule_accepts (v : string) :
  (PyStr.str_forall PyStr.is_space v = true ->
   Models.validate_molecule v = Models.Raise Models.MoleculaVazia)
  /\ (forall m,
         Models.validate_molecule v = Models.Ok m ->
         m = PyStr.strip v
         /\ m <> EmptyString
         /\ PyStr.strip m = m
         /\ PyStr.contains "<" m = false
         /\ PyStr.contains ">" m = false
         /\ PyStr.contains "script" (PyStr.lower m) = false
         /\ Models.validate_molecule m = Models.Ok m).
Proof.
  split.
  - intros H. unfold Models.validate_molecule, PyStr.strip.
    rewrite (lstrip_all_space _ H). cbn. rewrite orb_true_r. reflexivity.
  - intros m H. apply validate_molecule_ok in H.
    destruct H as (-> & Hne & Hd).
    pose proof (dangerous_strip v Hd) as Hd'.
    assert (Hd2 := Hd'). cbn [existsb Models.dangerous] in Hd2.
    apply orb_false_iff in Hd2. destruct Hd2 as [Hlt Hd2].
    apply orb_false_iff in Hd2. destruct Hd2 as [Hgt Hd2].
    apply orb_false_iff in Hd2. destruct Hd2 as [Hscript _].
    split; [reflexivity|]. split.
    { intros E. rewrite E in Hne. discriminate. }
    split; [apply strip_idempotent|]. split.
    { rewrite contains_single in Hlt |- *.
      rewrite str_exists_lower in Hlt.
      rewrite (str_exists_ext _ (Ascii.eqb "<") _ lt_lower) in Hlt.
      exact Hlt. }
    split.
    { rewrite contains_single in Hgt |- *.
      rewrite str_exists_lower in Hgt.
      rewrite (str_exists_ext _ (Ascii.eqb ">") _ gt_lower) in Hgt.
      exact Hgt. }
    split; [exact Hscript|].
    unfold Models.validate_molecule. rewrite strip_idempotent, Hne, Hd'.
    assert (Ht : PyStr.str_truthy (PyStr.strip v) = true).
    { unfold PyStr.str_truthy. rewrite Hne. reflexivity. }
    rewrite Ht. reflexivity.
Qed.

Lemma validate_molecule_accepts_witness :
  Models.validate_molecule " C6H12O6 " = Models.Ok "C6H12O6"
  /\ Models.validate_molecule "C6H12O6" = Models.Ok "C6H12O6"
  /\ Models.validate_molecule "  " = Models.Raise Models.MoleculaVazia.
Proof.
  destruct (validate_molecule_accepts " C6H12O6 ") as [_ H].
  destruct (H "C6H12O6" eq_refl) as (_ & _ & _ & _ & _ & _ & E).
  destruct (validate_molecule_accepts "  ") as [K _].
  split; [reflexivity|]. split; [exact E|]. apply K. reflexivity.
Defined.

(** X12: a request that the model accepts carries the stripped molecule,
    a page between 1 and 1000 and a page size between 1 and 100.  On such
    a molecule the query builder's own stripping changes nothing, so the
    kind is decided on the molecule as the request holds it: a molecule
    outside the formula alphabet and without any of [@], [/], [\] is a
    name and gives the unquoted query on all fields.  And a search with
    the values of the request can only fail in the fetch or, once the
    page is fetched, in [int] on a number of the count text that has too
    many digits: the page arithmetic never raises. *)
Theorem accepted_request_is_safe
    (molecule search_type : string) (page page_size : Z)
    (req : Models.MoleculeSearchRequest) :
  Models.new_MoleculeSearchRequest molecule search_type page page_size
  = Some req ->
  let m := Models.molecule req in
  m = PyStr.strip molecule
  /\ Models.search_type req = search_type
  /\ Models.page req = page /\ 1 <= page <= 1000
  /\ Models.page_size req = page_size /\ 1 <= page_size <= 100
  /\ App.classify m = App.detect_kind m
  /\ (App.formula_only m = false ->
      App.has_smiles_mark m = false ->
      App.classify m = App.Name
      /\ App._build_molecule_query m search_type = "EN_ALL:(" +:+ m +:+ ")")
  /\ (forall (Selector : string -> App.document) (w w' : App.world)
             (e : App.exn),
         App.search_try Selector m search_type page page_size
           (App.search_params (App._build_molecule_query m search_type)
              page page_size) w = (App.Raise e, w') ->
         App._fetch_with_retry App.SEARCH_URL
           (App.search_params (App._build_molecule_query m search_type)
              page page_size) 3 w = (App.Raise e, w')
         \/ (e = App.ValueError
             /\ exists html,
                  App._fetch_with_retry App.SEARCH_URL
                    (App.search_params
                       (App._build_molecule_query m search_type)
                       page page_size) 3 w = (App.Ok html, w')
                  /\ App.extract_total_results (Selector html)
                     = App.Raise App.ValueError)).
Proof.
  unfold Models.new_MoleculeSearchRequest. intros H.
  destruct ((2 <=? Z.of_nat (String.length molecule))
            && (Z.of_nat (String.length molecule) <=? 500)
            && (1 <=? page) && (page <=? 1000)
            && (1 <=? page_size) && (page_size <=? 100)) eqn:B;
    [|discriminate].
  destruct (Models.validate_molecule molecule) as [m0|e0] eqn:V;
    [|discriminate].
  injection H as <-. cbv zeta.
  cbn [Models.molecule Models.search_type Models.page Models.page_size].
  repeat (apply andb_true_iff in B; destruct B as [B ?]).
  destruct (validate_molecule_ok molecule m0 V) as (E & _ & _).
  assert (Hs : PyStr.strip m0 = m0).
  { rewrite E. apply strip_idempotent. }
  split; [exact E|]. split; [reflexivity|]. split; [reflexivity|].
  split; [lia|]. split; [reflexivity|]. split; [lia|].
  assert (Hc : App.classify m0 = App.detect_kind m0).
  { unfold App.classify. rewrite Hs. reflexivity. }
  split; [exact Hc|]. split.
  - intros Hf Hm.
    assert (Hn : App.classify m0 = App.Name).
    { rewrite Hc. unfold App.detect_kind. rewrite Hf, Hm. reflexivity. }
    split; [exact Hn|]. rewrite (build_query_name _ _ Hn), Hs. reflexivity.
  - intros Selector w w' e Ht.
    unfold App.search_try, App.bind in Ht.
    destruct (App._fetch_with_retry App.SEARCH_URL _ 3 w) as [[html|e1] w1];
      [|injection Ht as -> ->; left; reflexivity].
    unfold App.lift in Ht.
    pose proof (extract_total_results_cases (Selector html)) as Hz.
    destruct (App.extract_total_results (Selector html)) as [z|e2] eqn:Ez.
    + exfalso. unfold App.floordiv in Ht.
      destruct (page_size =? 0) eqn:Ep; [apply Z.eqb_eq in Ep; lia|].
      discriminate.
    + injection Ht as <- <-. subst e2. right. split; [reflexivity|].
      exists html. split; [reflexivity|exact Ez].
Qed.

Lemma accepted_request_is_safe_witness :
  exists req,
    Models.new_MoleculeSearchRequest " aspirin " "exact" 1 10 = Some req
    /\ Models.molecule req = "aspirin"
    /\ App._build_molecule_query (Models.molecule req) "exact"
       = "EN_ALL:(aspirin)".
Proof.
  eexists. split; [reflexivity|].
  destruct (accepted_request_is_safe " aspirin " "exact" 1 10 _ eq_refl)
    as (E & _ & _ & _ & _ & _ & _ & N & _).
  split; [exact E|]. destruct (N eq_refl eq_refl) as [_ Q]. exact Q.
Defined.

(** ** The query of the search form *)

Section QueryForm.

Import PyStr Scraper.

Lemma append_empty_r (s : string) : s +:+ EmptyString = s.
Proof.
  induction s as [|c s IH]; [reflexivity|].
  change (String c (s +:+ EmptyString) = String c s). f_equal. exact IH.
Qed.

Lemma append_assoc (s1 s2 s3 : string) :
  (s1 +:+ s2) +:+ s3 = s1 +:+ (s2 +:+ s3).
Proof.
  induction s1 as [|c s1 IH]; [reflexivity|].
  change (String c ((s1 +:+ s2) +:+ s3) = String c (s1 +:+ (s2 +:+ s3))).
  f_equal. exact IH.
Qed.

Lemma dict_get_absent (d : list (string * string)) (k default : string) :
  (forall v, ~ In (k, v) d) -> dict_get d k default = default.
Proof.
  induction d as [|[k' v'] d IH]; intros H; [reflexivity|].
  cbn [dict_get]. destruct (String.eqb_spec k' k) as [->|Hne].
  - exfalso. apply (H v'). left. reflexivity.
  - apply IH. intros v Hv. apply (H v). right. exact Hv.
Qed.

(** Every field of the table other than [all] has a code of its own,
    which is the one [dict_get] finds. *)
Lemma search_field_code (campo code : string) :
  In (campo, code) SEARCH_FIELDS -> campo <> "all" ->
  dict_get SEARCH_FIELDS campo "FP" = code
  /\ String.eqb campo "all" = false /\ String.eqb code "FP" = false.
Proof.
  intros H Hne. cbn in H.
  repeat (destruct H as [H|H];
          [injection H as <- <-;
           first [contradiction Hne; reflexivity
                 |repeat split; reflexivity]|]).
  destruct H.
Qed.

End QueryForm.

(** X13: the query of the search form.  The search term goes in as it is
    for the field [all] and for a field that the table does not know, and
    between the parentheses of [code:(...)] for every other field of the
    table; the term is not escaped.  The country filter and the date
    filter are appended only when they are given and not empty; the end
    date is read only when a start date is given, and a start date
    without an end date gives a range that is open at the end. *)
Theorem construir_query_shape
    (termo_busca campo : string) (pais data_inicio data_fim : option string) :
  let base := Scraper.construir_query termo_busca campo None None None in
  ((campo = "all" \/ forall code, ~ In (campo, code) Scraper.SEARCH_FIELDS) ->
   base = termo_busca)
  /\ (forall code,
         In (campo, code) Scraper.SEARCH_FIELDS -> campo <> "all" ->
         base = code +:+ ":(" +:+ termo_busca +:+ ")")
  /\ Scraper.construir_query termo_busca campo pais data_inicio data_fim
     = base
       +:+ (if Scraper.present pais
            then " AND PC:" +:+ Scraper.valor pais else "")
       +:+ (if Scraper.present data_inicio
            then " AND PD:[" +:+ Scraper.valor data_inicio +:+ " TO "
                 +:+ (if Scraper.present data_fim
                      then Scraper.valor data_fim else "*")
                 +:+ "]"
            else "")
  /\ Scraper.construir_query termo_busca campo pais None data_fim
     = Scraper.construir_query termo_busca campo pais None None
  /\ Scraper.construir_query termo_busca campo (Some "") data_inicio data_fim
     = Scraper.construir_query termo_busca campo None data_inicio data_fim.
Proof.
  cbv zeta. split; [|split; [|split; [|split]]].
  - intros [->|H]; [reflexivity|].
    unfold Scraper.construir_query. cbn [Scraper.present].
    rewrite (dict_get_absent _ _ _ H). cbn [String.eqb].
    rewrite orb_true_r. reflexivity.
  - intros code H Hne.
    destruct (search_field_code campo code H Hne) as (E1 & E2 & E3).
    unfold Scraper.construir_query. cbn [Scraper.present].
    rewrite E1, E2, E3. reflexivity.
  - unfold Scraper.construir_query. cbn [Scraper.present].
    set (base := if String.eqb campo "all"
                    || String.eqb
                         (Scraper.dict_get Scraper.SEARCH_FIELDS campo "FP")
                         "FP"
                 then termo_busca
                 else Scraper.dict_get Scraper.SEARCH_FIELDS campo "FP"
                      +:+ ":(" +:+ termo_busca +:+ ")").
    destruct (Scraper.present pais), (Scraper.present data_inicio),
      (Scraper.present data_fim);
      rewrite ?append_assoc, ?append_empty_r; reflexivity.
  - reflexivity.
  - reflexivity.
Qed.

Lemma construir_query_shape_witness :
  Scraper.construir_query "semaglutide" "title" (Some "BR")
    (Some "2020-01-01") None
  = "TI:(semaglutide) AND PC:BR AND PD:[2020-01-01 TO *]"
  /\ Scraper.construir_query "semaglutide" "titulo" None None
       (Some "2020-12-31")
     = "semaglutide".
Proof.
  destruct (construir_query_shape "semaglutide" "title" (Some "BR")
              (Some "2020-01-01") None) as (_ & H & E & _).
  destruct (construir_query_shape "semaglutide" "titulo" None None
              (Some "2020-12-31")) as (K & _ & _ & D & _).
  split.
  - rewrite E, (H "TI"); [reflexivity| |discriminate].
    cbn. right; left. reflexivity.
  - rewrite D. apply K. right. intros code Hin. cbn in Hin.
    repeat (destruct Hin as [Hin|Hin]; [discriminate|]). destruct Hin.
Defined.

(** ** Incremental saving *)

Section Saver.

Import PyStr Scraper Aux.










End Saver.





(** ** Demonstration data *)

Section DemoData.

Import PyStr Scraper.

Lemma str_truthy_append_r (a b : string) :
  str_truthy b = true -> a +:+ b <> EmptyString.
Proof.
  intros H E. apply (f_equal String.length) in E.
  rewrite length_append in E. destruct b; [discriminate|]. cbn in E. lia.
Qed.

(** The letters of [ABCDEFGH] are found up to the index 7 only. *)
Lemma letter_index (i : nat) :
  ((i < 8)%nat -> exists c, String.get i "ABCDEFGH" = Some c)
  /\ ((8 <= i)%nat -> String.get i "ABCDEFGH" = None).
Proof.
  do 8 (destruct i as [|i]; [split; [intros _; eexists; reflexivity|lia]|]).
  split; [lia|]. intros _. reflexivity.
Qed.

Lemma g_bind_ok {A B} (m : G A) (k : A -> G B) (g g' : acaso) (a : A) :
  m g = (Ok a, g') -> g_bind m k g = k a g'.
Proof. intros H. unfold g_bind. rewrite H. reflexivity. Qed.

Lemma g_bind_raise {A B} (m : G A) (k : A -> G B) (g g' : acaso) (e : exn) :
  m g = (Raise e, g') -> g_bind m k g = (Raise e, g').
Proof. intros H. unfold g_bind. rewrite H. reflexivity. Qed.

Lemma randint_ok (a b : Z) (g : acaso) :
  exists x g', random_randint a b g = (Ok x, g').
Proof. eexists. eexists. reflexivity. Qed.

Lemma choice_ok (seq : list string) (g : acaso) :
  exists x g', random_choice seq g = (Ok x, g').
Proof. eexists. eexists. reflexivity. Qed.

Lemma now_ok (g : acaso) : exists x g', now_isoformat g = (Ok x, g').
Proof. eexists. eexists. reflexivity. Qed.

Lemma str_index_ok (s : string) (i : nat) (c : ascii) (g : acaso) :
  String.get i s = Some c -> str_index s i g = (Ok (String c EmptyString), g).
Proof. intros H. unfold str_index. rewrite H. reflexivity. Qed.

Lemma str_index_raise (s : string) (i : nat) (g : acaso) :
  String.get i s = None -> str_index s i g = (Raise index_error, g).
Proof. intros H. unfold str_index. rewrite H. reflexivity. Qed.

(** One step of the generator whose outcome does not matter. *)
Ltac draw :=
  match goal with
  | |- context [g_bind (random_randint ?a ?b) ?k ?g] =>
      let x := fresh "x" in
      let g1 := fresh "g" in
      let E := fresh "E" in
      destruct (randint_ok a b g) as (x & g1 & E);
      rewrite (g_bind_ok _ k _ _ _ E); clear E; cbv beta
  | |- context [g_bind (random_choice ?l) ?k ?g] =>
      let x := fresh "x" in
      let g1 := fresh "g" in
      let E := fresh "E" in
      destruct (choice_ok l g) as (x & g1 & E);
      rewrite (g_bind_ok _ k _ _ _ E); clear E; cbv beta
  | |- context [g_bind now_isoformat ?k ?g] =>
      let x := fresh "x" in
      let g1 := fresh "g" in
      let E := fresh "E" in
      destruct (now_ok g) as (x & g1 & E);
      rewrite (g_bind_ok _ k _ _ _ E); clear E; cbv beta
  end.

(** One record of demonstration data: it is built for an index below 8,
    and it is a valid patent; from the index 8 on the letter of the
    inventors' names is out of range. *)
Lemma demo_patente_built (termo_busca campo pais_filtro : string) (i : nat)
    (g : acaso) :
  (i < 8)%nat ->
  match demo_patente termo_busca campo pais_filtro i g with
  | (Ok p, _) =>
      validate_patent p = true
      /\ title p
         = Some (termo_busca
                 +:+ " pharmaceutical composition and methods of use")
  | (Raise _, _) => False
  end.
Proof.
  intros Hi. destruct (letter_index i) as [Hlt _].
  destruct (Hlt Hi) as (c & Ec).
  unfold demo_patente. do 6 draw.
  rewrite (g_bind_ok _ _ _ _ _ (str_index_ok _ _ _ _ Ec)). cbv beta.
  rewrite (g_bind_ok _ _ _ _ _ (str_index_ok _ _ _ _ Ec)). cbv beta.
  do 4 draw. unfold g_ret. split; [|reflexivity].
  apply validate_patent_iff. unfold demo_registro.
  cbn [publicationNumber title]. split.
  - eexists. split; [reflexivity|].
    rewrite <- !append_assoc. apply str_truthy_append_r. reflexivity.
  - eexists. split; [reflexivity|].
    rewrite length_append. cbn [String.length]. lia.
Qed.

Lemma demo_patente_out_of_range (termo_busca campo pais_filtro : string)
    (i : nat) (g : acaso) :
  (8 <= i)%nat ->
  match demo_patente termo_busca campo pais_filtro i g with
  | (Ok _, _) => False
  | (Raise e, _) => e = index_error
  end.
Proof.
  intros Hi. destruct (letter_index i) as [_ Hge].
  unfold demo_patente. do 6 draw.
  rewrite (g_bind_raise _ _ _ _ _ (str_index_raise _ _ _ (Hge Hi))).
  reflexivity.
Qed.

Lemma demo_patente_spec (termo_busca campo pais_filtro : string) (i : nat)
    (g : acaso) :
  ((i < 8)%nat ->
   exists p g',
     demo_patente termo_busca campo pais_filtro i g = (Ok p, g')
     /\ validate_patent p = true
     /\ title p
        = Some (termo_busca
                +:+ " pharmaceutical composition and methods of use"))
  /\ ((8 <= i)%nat ->
      exists g',
        demo_patente termo_busca campo pais_filtro i g
        = (Raise index_error, g')).
Proof.
  split; intros Hi.
  - pose proof (demo_patente_built termo_busca campo pais_filtro i g Hi)
      as H.
    destruct (demo_patente termo_busca campo pais_filtro i g)
      as [[p|e] g']; [|contradiction].
    exists p, g'. split; [reflexivity|exact H].
  - pose proof (demo_patente_out_of_range termo_busca campo pais_filtro i g
                  Hi) as H.
    destruct (demo_patente termo_busca campo pais_filtro i g)
      as [[p|e] g']; [contradiction|].
    exists g'. rewrite H. reflexivity.
Qed.

(** The loop of the generator from the index [i] on. *)
Lemma demo_patentes_spec (termo_busca campo pais_filtro : string) :
  forall pending i acc g,
    ((i + pending <= 8)%nat ->
     exists l g',
       demo_patentes pending i termo_busca campo pais_filtro acc g
       = (Ok (acc ++ l), g')
       /\ length l = pending
       /\ Forall (fun p => validate_patent p = true) l)
    /\ ((i <= 8 < i + pending)%nat ->
        exists g',
          demo_patentes pending i termo_busca campo pais_filtro acc g
          = (Raise index_error, g')).
Proof.
  induction pending as [|k IH]; intros i acc g.
  - split; [|lia]. intros _. exists [], g. rewrite app_nil_r.
    split; [reflexivity|]. split; [reflexivity|constructor].
  - cbn [demo_patentes]. unfold g_bind.
    destruct (demo_patente_spec termo_busca campo pais_filtro i g)
      as [Hok Hbad].
    split.
    + intros Hi. destruct (Hok ltac:(lia)) as (p & g1 & E & V & _).
      rewrite E.
      destruct (IH (S i) (acc ++ [p]) g1) as [IHok _].
      destruct (IHok ltac:(lia)) as (l & g2 & E2 & L & F).
      exists (p :: l), g2. rewrite E2, <- app_assoc.
      split; [reflexivity|]. split; [cbn; lia|].
      constructor; assumption.
    + intros Hi. destruct (Nat.eq_dec i 8%nat) as [->|Hne].
      * destruct (Hbad ltac:(lia)) as (g1 & E). rewrite E.
        exists g1. reflexivity.
      * destruct (Hok ltac:(lia)) as (p & g1 & E & _). rewrite E.
        destruct (IH (S i) (acc ++ [p]) g1) as [_ IHbad].
        apply IHbad. lia.
Qed.

(** The choice of the country leaves a state to go on from. *)
Lemma demo_pais (pais : option string) (g : acaso) :
  exists pais_filtro g',
    (if present pais then g_ret (valor pais)
     else random_choice paises_disponiveis) g = (Ok pais_filtro, g').
Proof.
  destruct (present pais); eexists; eexists; reflexivity.
Qed.

Lemma gerar_dados_spec (termo_busca campo : string) (pais : option string)
    (limite : Z) (g : acaso) :
  (limite <= 8 ->
   exists l g',
     _gerar_dados_demonstracao termo_busca limite campo pais g = (Ok l, g')
     /\ length l = Z.to_nat limite
     /\ Forall (fun p => validate_patent p = true) l)
  /\ (9 <= limite ->
      exists g',
        _gerar_dados_demonstracao termo_busca limite campo pais g
        = (Raise index_error, g')).
Proof.
  unfold _gerar_dados_demonstracao, g_bind.
  destruct (demo_pais pais g) as (pais_filtro & g1 & E). rewrite E.
  destruct (demo_patentes_spec termo_busca campo pais_filtro
              (Z.to_nat (Z.min limite 10)) O [] g1) as [Hok Hbad].
  split.
  - intros Hl. destruct (Hok ltac:(lia)) as (l & g2 & E2 & L & F).
    exists l, g2. split; [exact E2|]. split; [lia|exact F].
  - intros Hl. apply Hbad. lia.
Qed.

End DemoData.

(** X16: the demonstration mode of [buscar_patentes].  For a limit of at
    most 8 the generator builds [limite] records (none for a limit that
    is not positive), all of them valid patents, and the search returns
    them all.  For a limit of 9 or more the generator raises on its ninth
    record, whose index is out of the string of letters used for the
    names of the inventors; the search catches the exception and returns
    no patent at all. *)
Theorem demo_mode_fails_from_nine
    (termo_busca campo : string) (pais : option string) (limite : Z)
    (g : Scraper.acaso) :
  (limite <= 8 ->
   exists l g',
     Scraper._gerar_dados_demonstracao termo_busca limite campo pais g
     = (Scraper.Ok l, g')
     /\ length l = Z.to_nat limite
     /\ Forall (fun p => Scraper.validate_patent p = true) l
     /\ Scraper.buscar_patentes_demo termo_busca campo pais limite g
        = (l, g'))
  /\ (9 <= limite ->
      exists g',
        Scraper._gerar_dados_demonstracao termo_busca limite campo pais g
        = (Scraper.Raise Scraper.index_error, g')
        /\ Scraper.buscar_patentes_demo termo_busca campo pais limite g
           = ([], g')).
Proof.
  destruct (gerar_dados_spec termo_busca campo pais limite g) as [Hok Hbad].
  split.
  - intros Hl. destruct (Hok Hl) as (l & g' & E & L & F).
    exists l, g'. split; [exact E|]. split; [exact L|]. split; [exact F|].
    unfold Scraper.buscar_patentes_demo. rewrite E. f_equal.
    destruct l as [|p l]; [reflexivity|].
    apply (validar_all_valid (p :: l) [] limite F).
    cbn [length] in *. lia.
  - intros Hl. destruct (Hbad Hl) as (g' & E).
    exists g'. split; [exact E|].
    unfold Scraper.buscar_patentes_demo. rewrite E. reflexivity.
Qed.

Lemma demo_mode_fails_from_nine_witness :
  let g := {| Scraper.sorteios := fun n => Z.of_nat n;
              Scraper.sorteados := O;
              Scraper.instantes := fun _ => "2024-01-01T00:00:00";
              Scraper.lidos := O |} in
  length (fst (Scraper.buscar_patentes_demo "semaglutide" "all" None 8 g))
  = 8%nat
  /\ fst (Scraper.buscar_patentes_demo "semaglutide" "all" None 10 g) = [].
Proof.
  intros g.
  destruct (demo_mode_fails_from_nine "semaglutide" "all" None 8 g)
    as [H8 _].
  destruct (demo_mode_fails_from_nine "semaglutide" "all" None 10 g)
    as [_ H10].
  destruct (H8 ltac:(lia)) as (l & g8 & _ & L & _ & E8).
  destruct (H10 ltac:(lia)) as (g10 & _ & E10).
  rewrite E8, E10. split; [exact L|reflexivity].
Defined.

(** ** [obter_detalhes_patente]: the page of details of one patent *)

Section DetailsPage.

Import Scraper.

Lemma prefix_to_length (n : nat) (s : string) :
  (String.length (PyStr.prefix_to n s) <= n)%nat.
Proof.
  unfold PyStr.prefix_to. revert s.
  induction n as [|k IH]; intros [|c s]; cbn; try lia.
  specialize (IH s). lia.
Qed.

Lemma set_if_found_other (key other : string) (found : option string)
    (detalhes : gmap string pyval) :
  key <> other ->
  set_if_found key found detalhes !! other = detalhes !! other.
Proof.
  intros H. destruct found as [t|]; cbn [set_if_found]; [|reflexivity].
  apply lookup_insert_ne. exact H.
Qed.

Lemma set_if_found_same (key : string) (found : option string)
    (detalhes : gmap string pyval) :
  detalhes !! key = None ->
  set_if_found key found detalhes !! key = VStr <$> found.
Proof.
  intros H. destruct found as [t|]; cbn [set_if_found fmap option_fmap
                                         option_map]; [|exact H].
  apply lookup_insert_eq.
Qed.

(** What the parser of the page of details puts in its dictionary. *)
Lemma processar_detalhes_spec (Soup : string -> pagina_detalhes)
    (html numero now : string) :
  let d := _processar_detalhes_patente Soup html numero now in
  d !! "publicationNumber" = Some (VStr numero)
  /\ d !! "timestamp_detalhes" = Some (VStr now)
  /\ d !! "title" = VStr <$> d_title (Soup html)
  /\ d !! "abstract" = VStr <$> d_abstract (Soup html)
  /\ d !! "claims" = VStr <$> d_claims (Soup html)
  /\ d !! "description"
     = (fun t => VStr (PyStr.prefix_to 5000 t)) <$> d_description (Soup html)
  /\ d !! "erro" = None.
Proof.
  cbv zeta. unfold _processar_detalhes_patente. cbv zeta.
  repeat split.
  - rewrite !set_if_found_other by discriminate.
    rewrite lookup_insert_ne by discriminate. apply lookup_insert_eq.
  - rewrite !set_if_found_other by discriminate. apply lookup_insert_eq.
  - rewrite !set_if_found_other by discriminate.
    apply set_if_found_same.
    rewrite !lookup_insert_ne by discriminate. apply lookup_empty.
  - rewrite !set_if_found_other by discriminate.
    apply set_if_found_same. rewrite set_if_found_other by discriminate.
    rewrite !lookup_insert_ne by discriminate. apply lookup_empty.
  - rewrite !set_if_found_other by discriminate.
    apply set_if_found_same. rewrite !set_if_found_other by discriminate.
    rewrite !lookup_insert_ne by discriminate. apply lookup_empty.
  - rewrite set_if_found_same.
    + destruct (d_description (Soup html)); reflexivity.
    + rewrite !set_if_found_other by discriminate.
      rewrite !lookup_insert_ne by discriminate. apply lookup_empty.
  - rewrite !set_if_found_other by discriminate.
    rewrite !lookup_insert_ne by discriminate. apply lookup_empty.
Qed.

End DetailsPage.

(** X17: [obter_detalhes_patente] never raises and sends at most three
    requests, at least one when the first [wait] returns; when the first
    [wait] raises (the [OverflowError] of a limiter that overflows, which
    leaves everything as it was, or an exception of [time.sleep]),
    nothing is sent and the dictionary holds that exception.  The
    dictionary it returns always names the patent asked for.  It has no
    key [erro] exactly when a request was sent and the last one was
    answered with a status that [raise_for_status] accepts: then its
    title, abstract and claims are those found in the page answered, and
    its description is the one of the page cut to 5000 characters.  In
    every other case the dictionary holds the exception under [erro] and
    nothing of a page.  In a steady state with fewer than 1022
    consecutive errors and a streak in the float range a request is
    sent, and the exception held is neither an [OverflowError] nor one of
    [time.sleep]. *)
Theorem detalhes_name_the_patent
    (Soup : string -> Scraper.pagina_detalhes)
    (isoformat : Q -> string) (numero_publicacao : string)
    (s : Scraper.state) :
  exists d s',
    Scraper.obter_detalhes_patente Soup isoformat numero_publicacao s
    = (Scraper.Ok d, s')
    /\ d !! "publicationNumber"
       = Some (Scraper.DV (VStr numero_publicacao))
    /\ (Scraper.calls s <= Scraper.calls s' <= Scraper.calls s + 3)%nat
    /\ (fst (Scraper.wait s) = Scraper.Ok tt ->
        (Scraper.calls s < Scraper.calls s')%nat)
    /\ (forall e s1,
           Scraper.wait s = (Scraper.Raise e, s1) ->
           s' = s1 /\ Scraper.calls s' = Scraper.calls s
           /\ d !! "erro" = Some (Scraper.DErro e))
    /\ (Aux.overflows (Scraper.rate_limiter s) = true ->
        s' = s
        /\ d !! "erro" = Some (Scraper.DErro Scraper.OverflowError))
    /\ (Aux.steady s ->
        (Scraper.consecutive_errors (Scraper.rate_limiter s) < 1022)%nat ->
        Z.of_nat (Scraper.success_streak (Scraper.rate_limiter s))
        < Scraper.float_int_limit ->
        (Scraper.calls s < Scraper.calls s')%nat
        /\ d !! "erro" <> Some (Scraper.DErro Scraper.OverflowError)
        /\ d !! "erro" <> Some (Scraper.DErro Scraper.SleepError))
    /\ match d !! "erro" with
       | None =>
           (Scraper.calls s < Scraper.calls s')%nat
           /\ exists resp,
                Scraper.http s (pred (Scraper.calls s'))
                = Scraper.Responds resp
                /\ Scraper.raises_for_status resp = false
                /\ d !! "title"
                   = (fun t => Scraper.DV (VStr t))
                       <$> Scraper.d_title (Soup (Scraper.text resp))
                /\ d !! "abstract"
                   = (fun t => Scraper.DV (VStr t))
                       <$> Scraper.d_abstract (Soup (Scraper.text resp))
                /\ d !! "claims"
                   = (fun t => Scraper.DV (VStr t))
                       <$> Scraper.d_claims (Soup (Scraper.text resp))
                /\ d !! "description"
                   = (fun t => Scraper.DV (VStr (PyStr.prefix_to 5000 t)))
                       <$> Scraper.d_description (Soup (Scraper.text resp))
                /\ (forall t,
                       d !! "description" = Some (Scraper.DV (VStr t)) ->
                       (String.length t <= 5000)%nat)
       | Some v =>
           (exists e, v = Scraper.DErro e)
           /\ d !! "title" = None
           /\ d !! "abstract" = None
           /\ d !! "claims" = None
           /\ d !! "description" = None
           /\ (forall resp,
                  (Scraper.calls s < Scraper.calls s')%nat ->
                  Scraper.http s (pred (Scraper.calls s'))
                  = Scraper.Responds resp ->
                  Scraper.raises_for_status resp = true)
       end.
Proof.
  unfold Scraper.obter_detalhes_patente.
  destruct (Scraper._make_request
              (Scraper.BASE_URL +:+ "/search/en/detail.jsf") "GET" s)
    as [r s'] eqn:E.
  assert (Hwait : forall e s1,
             Scraper.wait s = (Scraper.Raise e, s1) ->
             r = Scraper.Raise e /\ s' = s1
             /\ Scraper.calls s' = Scraper.calls s).
  { intros e s1 Ew.
    exact (make_request_wait_raises _ _ s s1 s' e r Ew E). }
  pose proof (fun Hst Hce Hss =>
                make_request_steady _ _ s s' r Hst Hce Hss E) as Hsteady.
  unfold Scraper._make_request in E.
  pose proof (retrying_spec _ _ _ _ _ _ _ E) as Hspec.
  destruct Hspec as (_ & Hc & Hpos & _ & _ & Hr).
  assert (Herr : forall e,
             let d : gmap string Scraper.valor_detalhe :=
               <["erro" := Scraper.DErro e]>
                 (<["publicationNumber" :=
                      Scraper.DV (VStr numero_publicacao)]> ∅) in
             d !! "publicationNumber"
             = Some (Scraper.DV (VStr numero_publicacao))
             /\ d !! "erro" = Some (Scraper.DErro e)
             /\ d !! "title" = None
             /\ d !! "abstract" = None
             /\ d !! "claims" = None
             /\ d !! "description" = None).
  { intros e. cbv zeta. split.
    - rewrite lookup_insert_ne by discriminate. apply lookup_insert_eq.
    - split; [apply lookup_insert_eq|].
      repeat split; rewrite !lookup_insert_ne by discriminate;
        apply lookup_empty. }
  destruct r as [resp|e].
  - destruct Hr as (Hlt & Hh & Hs & _).
    destruct (processar_detalhes_spec Soup (Scraper.text resp)
                numero_publicacao (isoformat (Scraper.clock s')))
      as (Hp & _ & Ht & Ha & Hcl & Hd & He).
    cbv zeta in Hp, Ht, Ha, Hcl, Hd, He.
    eexists. exists s'. split; [reflexivity|].
    split; [rewrite lookup_fmap, Hp; reflexivity|].
    split; [exact Hc|]. split; [exact Hpos|].
    split; [intros e s1 Ew; destruct (Hwait e s1 Ew) as [K _];
            discriminate|].
    split; [intros Hov;
            destruct (Hwait _ _ (wait_raises s Hov)) as [K _];
            discriminate|].
    rewrite lookup_fmap, He. cbn [fmap option_fmap option_map].
    split; [intros _ _ _; split; [exact Hlt|split; discriminate]|].
    split; [exact Hlt|]. exists resp.
    split; [exact Hh|]. split; [exact Hs|].
    split; [rewrite lookup_fmap, Ht;
            destruct (Scraper.d_title (Soup (Scraper.text resp)));
            reflexivity|].
    split; [rewrite lookup_fmap, Ha;
            destruct (Scraper.d_abstract (Soup (Scraper.text resp)));
            reflexivity|].
    split; [rewrite lookup_fmap, Hcl;
            destruct (Scraper.d_claims (Soup (Scraper.text resp)));
            reflexivity|].
    split; [rewrite lookup_fmap, Hd;
            destruct (Scraper.d_description (Soup (Scraper.text resp)));
            reflexivity|].
    intros t. rewrite lookup_fmap, Hd.
    destruct (Scraper.d_description (Soup (Scraper.text resp))) as [t0|];
      [|discriminate].
    intros [= <-]. apply prefix_to_length.
  - destruct (Herr e) as (Hp & He & Ht & Ha & Hcl & Hd).
    cbv zeta in Hp, He, Ht, Ha, Hcl, Hd.
    eexists. exists s'. split; [reflexivity|]. split; [exact Hp|].
    split; [exact Hc|]. split; [exact Hpos|]. split.
    { intros e0 s1 Ew. destruct (Hwait e0 s1 Ew) as (K & K1 & K2).
      injection K as ->. split; [exact K1|]. split; [exact K2|exact He]. }
    split.
    { intros Hov. destruct (Hwait _ _ (wait_raises s Hov)) as (K & K1 & _).
      injection K as ->. split; [exact K1|exact He]. }
    split.
    { intros Hst Hce Hss.
      destruct (Hsteady Hst Hce Hss) as (Hw & N1 & N2).
      split; [exact (Hpos Hw)|]. rewrite He.
      split; intros [= ->]; [apply N1|apply N2]; reflexivity. }
    rewrite He. split; [exists e; reflexivity|].
    split; [exact Ht|]. split; [exact Ha|]. split; [exact Hcl|].
    split; [exact Hd|].
    intros resp Hlt Hresp.
    destruct e as [detail|detail|e1| | |f]; try contradiction.
    + destruct Hr as (_ & Hh & _). rewrite Hh in Hresp. discriminate.
    + destruct Hr as (_ & (detail & Hq & _) & _).
      unfold Aux.request_error in Hq. rewrite Hresp in Hq.
      destruct (Scraper.raises_for_status resp); [reflexivity|discriminate].
    + destruct Hr as (_ & _ & Hq & _).
      specialize (Hq (pred (Scraper.calls s')) ltac:(lia)).
      unfold Aux.request_error in Hq. rewrite Hresp in Hq.
      destruct (Scraper.raises_for_status resp);
        [reflexivity|contradiction].
    + destruct Hr as (_ & Hq & _).
      specialize (Hq (pred (Scraper.calls s')) ltac:(lia)).
      unfold Aux.request_error in Hq. rewrite Hresp in Hq.
      destruct (Scraper.raises_for_status resp);
        [reflexivity|contradiction].
Qed.

Lemma detalhes_name_the_patent_witness :
  let Soup := fun _ : string =>
    {| Scraper.d_title := Some "T"; Scraper.d_abstract := None;
       Scraper.d_claims := None; Scraper.d_description := None |} in
  exists d s',
    Scraper.obter_detalhes_patente Soup (fun _ => "now") "WO1"
      (Aux.scraper_state [Aux.scraper_response 200 "page"])
    = (Scraper.Ok d, s')
    /\ d !! "publicationNumber" = Some (Scraper.DV (VStr "WO1"))
    /\ (0 < Scraper.calls s')%nat.
Proof.
  intros Soup.
  destruct (detalhes_name_the_patent Soup (fun _ => "now") "WO1"
              (Aux.scraper_state [Aux.scraper_response 200 "page"]))
    as (d & s' & E & P & _ & L & _).
  exists d, s'. split; [exact E|]. split; [exact P|].
  apply L. reflexivity.
Defined.
